(** * Retention clean-up of build artifacts: a model of
      [clean_old_artifacts_parallel.py]

    The script enumerates repositories through the [jf] command-line tool,
    searches each one for old artifacts, leaves out the artifacts whose
    path matches an exclusion pattern, deletes the others through a thread
    pool and writes a semicolon-delimited report.

    The model is a shallow embedding.  Pure functions of the script are
    Rocq functions.  Code that logs, calls [jf], writes a file, exits or
    raises lives in a small state-and-exception monad [M].  Everything
    outside the process (the files, the [jf] tool, the clock, the order
    in which pool workers finish, whether a file can be written) is read
    from a [world], and [main] is given what [argparse] makes of the
    command line; the two library functions whose text is not part of
    the script, [fnmatch.fnmatch] and [json.loads], are parameters of
    the model, and [Fnmatch] below gives a concrete glob matcher to run
    the model on examples.

    Two kinds of values are read as strings where the script keeps
    whatever [json.loads] gave: the ["key"] and ["rclass"] of a
    repository entry and the ["path"] of an artifact record; on a value
    of another type the model stops with [TypeError] (see
    [subscript_str] and [item_path]), and the theorems about lists of
    repository entries and of artifact records say that these values
    are strings.  An exclusions file that exists is taken to be
    readable. *)

From stdpp Require Import gmap strings list pretty.
From Stdlib Require Import ZArith Ascii String.

Set Warnings "-register-all".

Open Scope string_scope.
Open Scope list_scope.
Open Scope stdpp_scope.

(** ** Python values and string helpers *)

(** What [json.loads] returns.  Numbers are kept as integers: the script
    only ever tests them for truth. *)
Inductive json : Type :=
| JNull
| JBool (b : bool)
| JNum (n : Z)
| JStr (s : string)
| JList (l : list json)
| JObj (kv : list (string * json)).

(** [d.get(key)] on a dict decoded from JSON.  A key written twice in the
    document keeps its last value, as in [json.loads]. *)
Fixpoint dict_get (key : string) (kv : list (string * json)) : option json :=
  match kv with
  | [] => None
  | (k, v) :: rest =>
      match dict_get key rest with
      | Some v' => Some v'
      | None => if String.eqb k key then Some v else None
      end
  end.

(** Truth value of a Python object, as tested by [if not x]. *)
Definition py_truthy (v : json) : bool :=
  match v with
  | JNull => false
  | JBool b => b
  | JNum n => negb (Z.eqb n 0)
  | JStr s => negb (String.eqb s "")
  | JList l => match l with [] => false | _ => true end
  | JObj kv => match kv with [] => false | _ => true end
  end.

(** [len(x)]; [None] stands for the [TypeError] of an object without
    length. *)
Definition py_len (v : json) : option nat :=
  match v with
  | JStr s => Some (String.length s)
  | JList l => Some (List.length l)
  | JObj kv => Some (List.length kv)
  | _ => None
  end.

(** [for item in x]: the items a [for] loop visits; [None] stands for the
    [TypeError] of an object that is not iterable.  A string yields its
    characters and a dict its keys. *)
Definition py_iter (v : json) : option (list json) :=
  match v with
  | JList l => Some l
  | JStr s => Some (map (fun c => JStr (String c "")) (list_ascii_of_string s))
  | JObj kv => Some (map (fun p => JStr (fst p)) kv)
  | _ => None
  end.

(** [sep.join(words)] *)
Definition str_join (sep : string) (words : list string) : string :=
  String.concat sep words.

(** [sub in s] for strings *)
Definition str_contains (sub s : string) : bool :=
  match String.index 0 sub s with Some _ => true | None => false end.

(** [c.isspace()] on the ASCII range *)
Definition is_space (c : ascii) : bool :=
  let n := nat_of_ascii c in
  (Nat.eqb n 32 || (Nat.leb 9 n && Nat.leb n 13) || (Nat.leb 28 n && Nat.leb n 31))%bool.

Fixpoint lstrip (s : list ascii) : list ascii :=
  match s with
  | c :: s' => if is_space c then lstrip s' else s
  | [] => []
  end.

(** [s.strip()] *)
Definition str_strip (s : string) : string :=
  string_of_list_ascii (rev (lstrip (rev (lstrip (list_ascii_of_string s))))).

(** [char * n] *)
Fixpoint str_repeat (c : ascii) (n : nat) : string :=
  match n with
  | O => ""
  | S n' => String c (str_repeat c n')
  end.

(** [f"{s:<{w}}"]: [s] padded with blanks on the right up to width [w] *)
Definition str_ljust (s : string) (w : nat) : string :=
  s +:+ str_repeat " "%char (w - String.length s).

(** ** Glob matching

    A model of the standard library's [fnmatch] on a POSIX system, where
    [os.path.normcase] returns its argument.  As in the library, a
    pattern is first translated ([*] any run of characters, [?] one
    character, [[seq]] and [[!seq]] character sets with [a-z] ranges, a
    [[] without closing bracket taken literally) and the whole name is
    then matched against the translation. *)
Module Fnmatch.

Inductive class_item : Type :=
| Single (c : ascii)
| Range (lo hi : ascii).

Inductive token : Type :=
| Star
| AnyChar
| CharClass (negate : bool) (items : list class_item)
| Lit (c : ascii).

(** The loop [while j < n and pat[j] != ']'] of [translate]: the text
    up to the next closing bracket and the text after it. *)
Fixpoint find_close (pat : list ascii) : option (list ascii * list ascii) :=
  match pat with
  | [] => None
  | c :: rest =>
      if Ascii.eqb c "]" then Some ([], rest)
      else match find_close rest with
           | Some (stuff, after) => Some (c :: stuff, after)
           | None => None
           end
  end.

(** The end of a bracket expression that starts right after [[]: an
    exclamation mark and then a closing bracket in first position do
    not close it. *)
Definition bracket_end (pat : list ascii) : option (list ascii * list ascii) :=
  let skip_close (pre rest : list ascii) :=
    match rest with
    | c :: rest' =>
        if Ascii.eqb c "]" then
          match find_close rest' with
          | Some (stuff, after) => Some (pre ++ c :: stuff, after)
          | None => None
          end
        else
          match find_close rest with
          | Some (stuff, after) => Some (pre ++ stuff, after)
          | None => None
          end
    | [] => None
    end in
  match pat with
  | c :: rest => if Ascii.eqb c "!" then skip_close [c] rest else skip_close [] pat
  | [] => None
  end.

(** The members of a character set: [lo-hi] is a range, a hyphen that
    does not stand between two characters is itself a member. *)
Fixpoint class_items (stuff : list ascii) : list class_item :=
  match stuff with
  | [] => []
  | lo :: rest =>
      match rest with
      | dash :: hi :: rest' =>
          if Ascii.eqb dash "-" then Range lo hi :: class_items rest'
          else Single lo :: class_items rest
      | _ => Single lo :: class_items rest
      end
  end.

Definition char_class (stuff : list ascii) : token :=
  match stuff with
  | c :: rest =>
      if Ascii.eqb c "!" then CharClass true (class_items rest)
      else CharClass false (class_items stuff)
  | [] => CharClass false []
  end.

Fixpoint translate_fuel (fuel : nat) (pat : list ascii) : list token :=
  match fuel with
  | O => []
  | S fuel' =>
      match pat with
      | [] => []
      | c :: rest =>
          if Ascii.eqb c "*" then Star :: translate_fuel fuel' rest
          else if Ascii.eqb c "?" then AnyChar :: translate_fuel fuel' rest
          else if Ascii.eqb c "[" then
            match bracket_end rest with
            | Some (stuff, after) => char_class stuff :: translate_fuel fuel' after
            | None => Lit c :: translate_fuel fuel' rest
            end
          else Lit c :: translate_fuel fuel' rest
      end
  end.

Definition translate (pat : string) : list token :=
  let p := list_ascii_of_string pat in translate_fuel (List.length p) p.

Definition in_item (c : ascii) (it : class_item) : bool :=
  match it with
  | Single x => Ascii.eqb c x
  | Range lo hi => (Ascii.leb lo c && Ascii.leb c hi)%bool
  end.

(** Whole-string match of a translated pattern. *)
Fixpoint matches (ts : list token) (s : list ascii) {struct ts} : bool :=
  match ts with
  | [] => match s with [] => true | _ => false end
  | Star :: ts' =>
      (fix star (s : list ascii) : bool :=
         (matches ts' s ||
          match s with
          | [] => false
          | _ :: s' => star s'
          end)%bool) s
  | AnyChar :: ts' =>
      match s with
      | _ :: s' => matches ts' s'
      | [] => false
      end
  | CharClass negate items :: ts' =>
      match s with
      | c :: s' => (xorb negate (existsb (in_item c) items) && matches ts' s')%bool
      | [] => false
      end
  | Lit x :: ts' =>
      match s with
      | c :: s' => (Ascii.eqb c x && matches ts' s')%bool
      | [] => false
      end
  end.

(** [fnmatch.fnmatchcase(name, pat)] *)
Definition fnmatchcase (name pat : string) : bool :=
  matches (translate pat) (list_ascii_of_string name).

(** [os.path.normcase] of [posixpath] *)
Definition normcase (s : string) : string := s.

(** [fnmatch.fnmatch(name, pat)] *)
Definition fnmatch (name pat : string) : bool :=
  fnmatchcase (normcase name) (normcase pat).

End Fnmatch.

(** ** The exclusion matcher *)

Section Matcher.

(** [fnmatch.fnmatch], whatever the platform makes of it. *)
Variable fnmatch : string → string → bool.

(** [is_excluded(full_path, exclusion_patterns, matched_patterns)] on a
    path and patterns that are strings: the set passed as third argument
    is updated in place by the script; here the updated set is returned
    next to the boolean.  The call on patterns that nobody checked is
    [call_is_excluded] below. *)
Fixpoint is_excluded (full_path : string) (exclusion_patterns : list string)
    (matched_patterns : gset string) : bool * gset string :=
  match exclusion_patterns with
  | [] => (false, matched_patterns)
  | pattern :: rest =>
      if fnmatch full_path pattern
      then (true, {[ pattern ]} ∪ matched_patterns)
      else is_excluded full_path rest matched_patterns
  end.

End Matcher.

(** ** Effects: log, external calls, exits and exceptions *)

Inductive level : Type := DEBUG | INFO | WARNING | ERROR.

(** The exceptions the script tells apart, with what it reads from them:
    [str(e)] and, for a failed command, [e.stderr]. *)
Inductive exception : Type :=
| CalledProcessError (e_str e_stderr : string)
| JSONDecodeError
| Exception (cls e_str : string).

Definition exc_str (e : exception) : string :=
  match e with
  | CalledProcessError e_str _ => e_str
  | JSONDecodeError => ""
  | Exception _ e_str => e_str
  end.

(** One row of the report; the script builds it as a dict with the keys
    [Repository], [Path], [Status], [Exclusion Pattern] and [Error]. *)
Record csv_record : Type := mk_record {
  Repository : string;
  Path : string;
  Status : string;
  Exclusion_Pattern : string;
  Error : string
}.

(** What [csv.DictWriter] has written: the header and the rows. *)
Record csv_file : Type := mk_csv {
  delimiter : string;
  fieldnames : list string;
  rows : list csv_record
}.

(** A file the script writes: the log file of [logging.FileHandler],
    whose lines are the records of [logs], or the report. *)
Inductive file : Type :=
| log_file
| report_file (content : csv_file).

(** The part of the process state the script changes: the records handed
    to the logger, the commands handed to [subprocess.run] so far (the
    latest first), and the files written, in the order of their
    creation. *)
Record state : Type := mk_state {
  logs : list (level * string);
  calls : list (list string);
  files : list (string * file)
}.

(** The number of [jf] commands run so far. *)
Definition ncalls (s : state) : nat := List.length (calls s).

Inductive result (A : Type) : Type :=
| Ret (a : A)
| SysExit (code : Z)
| Raise (e : exception).
Arguments Ret {A} a.
Arguments SysExit {A} code.
Arguments Raise {A} e.

Definition M (A : Type) : Type := state → result A * state.

#[export] Instance M_ret : MRet M := λ A a s, (Ret a, s).

#[export] Instance M_bind : MBind M := λ A B f m s,
  match m s with
  | (Ret a, s') => f a s'
  | (SysExit code, s') => (SysExit code, s')
  | (Raise e, s') => (Raise e, s')
  end.

(** [logger.info], [logger.warning], [logger.error] *)
Definition log (lvl : level) (msg : string) : M unit :=
  λ s, (Ret tt, mk_state (logs s ++ [(lvl, msg)]) (calls s) (files s)).

(** [sys.exit(code)] *)
Definition sys_exit {A : Type} (code : Z) : M A := λ s, (SysExit code, s).

Definition raise {A : Type} (e : exception) : M A := λ s, (Raise e, s).

(** [try: body / except ...: handler]; the handler says which exceptions
    it takes.  [sys.exit] is not an [Exception] and passes through. *)
Definition try_except {A : Type} (body : M A) (handler : exception → option (M A)) : M A :=
  λ s,
    match body s with
    | (Raise e, s') =>
        match handler e with
        | Some h => h s'
        | None => (Raise e, s')
        end
    | r => r
    end.

(** The exit status the operating system sees: 0 when [main] returns, the
    argument of [sys.exit], 1 for an exception nobody caught. *)
Definition exit_status {A : Type} (r : result A) : Z :=
  match r with
  | Ret _ => 0
  | SysExit code => code
  | Raise _ => 1
  end.

(** ** The world outside the process *)

Record world : Type := mk_world {
  (** [datetime.now().strftime('%Y%m%d_%H%M%S')] when the logger is set up *)
  now : string;
  (** [uuid.uuid4().hex] *)
  uuid4_hex : string;
  (** [os.path.exists] *)
  path_exists : string → bool;
  (** the text of an existing file *)
  read_text : string → string;
  (** [subprocess.run(cmd, check=True)] for the call number [n] of the
      run: the standard output of a command that ended with status 0, or
      the exception raised ([CalledProcessError] for another status) *)
  run : nat → list string → string + exception;
  (** the order in which [as_completed] hands back the futures of the
      commands submitted to a pool *)
  as_completed : nat → list (list string) → list (list string);
  (** [logging.FileHandler(path)] and [open(path, "w")]: class and text
      of the exception raised when the file cannot be created, if any *)
  open_error : string → option (string * string);
  (** [writer.writerow(row)]: class and text of the exception raised when
      the row cannot be written (a text that cannot be encoded, a full
      disk), if any *)
  writerow_error : csv_record → option (string * string)
}.

(** Command-line arguments after [parser.parse_args()]. *)
Record arguments : Type := mk_args {
  artifactory_url : string;
  access_token : string;
  older_than : string;
  exclusions_file : string;
  aql_spec : string;
  dry_run : bool;
  threads : Z
}.

(** What [parser.parse_args()] makes of the command line: the arguments,
    or one of the two ways in which [argparse] ends the process itself,
    the help asked for with [-h] (printed, then [sys.exit(0)]) and a
    command line that does not fit the parser, such as a required
    argument left out or a [--threads] that is not an integer (usage
    printed, then [sys.exit(2)]). *)
Inductive command_line : Type :=
| Parsed (args : arguments)
| Help
| Usage_error.

(** An entry of the list built by [get_repositories]. *)
Record repository : Type := mk_repo {
  key : string;
  class : string
}.

(** [build_delete_command(path, dry_run)] *)
Definition build_delete_command (path : string) (dry_run : bool) : list string :=
  let cmd := ["jf"; "rt"; "del"; path; "--quiet"] in
  if dry_run then cmd ++ ["--dry-run"] else cmd.

(** The names of the two files of a run. *)
Definition log_filename (timestamp : string) : string :=
  "clean_old_artifacts_" +:+ timestamp +:+ ".log".

Definition csv_filename (timestamp : string) : string :=
  "clean-up-" +:+ timestamp +:+ ".csv".

(** [x in cmd] for a list of strings *)
Definition list_contains (x : string) (l : list string) : bool :=
  existsb (String.eqb x) l.

(** [print_table]: the lines of the table, without the logging. *)
Definition col_widths (headers : list string) (table : list (list string)) : list nat :=
  imap (λ i header,
          foldr Nat.max 0 (map String.length (header :: map (λ row, nth i row "") table)))
       headers.

Definition table_line (widths : list nat) : string :=
  "+" +:+ str_join "+" (map (λ w, str_repeat "-"%char (w + 2)) widths) +:+ "+".

Definition table_row (widths : list nat) (row : list string) : string :=
  "| " +:+ str_join " | " (imap (λ i cell, str_ljust cell (nth i widths 0)) row) +:+ " |".

Section Model.

(** [fnmatch.fnmatch] and [json.loads] ([None] when the text is not
    JSON and [JSONDecodeError] is raised). *)
Variable fnmatch : string → string → bool.
Variable json_loads : string → option json.
Variable w : world.

(** [subprocess.run(cmd, ..., check=True)], returning [result.stdout] *)
Definition subprocess_run (cmd : list string) : M string :=
  λ s,
    let s' := mk_state (logs s) (cmd :: calls s) (files s) in
    match run w (ncalls s) cmd with
    | inl stdout => (Ret stdout, s')
    | inr e => (Raise e, s')
    end.

Definition json_loads_M (text : string) : M json :=
  match json_loads text with
  | Some data => mret data
  | None => raise JSONDecodeError
  end.

(** Creating a file: [logging.FileHandler(path)], [open(path, "w")]. *)
Definition create_file (path : string) (content : file) : M unit :=
  λ s,
    match open_error w path with
    | Some (cls, e_str) => (Raise (Exception cls e_str), s)
    | None => (Ret tt, mk_state (logs s) (calls s) (files s ++ [(path, content)]))
    end.

(** [setup_logger()]: the file handler creates the log file; the two
    handlers are the [logs] of the state; the time stamp is returned. *)
Definition setup_logger : M string :=
  let timestamp := now w in
  create_file (log_filename timestamp) log_file;;
  mret timestamp.

(** [parser.parse_args()] *)
Definition parse_args (cl : command_line) : M arguments :=
  match cl with
  | Parsed args => mret args
  | Help => sys_exit 0
  | Usage_error => sys_exit 2
  end.

Definition jfrog_cli_configure (server_id url token : string) : M unit :=
  log INFO ("Configuring JFrog CLI with server ID '" +:+ server_id +:+ "'...");;
  configured ← try_except
    (stdout ← subprocess_run ["jf"; "config"; "show"];
     if str_contains server_id stdout then
       log INFO ("Server '" +:+ server_id +:+ "' already configured, skipping add.");;
       mret true
     else mret false)
    (λ e, match e with
          | CalledProcessError _ _ => Some (mret false)
          | _ => None
          end);
  if (configured : bool) then mret tt
  else
    let cmd := ["jf"; "config"; "add"; server_id; "--url"; url;
                "--access-token"; token; "--interactive=false"] in
    try_except
      (subprocess_run cmd;;
       log INFO ("Successfully added JFrog CLI server '" +:+ server_id +:+ "'."))
      (λ e, match e with
            | CalledProcessError _ _ =>
                Some (log ERROR ("Failed to configure JFrog CLI: " +:+ exc_str e);;
                      sys_exit 1)
            | _ => None
            end);;
    try_except
      (subprocess_run ["jf"; "config"; "use"; server_id];;
       log INFO ("Using '" +:+ server_id +:+ "' as default server."))
      (λ e, match e with
            | CalledProcessError _ _ =>
                Some (log ERROR ("Failed to set default server: " +:+ exc_str e);;
                      sys_exit 1)
            | _ => None
            end).

(** [load_exclusion_patterns(json_path, logger)].  The decoded value of
    ["exclude"] is returned as it is: only its length is asked for. *)
Definition load_exclusion_patterns (json_path : string) : M json :=
  if negb (path_exists w json_path) then
    log ERROR ("Exclusion file not found: " +:+ json_path);;
    sys_exit 1
  else
    exclusions ← json_loads_M (read_text w json_path);
    patterns ← match exclusions with
               | JObj kv => mret (default (JList []) (dict_get "exclude" kv))
               | _ => raise (Exception "AttributeError" "")
               end;
    n ← match py_len patterns with
        | Some n => mret n
        | None => raise (Exception "TypeError" "")
        end;
    log INFO ("Loaded " +:+ pretty n +:+ " exclusion patterns from " +:+ json_path);;
    mret patterns.

(** [is_excluded] as the loop of [main] calls it (line 223), with a fresh
    set and with the patterns as [load_exclusion_patterns] returned
    them.  The [for] loop visits the items of that value, and
    [fnmatch.fnmatch] raises [TypeError] when the pattern it is handed is
    not a string. *)
Fixpoint is_excluded_items (full_path : string) (items : list json)
    (matched_patterns : gset string) : M (bool * gset string) :=
  match items with
  | [] => mret (false, matched_patterns)
  | JStr pattern :: rest =>
      if fnmatch full_path pattern
      then mret (true, {[ pattern ]} ∪ matched_patterns)
      else is_excluded_items full_path rest matched_patterns
  | _ :: _ => raise (Exception "TypeError" "")
  end.

Definition call_is_excluded (full_path : string) (exclusion_patterns : json)
    : M (bool * gset string) :=
  match py_iter exclusion_patterns with
  | Some items => is_excluded_items full_path items ∅
  | None => raise (Exception "TypeError" "")
  end.

(** [repo["key"]] and [repo["rclass"]]: a missing key is a [KeyError],
    and an entry that is not a dict cannot be subscripted with a string
    ([TypeError]).  The values are repository names and classes; the
    model reads them as strings.  The script keeps a value of another
    type and formats it with [str] wherever it is used; the model stops
    with [TypeError] on it. *)
Definition subscript_str (v : json) (k : string) : M string :=
  match v with
  | JObj kv =>
      match dict_get k kv with
      | Some (JStr s) => mret s
      | Some _ => raise (Exception "TypeError" "")
      | None => raise (Exception "KeyError" ("'" +:+ k +:+ "'"))
      end
  | _ => raise (Exception "TypeError" "")
  end.

Fixpoint repos_of (entries : list json) : M (list repository) :=
  match entries with
  | [] => mret []
  | repo :: rest =>
      k ← subscript_str repo "key";
      c ← subscript_str repo "rclass";
      repos ← repos_of rest;
      mret (mk_repo k c :: repos)
  end.

(** The inner loop of [get_repositories] for one class. *)
Definition repos_of_class (data : json) (rclass : string) : M (list repository) :=
  match data with
  | JObj kv =>
      match py_iter (default (JList []) (dict_get rclass kv)) with
      | Some entries => repos_of entries
      | None => raise (Exception "TypeError" "")
      end
  | _ => raise (Exception "AttributeError" "")
  end.

Definition get_repositories : M (list repository) :=
  log INFO "Fetching repository configurations...";;
  try_except
    (stdout ← subprocess_run ["jf"; "rt"; "curl"; "-XGET"; "/api/repositories/configurations"];
     data ← json_loads_M stdout;
     local ← repos_of_class data "LOCAL";
     federated ← repos_of_class data "FEDERATED";
     mret (local ++ federated))
    (λ e, match e with
          | CalledProcessError _ _ =>
              Some (log ERROR ("Failed to fetch repositories: " +:+ exc_str e);;
                    sys_exit 1)
          | JSONDecodeError =>
              Some (log ERROR "Failed to parse repository list JSON.";;
                    sys_exit 1)
          | _ => None
          end).

Definition print_table (headers : list string) (table : list (list string)) : M unit :=
  let widths := col_widths headers table in
  let line := table_line widths in
  log INFO line;;
  log INFO (table_row widths headers);;
  log INFO line;;
  foldr (λ row rest, log INFO (table_row widths row);; rest) (mret tt) table;;
  log INFO line.

(** [get_old_artifacts(spec_path, spec_timeframe, repo, logger)]: the
    search output, or [None] when the search command failed. *)
Definition get_old_artifacts (spec_path spec_timeframe repo : string) : M (option string) :=
  if negb (path_exists w spec_path) then
    log ERROR ("AQL spec file not found: " +:+ spec_path);;
    sys_exit 1
  else
    let spec_vars := "timeframe=" +:+ spec_timeframe +:+ ";repo=" +:+ repo in
    let command := ["jf"; "rt"; "search"; "--spec"; spec_path; "--spec-vars"; spec_vars] in
    try_except
      (stdout ← subprocess_run command;
       mret (Some stdout))
      (λ e, match e with
            | CalledProcessError _ e_stderr =>
                Some (log ERROR "Search using spec file failed:";;
                      log ERROR (str_strip e_stderr);;
                      mret None)
            | _ => None
            end).

(** [parse_artifacts(search_output, logger)] *)
Definition parse_artifacts (search_output : string) : M json :=
  try_except
    (data ← json_loads_M search_output;
     match data with
     | JList _ => mret data
     | JObj kv =>
         match dict_get "results" kv with
         | Some results => mret results
         | None =>
             log WARNING "Unexpected data format in search output.";;
             mret (JList [])
         end
     | _ =>
         log WARNING "Unexpected data format in search output.";;
         mret (JList [])
     end)
    (λ e, match e with
          | JSONDecodeError =>
              Some (log ERROR "Failed to parse search response.";;
                    mret (JList []))
          | _ => None
          end).

(** [execute_delete(cmd, logger)] *)
Definition execute_delete (cmd : list string) : M (bool * string) :=
  try_except
    (subprocess_run cmd;;
     (if list_contains "--dry-run" cmd
      then log INFO ("[DRYRUN-COMPLETE] " +:+ str_join " " cmd)
      else log INFO ("[DELETED] " +:+ str_join " " cmd));;
     mret (true, ""))
    (λ e, match e with
          | CalledProcessError _ e_stderr =>
              let error_msg :=
                if String.eqb e_stderr "" then "Unknown error" else str_strip e_stderr in
              Some (log ERROR ("[ERROR] Delete failed: " +:+ str_join " " cmd +:+ " - " +:+ error_msg);;
                    mret (false, error_msg))
          | _ => None
          end).

(** ** The body of [main] *)

(** [item.get("path", "")] (line 221).  An item that is not a dict has
    no [get] ([AttributeError]).  The model reads the path as a string.
    The script carries a value of another type on: [fnmatch] raises
    [TypeError] on it as soon as there is a pattern to try, and with no
    pattern at all the [subprocess.run] of the worker raises it, which
    the dispatcher reports as an [Error] row.  The model stops with
    [TypeError] in both cases. *)
Definition item_path (item : json) : M string :=
  match item with
  | JObj kv =>
      match dict_get "path" kv with
      | None => mret ""
      | Some (JStr path) => mret path
      | Some _ => raise (Exception "TypeError" "")
      end
  | _ => raise (Exception "AttributeError" "")
  end.

Definition skipped_record (repo_key path : string) (matched_patterns : gset string) : csv_record :=
  {| Repository := repo_key;
     Path := path;
     Status := "skipped";
     Exclusion_Pattern := str_join ", " (elements matched_patterns);
     Error := "" |}.

(** The loop over the artifacts of one repository (lines 220-235): an
    excluded artifact is reported as skipped, for any other a delete
    command is queued. *)
Fixpoint check_exclusions (repo_key : string) (exclusion_patterns : json)
    (dry : bool) (artifacts : list json)
    (csv_records : list csv_record) (delete_commands : list (list string))
    : M (list csv_record * list (list string)) :=
  match artifacts with
  | [] => mret (csv_records, delete_commands)
  | item :: rest =>
      path ← item_path item;
      '(excluded, matched_patterns) ← call_is_excluded path exclusion_patterns;
      if (excluded : bool) then
        log INFO ("[SKIP] Excluded by pattern: " +:+ path);;
        check_exclusions repo_key exclusion_patterns dry rest
          (csv_records ++ [skipped_record repo_key path matched_patterns])
          delete_commands
      else
        check_exclusions repo_key exclusion_patterns dry rest
          csv_records
          (delete_commands ++ [build_delete_command path dry])
  end.

(** [cmd[3]]: every queued command has the path as fourth word. *)
Definition cmd_path (cmd : list string) : string := nth 3 cmd "".

(** One turn of the loop over [as_completed] (lines 240-259): the
    worker's call of [execute_delete] and the handling of its future. *)
Definition collect_result (repo_key : string) (cmd : list string)
    (csv_records : list csv_record) : M (list csv_record) :=
  try_except
    ('(success, error_msg) ← execute_delete cmd;
     let status := if (success : bool) then "deleted" else "error" in
     mret (csv_records ++
           [{| Repository := repo_key;
               Path := cmd_path cmd;
               Status := status;
               Exclusion_Pattern := "";
               Error := error_msg |}]))
    (λ exc,
       Some (log ERROR ("Unexpected error while deleting " +:+ cmd_path cmd +:+ ": " +:+ exc_str exc);;
             mret (csv_records ++
                   [{| Repository := repo_key;
                       Path := cmd_path cmd;
                       Status := "Error";
                       Exclusion_Pattern := "";
                       Error := exc_str exc |}]))).

Fixpoint collect_results (repo_key : string) (completed : list (list string))
    (csv_records : list csv_record) : M (list csv_record) :=
  match completed with
  | [] => mret csv_records
  | cmd :: rest =>
      csv_records' ← collect_result repo_key cmd csv_records;
      collect_results repo_key rest csv_records'
  end.

(** The thread pool of one repository (lines 237-259).
    [ThreadPoolExecutor] refuses a worker count below one.  The workers
    run apart from each other; the model lets each one run when
    [as_completed] hands back its future, in the order the world
    chooses. *)
Definition run_deletions (repo_key : string) (max_workers : Z)
    (delete_commands : list (list string)) (csv_records : list csv_record)
    : M (list csv_record) :=
  if (max_workers <=? 0)%Z then
    raise (Exception "ValueError" "max_workers must be greater than 0")
  else
    completed ← (λ s, (Ret (as_completed w (ncalls s) delete_commands), s));
    collect_results repo_key completed csv_records.

(** Lines 216-259: what is done with the artifacts found in one
    repository. *)
Definition dispatch (args : arguments) (exclusion_patterns : json)
    (repo_key : string) (artifacts : json) (csv_records : list csv_record)
    : M (list csv_record) :=
  n ← match py_len artifacts with
      | Some n => mret n
      | None => raise (Exception "TypeError" "")
      end;
  log INFO (pretty n +:+ " artifact(s) found in " +:+ repo_key +:+ ". Checking exclusions...");;
  items ← match py_iter artifacts with
          | Some items => mret items
          | None => raise (Exception "TypeError" "")
          end;
  '(csv_records', delete_commands) ←
    check_exclusions repo_key exclusion_patterns (dry_run args) items csv_records [];
  run_deletions repo_key (threads args) delete_commands csv_records'.

(** One turn of the loop over the repositories (lines 206-259). *)
Definition process_repository (args : arguments) (exclusion_patterns : json)
    (repo : repository) (csv_records : list csv_record) : M (list csv_record) :=
  log INFO ("Processing repository: " +:+ key repo +:+ " (" +:+ class repo +:+ ")");;
  raw_output ← get_old_artifacts (aql_spec args) (older_than args) (key repo);
  match raw_output with
  | None => mret csv_records
  | Some raw =>
      if String.eqb raw "" then mret csv_records
      else
        artifacts ← parse_artifacts raw;
        if negb (py_truthy artifacts) then
          log INFO ("No matching artifacts found in " +:+ key repo +:+ ".");;
          mret csv_records
        else dispatch args exclusion_patterns (key repo) artifacts csv_records
  end.

Fixpoint process_repositories (args : arguments) (exclusion_patterns : json)
    (repos : list repository) (csv_records : list csv_record) : M (list csv_record) :=
  match repos with
  | [] => mret csv_records
  | repo :: rest =>
      csv_records' ← process_repository args exclusion_patterns repo csv_records;
      process_repositories args exclusion_patterns rest csv_records'
  end.

Definition csv_headers : list string :=
  ["Repository"; "Path"; "Status"; "Exclusion Pattern"; "Error"].

(** The loop over [writer.writerow] (lines 266-267): the rows written
    before one cannot be, and the exception of that one. *)
Fixpoint write_rows (csv_records : list csv_record)
    : list csv_record * option (string * string) :=
  match csv_records with
  | [] => ([], None)
  | row :: rest =>
      match writerow_error w row with
      | Some e => ([], Some e)
      | None => let (written, e) := write_rows rest in (row :: written, e)
      end
  end.

(** Lines 262-267: the report file.  When a row cannot be written, the
    [with] statement closes the file with what was written before and
    the exception goes on. *)
Definition write_csv (csv_filename : string) (csv_records : list csv_record) : M unit :=
  λ s,
    match open_error w csv_filename with
    | Some (cls, e_str) => (Raise (Exception cls e_str), s)
    | None =>
        let (written, e) := write_rows csv_records in
        let s' := mk_state (logs s) (calls s)
                    (files s ++ [(csv_filename, report_file (mk_csv ";" csv_headers written))]) in
        match e with
        | None => (Ret tt, s')
        | Some (cls, e_str) => (Raise (Exception cls e_str), s')
        end
    end.

(** The fatal part of the start-up: configuration of [jf], exclusions,
    list of repositories (lines 188-193). *)
Definition setup (args : arguments) : M (json * list repository) :=
  let server_id := "cli-config-" +:+ substring 0 8 (uuid4_hex w) in
  jfrog_cli_configure server_id (artifactory_url args) (access_token args);;
  exclusion_patterns ← load_exclusion_patterns (exclusions_file args);
  repos ← get_repositories;
  mret (exclusion_patterns, repos).

Definition main (cl : command_line) : M unit :=
  timestamp ← setup_logger;
  args ← parse_args cl;
  '(exclusion_patterns, repos) ← setup args;
  match repos with
  | [] => log INFO "No LOCAL or FEDERATED repositories found."
  | _ :: _ =>
      log INFO "Repositories discovered:";;
      print_table ["Repository"; "Class"] (map (λ r, [key r; class r]) repos);;
      csv_records ← process_repositories args exclusion_patterns repos [];
      write_csv (csv_filename timestamp) csv_records;;
      log INFO ("CSV report generated: " +:+ csv_filename timestamp)
  end.

End Model.

Definition state0 : state := mk_state [] [] [].

(** A pattern without [*], [?] and [[] *)
Definition literal (pat : list ascii) : Prop :=
  Forall (λ c, Ascii.eqb c "*" = false ∧ Ascii.eqb c "?" = false ∧ Ascii.eqb c "[" = false) pat.

(** Artifact records as the model reads them: a dict whose ["path"], when
    there is one, is a string.  [artifact_path] is the path the loop of
    [main] works with. *)
Definition artifact_path (item : json) : option string :=
  match item with
  | JObj kv =>
      match dict_get "path" kv with
      | None => Some ""
      | Some (JStr path) => Some path
      | Some _ => None
      end
  | _ => None
  end.

Definition artifact_record (item : json) : Prop := is_Some (artifact_path item).

(** The statuses of a delete attempt, as the script writes them. *)
Definition delete_statuses : list string := ["deleted"; "error"; "Error"].

(** The status enumeration of the specification. *)
Definition spec_statuses : list string := ["skipped"; "deleted"; "error"].

(** The paths of a list of artifact records, in order. *)
Definition paths_of (items : list json) : list string := omap artifact_path items.

(** The patterns that the loop of [is_excluded] visits in a loaded value
    all of whose items are strings: the items of a list, the characters
    of a string, the keys of a dict. *)
Definition str_items (v : json) : option (list string) :=
  match py_iter v with
  | Some items =>
      foldr (λ item acc,
               match item, acc with
               | JStr s, Some l => Some (s :: l)
               | _, _ => None
               end) (Some []) items
  | None => None
  end.

(** The boolean answer of [is_excluded] as the loop of [main] asks it,
    with a fresh empty set. *)
Definition excluded (fnmatch : string → string → bool) (patterns : list string)
    (path : string) : bool :=
  (is_excluded fnmatch path patterns ∅).1.

(** What a report row says about its artifact: a skip of an excluded
    path, or a delete attempt on a path that is not excluded. *)
Definition outcome_of (fnmatch : string → string → bool) (patterns : list string)
    (repo_key : string) (r : csv_record) : Prop :=
  Repository r = repo_key ∧
  ((Status r = "skipped" ∧ excluded fnmatch patterns (Path r) = true) ∨
   (Status r ∈ delete_statuses ∧ Exclusion_Pattern r = "" ∧
    excluded fnmatch patterns (Path r) = false)).

(** [as_completed] yields every future of the pool once. *)
Definition fair (w : world) : Prop :=
  ∀ (n : nat) (cmds : list (list string)), as_completed w n cmds ≡ₚ cmds.

(** The [command] of [get_old_artifacts]. *)
Definition search_command (spec_path spec_timeframe repo : string) : list string :=
  ["jf"; "rt"; "search"; "--spec"; spec_path; "--spec-vars";
   "timeframe=" +:+ spec_timeframe +:+ ";repo=" +:+ repo].

(** A decoded search output that is neither a list nor a dict with
    ["results"]. *)
Definition unexpected_shape (data : json) : Prop :=
  match data with
  | JList _ => False
  | JObj kv => dict_get "results" kv = None
  | _ => True
  end.

(** The state after one more record was logged. *)
Definition logged (s : state) (lvl : level) (msg : string) : state :=
  mk_state (logs s ++ [(lvl, msg)]) (calls s) (files s).

(** The state after one more [jf] command was run. *)
Definition called (s : state) (cmd : list string) : state :=
  mk_state (logs s) (cmd :: calls s) (files s).

(** The state after one more file was written. *)
Definition created (s : state) (path : string) (content : file) : state :=
  mk_state (logs s) (calls s) (files s ++ [(path, content)]).

(** What the loop of [main] can work with after parsing: a list of
    artifact records, or a value that counts as false. *)
Definition artifact_list (v : json) : Prop :=
  match v with
  | JList items => Forall artifact_record items
  | _ => py_truthy v = false
  end.

Definition search_output_ok (json_loads : string → option json) (out : string) : Prop :=
  match json_loads out with
  | Some (JList items) => Forall artifact_record items
  | Some (JObj kv) =>
      match dict_get "results" kv with
      | Some results => artifact_list results
      | None => True
      end
  | _ => True
  end.

(** Every search command either ends with a status that is not zero or
    prints artifact records. *)
Definition search_behaves (json_loads : string → option json) (w : world) : Prop :=
  ∀ (n : nat) (spec_path spec_timeframe repo : string),
    match run w n (search_command spec_path spec_timeframe repo) with
    | inl out => search_output_ok json_loads out
    | inr (CalledProcessError _ _) => True
    | inr _ => False
    end.

(** A computation that writes no file. *)
Definition keeps_files {A : Type} (m : M A) : Prop :=
  ∀ s : state, files (m s).2 = files s.

(** A computation out of which no [CalledProcessError] comes: the failure
    of a [jf] command is dealt with inside. *)
Definition handles_failed_commands {A : Type} (m : M A) : Prop :=
  ∀ (s : state) (e_str e_stderr : string),
    (m s).1 ≠ Raise (CalledProcessError e_str e_stderr).

(** A computation that calls [sys.exit] with no other code than 1. *)
Definition exits_with_one {A : Type} (m : M A) : Prop :=
  ∀ (s : state) (code : Z), (m s).1 = SysExit code → code = 1%Z.

(** An entry of the repository configurations as the script reads it:
    a dict whose ["key"] and ["rclass"] are the strings of [repo]. *)
Definition repo_entry (entry : json) (repo : repository) : Prop :=
  ∃ kv : list (string * json),
    entry = JObj kv ∧
    dict_get "key" kv = Some (JStr (key repo)) ∧
    dict_get "rclass" kv = Some (JStr (class repo)).

(** A search output in which the loop of [main] finds no artifact: the
    empty text, or a text whose parsed value counts as false. *)
Definition finds_nothing (json_loads : string → option json) (out : string) : Prop :=
  out = "" ∨
  match json_loads out with
  | Some (JList l) => l = []
  | Some (JObj kv) =>
      match dict_get "results" kv with
      | Some results => py_truthy results = false
      | None => True
      end
  | _ => True
  end.

(** ** A sample run

    Two repositories.  The search of [broken-local] fails.  The search of
    [builds-local] finds four artifacts: one is excluded, one is deleted,
    one delete command fails, and for one the [jf] process cannot be
    started.  The workers finish in the reverse of the order of
    submission. *)
Module Sample.

Definition q : string := String (ascii_of_nat 34) "".

Definition exclusions_text : string :=
  "{" +:+ q +:+ "exclude" +:+ q +:+ ": [" +:+ q +:+ "*/ci-temp/*" +:+ q +:+ "]}".
Definition repositories_text : string :=
  "{" +:+ q +:+ "LOCAL" +:+ q +:+ ": [...], " +:+ q +:+ "REMOTE" +:+ q +:+ ": [...]}".
Definition search_text : string :=
  "{" +:+ q +:+ "results" +:+ q +:+ ": [...]}".

Definition artifact (path : string) : json :=
  JObj [("repo", JStr "builds-local"); ("path", JStr path)].

Definition artifacts : list json :=
  [artifact "a/ci-temp/1.zip"; artifact "b/rel/2.zip"; artifact "c/old/3.zip";
   artifact "d/big/4.zip"].

(** The value of ["exclude"] in the exclusions file. *)
Definition patterns : json := JList [JStr "*/ci-temp/*"].

(** [json.loads] on the three documents of the sample. *)
Definition json_loads (text : string) : option json :=
  if String.eqb text exclusions_text then
    Some (JObj [("exclude", patterns)])
  else if String.eqb text repositories_text then
    Some (JObj [("LOCAL", JList [JObj [("key", JStr "broken-local"); ("rclass", JStr "local")];
                                 JObj [("key", JStr "builds-local"); ("rclass", JStr "local")]]);
                ("REMOTE", JList [JObj [("key", JStr "hub"); ("rclass", JStr "remote")]])])
  else if String.eqb text search_text then
    Some (JObj [("results", JList artifacts)])
  else None.

(** What the [jf] tool does with each command. *)
Definition jf (n : nat) (cmd : list string) : string + exception :=
  match cmd with
  | ["jf"; "config"; "show"] => inl "No servers configured."
  | ["jf"; "rt"; "curl"; _; _] => inl repositories_text
  | ["jf"; "rt"; "search"; _; _; _; vars] =>
      if String.eqb vars "timeframe=90d;repo=builds-local" then inl search_text
      else inr (CalledProcessError "Command returned non-zero exit status 1." " repository not reachable ")
  | "jf" :: "rt" :: "del" :: path :: _ =>
      if String.eqb path "d/big/4.zip" then
        inr (Exception "BlockingIOError" "[Errno 11] Resource temporarily unavailable")
      else if String.eqb path "c/old/3.zip" then
        inr (CalledProcessError "Command returned non-zero exit status 1." "403 Forbidden")
      else inl ""
  | _ => inl ""
  end.

Definition w : world :=
  {| now := "20240101_120000";
     uuid4_hex := "0123456789abcdef0123456789abcdef";
     path_exists := λ _, true;
     read_text := λ _, exclusions_text;
     run := jf;
     as_completed := λ _ cmds, rev cmds;
     open_error := λ _, None;
     writerow_error := λ _, None |}.

Definition args : arguments :=
  {| artifactory_url := "https://artifacts.example.org";
     access_token := "secret";
     older_than := "90d";
     exclusions_file := "exclusions.json";
     aql_spec := "old-artifacts.aql";
     dry_run := true;
     threads := 4 |}.

(** The same run with an empty list of repositories. *)
Definition w_no_repos : world :=
  {| now := now w;
     uuid4_hex := uuid4_hex w;
     path_exists := path_exists w;
     read_text := read_text w;
     run := λ n cmd,
       match cmd with
       | ["jf"; "rt"; "curl"; _; _] => inl "{}"
       | _ => jf n cmd
       end;
     as_completed := as_completed w;
     open_error := open_error w;
     writerow_error := writerow_error w |}.

Definition json_loads_no_repos (text : string) : option json :=
  if String.eqb text "{}" then Some (JObj []) else json_loads text.

End Sample.

(** ** More sample worlds *)
Module Cases.

(** The server id is already known to [jf]. *)
Definition w_configured : world :=
  {| now := now Sample.w;
     uuid4_hex := uuid4_hex Sample.w;
     path_exists := path_exists Sample.w;
     read_text := read_text Sample.w;
     run := λ n cmd,
       match cmd with
       | ["jf"; "config"; "show"] => inl "default: cli-config-01234567"
       | _ => Sample.jf n cmd
       end;
     as_completed := as_completed Sample.w;
     open_error := open_error Sample.w;
     writerow_error := writerow_error Sample.w |}.

(** The sample without its query specification: only the exclusions file
    exists. *)
Definition w_no_spec : world :=
  {| now := now Sample.w;
     uuid4_hex := uuid4_hex Sample.w;
     path_exists := λ path, String.eqb path "exclusions.json";
     read_text := read_text Sample.w;
     run := Sample.jf;
     as_completed := as_completed Sample.w;
     open_error := open_error Sample.w;
     writerow_error := writerow_error Sample.w |}.

(** The sample with searches that all print the empty list, run with
    [--threads 0]. *)
Definition w_empty : world :=
  {| now := now Sample.w;
     uuid4_hex := uuid4_hex Sample.w;
     path_exists := path_exists Sample.w;
     read_text := read_text Sample.w;
     run := λ n cmd,
       match cmd with
       | ["jf"; "rt"; "search"; _; _; _; _] => inl "[]"
       | _ => Sample.jf n cmd
       end;
     as_completed := as_completed Sample.w;
     open_error := open_error Sample.w;
     writerow_error := writerow_error Sample.w |}.

(** Exclusions files of other shapes: the document [[]] and a document
    whose ["exclude"] is [null]. *)
Definition json_loads_list (text : string) : option json := Some (JList []).

Definition json_loads_null (text : string) : option json :=
  Some (JObj [("exclude", JNull)]).

(** The sample with the exclusions file [{"exclude": [1]}]. *)
Definition json_loads_number (text : string) : option json :=
  if String.eqb text Sample.exclusions_text then Some (JObj [("exclude", JList [JNum 1])])
  else Sample.json_loads text.

Definition json_loads_empty (text : string) : option json :=
  if String.eqb text "[]" then Some (JList []) else Sample.json_loads text.

(** The sample on a disk where the row of [c/old/3.zip] cannot be
    written. *)
Definition w_unwritable : world :=
  {| now := now Sample.w;
     uuid4_hex := uuid4_hex Sample.w;
     path_exists := path_exists Sample.w;
     read_text := read_text Sample.w;
     run := Sample.jf;
     as_completed := as_completed Sample.w;
     open_error := open_error Sample.w;
     writerow_error := λ row,
       if String.eqb (Path row) "c/old/3.zip"
       then Some ("UnicodeEncodeError", "surrogates not allowed")
       else None |}.

Definition args_no_pool : arguments :=
  {| artifactory_url := artifactory_url Sample.args;
     access_token := access_token Sample.args;
     older_than := older_than Sample.args;
     exclusions_file := exclusions_file Sample.args;
     aql_spec := aql_spec Sample.args;
     dry_run := false;
     threads := 0 |}.

End Cases.

(** * Properties *)

(** ** The exclusion matcher *)

Section MatcherFacts.

Variable fnmatch : string → string → bool.

(** What [is_excluded] computes: it stops at the first pattern that
    matches and adds that pattern alone. *)
Lemma is_excluded_find (P : string) (S : list string) (M0 : gset string) :
  is_excluded fnmatch P S M0 =
    match List.find (fnmatch P) S with
    | Some pat => (true, {[ pat ]} ∪ M0)
    | None => (false, M0)
    end.
Proof.
  induction S as [|pat S IH]; simpl; [reflexivity|].
  destruct (fnmatch P pat); [reflexivity|exact IH].
Qed.

Lemma is_excluded_existsb (P : string) (S : list string) (M0 : gset string) :
  (is_excluded fnmatch P S M0).1 = existsb (fnmatch P) S.
Proof.
  induction S as [|pat S IH]; simpl; [reflexivity|].
  destruct (fnmatch P pat); [reflexivity|exact IH].
Qed.

Lemma is_excluded_nil (P : string) (M0 : gset string) :
  is_excluded fnmatch P [] M0 = (false, M0).
Proof. reflexivity. Qed.

(** The set that comes back holds at most one pattern more. *)
Lemma is_excluded_matched_size (P : string) (S : list string) :
  (size (is_excluded fnmatch P S ∅).2 ≤ 1)%nat.
Proof.
  rewrite is_excluded_find. destruct (List.find (fnmatch P) S); cbn [snd].
  - rewrite union_empty_r_L, size_singleton. lia.
  - rewrite size_empty. lia.
Qed.

End MatcherFacts.

(** ** The glob matcher *)

Lemma find_close_shorter (pat stuff after : list ascii) :
  Fnmatch.find_close pat = Some (stuff, after) → (List.length after < List.length pat)%nat.
Proof.
  revert stuff after. induction pat as [|c pat IH]; intros stuff after; [done|].
  cbn. destruct (Ascii.eqb c "]").
  - intros [= <- <-]. lia.
  - destruct (Fnmatch.find_close pat) as [[stuff' after']|]; [|done].
    intros [= <- <-]. specialize (IH stuff' after' eq_refl). lia.
Qed.

Lemma bracket_end_shorter (pat stuff after : list ascii) :
  Fnmatch.bracket_end pat = Some (stuff, after) → (List.length after < List.length pat)%nat.
Proof.
  assert (Hskip : ∀ pre rest,
            match rest with
            | c :: rest' =>
                if Ascii.eqb c "]" then
                  match Fnmatch.find_close rest' with
                  | Some (stuff, after) => Some (pre ++ c :: stuff, after)
                  | None => None
                  end
                else
                  match Fnmatch.find_close rest with
                  | Some (stuff, after) => Some (pre ++ stuff, after)
                  | None => None
                  end
            | [] => None
            end = Some (stuff, after) → (List.length after < List.length rest)%nat).
  { intros pre [|c rest']; [done|]. destruct (Ascii.eqb c "]").
    - destruct (Fnmatch.find_close rest') as [[stuff' after']|] eqn:E; [|done].
      intros [= <- <-]. apply find_close_shorter in E. cbn. lia.
    - destruct (Fnmatch.find_close (c :: rest')) as [[stuff' after']|] eqn:E; [|done].
      intros [= <- <-]. by apply find_close_shorter in E. }
  unfold Fnmatch.bracket_end. destruct pat as [|c rest]; [done|].
  destruct (Ascii.eqb c "!"); intros H.
  - apply (Hskip [c] rest) in H. cbn. lia.
  - by apply (Hskip [] (c :: rest)) in H.
Qed.

(** The fuel of [translate] is enough: more fuel gives the same
    translation. *)
Lemma translate_fuel_enough (fuel1 fuel2 : nat) (pat : list ascii) :
  (List.length pat ≤ fuel1)%nat → (List.length pat ≤ fuel2)%nat →
  Fnmatch.translate_fuel fuel1 pat = Fnmatch.translate_fuel fuel2 pat.
Proof.
  revert fuel2 pat. induction fuel1 as [|fuel1 IH]; intros fuel2 pat H1 H2.
  - destruct pat; [|cbn in H1; lia]. by destruct fuel2.
  - destruct pat as [|c rest]; [by destruct fuel2|].
    destruct fuel2 as [|fuel2]; [cbn in H2; lia|].
    cbn in H1, H2. cbn [Fnmatch.translate_fuel].
    destruct (Ascii.eqb c "*"); [f_equal; apply IH; lia|].
    destruct (Ascii.eqb c "?"); [f_equal; apply IH; lia|].
    destruct (Ascii.eqb c "[").
    + destruct (Fnmatch.bracket_end rest) as [[stuff after]|] eqn:E.
      * apply bracket_end_shorter in E. f_equal. apply IH; lia.
      * f_equal. apply IH; lia.
    + f_equal. apply IH; lia.
Qed.

Example fnmatch_examples :
  map (Fnmatch.fnmatch "b/rel/2.zip")
      ["*/ci-temp/*"; "*"; "b/*"; "*.zip"; "b/rel/?.zip"; "b/rel/2.zi"; "B/rel/2.zip";
       "b/[a-s]el/*"; "b/[!a-s]el/*"; "b/r[]e]l/*"; "[b/rel/2.zip"; "rel/*"] =
      [false; true; true; true; true; false; false;
       true; false; true; false; false].
Proof. vm_compute. reflexivity. Qed.

Lemma translate_literal (pat : list ascii) (fuel : nat) :
  literal pat → (List.length pat ≤ fuel)%nat →
  Fnmatch.translate_fuel fuel pat = map Fnmatch.Lit pat.
Proof.
  intros Hlit. revert fuel.
  induction Hlit as [|c pat (Hs & Hq & Hb) _ IH]; intros fuel Hlen.
  - destruct fuel; reflexivity.
  - destruct fuel as [|fuel]; simpl in Hlen; [lia|].
    simpl. rewrite Hs, Hq, Hb. f_equal. apply IH. lia.
Qed.

Lemma matches_literal (pat s : list ascii) :
  Fnmatch.matches (map Fnmatch.Lit pat) s = true ↔ s = pat.
Proof.
  revert s. induction pat as [|c pat IH]; intros [|x s]; simpl; try (split; congruence).
  rewrite andb_true_iff, IH. split.
  - intros [Hx ->]. apply Ascii.eqb_eq in Hx. congruence.
  - intros [= -> ->]. split; [apply Ascii.eqb_refl|reflexivity].
Qed.

Lemma list_ascii_of_string_inj (s1 s2 : string) :
  list_ascii_of_string s1 = list_ascii_of_string s2 → s1 = s2.
Proof.
  intros H. rewrite <- (string_of_list_ascii_of_string s1), <- (string_of_list_ascii_of_string s2).
  congruence.
Qed.

(** On a literal pattern the glob matcher is string equality: neither
    case nor separators are touched. *)
Lemma fnmatch_literal (P pat : string) :
  literal (list_ascii_of_string pat) →
  Fnmatch.fnmatch P pat = true ↔ P = pat.
Proof.
  intros Hlit. unfold Fnmatch.fnmatch, Fnmatch.normcase, Fnmatch.fnmatchcase, Fnmatch.translate.
  rewrite translate_literal by auto. rewrite matches_literal.
  split; [apply list_ascii_of_string_inj|congruence].
Qed.

(** C1, at the input of the specification.  Both patterns match the path
    [a/tmp/x.bak], the path is excluded, and the set that comes back
    holds the first pattern only: it is not the set of all the patterns
    that match. *)
Theorem is_excluded_reports_first_match_only :
  Forall (λ pat, Fnmatch.fnmatch "a/tmp/x.bak" pat = true) ["*/tmp/*"; "*.bak"] ∧
  is_excluded Fnmatch.fnmatch "a/tmp/x.bak" ["*/tmp/*"; "*.bak"] ∅ = (true, {[ "*/tmp/*" ]}) ∧
  (is_excluded Fnmatch.fnmatch "a/tmp/x.bak" ["*/tmp/*"; "*.bak"] ∅).2 ≠
    list_to_set (filter (λ pat, Fnmatch.fnmatch "a/tmp/x.bak" pat = true) ["*/tmp/*"; "*.bak"]).
Proof.
  split; [|split].
  - repeat constructor.
  - vm_compute. reflexivity.
  - apply (bool_decide_eq_false_1 _). vm_compute. reflexivity.
Qed.

(** C4.  [is_excluded] answers true exactly when some pattern of the list
    matches the path.  Path and pattern go to the matcher as they were
    received; with the glob matcher of a POSIX system a pattern without
    wildcard excludes the one path that is equal to it, character for
    character. *)
Theorem is_excluded_iff_some_pattern_matches :
  (∀ (fnmatch : string → string → bool) (P : string) (S : list string),
     (is_excluded fnmatch P S ∅).1 = true ↔ ∃ pat, pat ∈ S ∧ fnmatch P pat = true) ∧
  (∀ (P pat : string),
     literal (list_ascii_of_string pat) →
     (is_excluded Fnmatch.fnmatch P [pat] ∅).1 = true ↔ P = pat).
Proof.
  split.
  - intros fnmatch P S. rewrite is_excluded_existsb, existsb_exists.
    split; intros (pat & Hin & Hm); exists pat; split; auto; by apply list_elem_of_In.
  - intros P pat Hlit. rewrite is_excluded_existsb. simpl. rewrite orb_false_r.
    by apply fnmatch_literal.
Qed.

(** ** The monad *)

Ltac unfold_M :=
  unfold mbind, M_bind, mret, M_ret, log, raise, sys_exit, try_except in *.

Lemma bind_ret {A B : Type} (m : M A) (f : A → M B) (s s' : state) (a : A) :
  m s = (Ret a, s') → (m ≫= f) s = f a s'.
Proof. intros H. unfold_M. by rewrite H. Qed.

Lemma bind_exit {A B : Type} (m : M A) (f : A → M B) (s s' : state) (code : Z) :
  m s = (SysExit code, s') → (m ≫= f) s = (SysExit code, s').
Proof. intros H. unfold_M. by rewrite H. Qed.

Lemma bind_raise {A B : Type} (m : M A) (f : A → M B) (s s' : state) (e : exception) :
  m s = (Raise e, s') → (m ≫= f) s = (Raise e, s').
Proof. intros H. unfold_M. by rewrite H. Qed.

(** Only [create_file] and [write_csv] touch the files. *)
Lemma keeps_ret {A : Type} (a : A) : keeps_files (mret a).
Proof. by intros s. Qed.

Lemma keeps_log (lvl : level) (msg : string) : keeps_files (log lvl msg).
Proof. by intros s. Qed.

Lemma keeps_exit {A : Type} (code : Z) : keeps_files (@sys_exit A code).
Proof. by intros s. Qed.

Lemma keeps_raise {A : Type} (e : exception) : keeps_files (@raise A e).
Proof. by intros s. Qed.

Lemma keeps_bind {A B : Type} (m : M A) (f : A → M B) :
  keeps_files m → (∀ a, keeps_files (f a)) → keeps_files (m ≫= f).
Proof.
  intros Hm Hf s. unfold mbind, M_bind. specialize (Hm s).
  destruct (m s) as [[a| |] s1]; cbn in *; try done.
  by rewrite (Hf a s1).
Qed.

Lemma keeps_try {A : Type} (body : M A) (handler : exception → option (M A)) :
  keeps_files body → (∀ e h, handler e = Some h → keeps_files h) →
  keeps_files (try_except body handler).
Proof.
  intros Hbody Hh s. unfold try_except. specialize (Hbody s).
  destruct (body s) as [[a| |e] s1]; cbn in *; try done.
  destruct (handler e) as [h|] eqn:He; [|done].
  by rewrite (Hh e h He s1).
Qed.

Lemma keeps_subprocess_run (w : world) (cmd : list string) :
  keeps_files (subprocess_run w cmd).
Proof. intros s. unfold subprocess_run. by destruct (run w (ncalls s) cmd). Qed.

Ltac keeps_step :=
  match goal with
  | |- keeps_files (mret _) => apply keeps_ret
  | |- keeps_files (log _ _) => apply keeps_log
  | |- keeps_files (sys_exit _) => apply keeps_exit
  | |- keeps_files (raise _) => apply keeps_raise
  | |- keeps_files (subprocess_run _ _) => apply keeps_subprocess_run
  | |- keeps_files (_ ≫= _) => apply keeps_bind; [|intros ?]
  | |- keeps_files (try_except _ _) =>
      apply keeps_try; [|let e := fresh "e" in let h := fresh "h" in let He := fresh "He" in
                         intros e h He; destruct e; inversion He; subst; clear He]
  | |- keeps_files (if ?b then _ else _) => destruct b
  | |- keeps_files (match ?x with _ => _ end) => destruct x
  end.

Lemma jfrog_cli_configure_keeps_files (w : world) (server_id url token : string) :
  keeps_files (jfrog_cli_configure w server_id url token).
Proof. unfold jfrog_cli_configure. repeat keeps_step. Qed.

Lemma load_exclusion_patterns_keeps_files (json_loads : string → option json) (w : world)
    (json_path : string) :
  keeps_files (load_exclusion_patterns json_loads w json_path).
Proof. unfold load_exclusion_patterns, json_loads_M. repeat keeps_step. Qed.

Lemma repos_of_keeps_files (entries : list json) : keeps_files (repos_of entries).
Proof.
  induction entries as [|repo rest IH]; cbn [repos_of]; unfold subscript_str;
    repeat keeps_step; done.
Qed.

Lemma get_repositories_keeps_files (json_loads : string → option json) (w : world) :
  keeps_files (get_repositories json_loads w).
Proof.
  unfold get_repositories, json_loads_M, repos_of_class.
  repeat first [apply repos_of_keeps_files | keeps_step].
Qed.

Lemma setup_keeps_files (json_loads : string → option json) (w : world) (args : arguments) :
  keeps_files (setup json_loads w args).
Proof.
  unfold setup.
  repeat first [apply jfrog_cli_configure_keeps_files
               | apply load_exclusion_patterns_keeps_files
               | apply get_repositories_keeps_files
               | keeps_step].
Qed.

(** ** Deleting *)

Lemma build_delete_command_path (path : string) (dry : bool) :
  cmd_path (build_delete_command path dry) = path.
Proof. by destruct dry. Qed.

Section DeleteFacts.

Variable w : world.

(** [execute_delete] by cases on how the [jf] process ends. *)
Lemma execute_delete_completed (cmd : list string) (s : state) (stdout : string) :
  run w (ncalls s) cmd = inl stdout →
  execute_delete w cmd s =
    (Ret (true, ""),
     logged (called s cmd) INFO
       ((if list_contains "--dry-run" cmd then "[DRYRUN-COMPLETE] " else "[DELETED] ")
        +:+ str_join " " cmd)).
Proof.
  intros H. unfold execute_delete, subprocess_run. unfold_M. rewrite H.
  by destruct (list_contains "--dry-run" cmd).
Qed.

Lemma execute_delete_failed (cmd : list string) (s : state) (e_str e_stderr : string) :
  run w (ncalls s) cmd = inr (CalledProcessError e_str e_stderr) →
  let error_msg := if String.eqb e_stderr "" then "Unknown error" else str_strip e_stderr in
  execute_delete w cmd s =
    (Ret (false, error_msg),
     logged (called s cmd) ERROR
       ("[ERROR] Delete failed: " +:+ str_join " " cmd +:+ " - " +:+ error_msg)).
Proof.
  intros H. unfold execute_delete, subprocess_run. unfold_M. by rewrite H.
Qed.

Lemma execute_delete_raised (cmd : list string) (s : state) (e : exception) :
  run w (ncalls s) cmd = inr e →
  (∀ e_str e_stderr, e ≠ CalledProcessError e_str e_stderr) →
  execute_delete w cmd s = (Raise e, called s cmd).
Proof.
  intros H Hne. unfold execute_delete, subprocess_run. unfold_M. rewrite H.
  destruct e; try reflexivity. by destruct (Hne e_str e_stderr).
Qed.

(** The handling of one future always appends one row: [deleted],
    [error], or, when the worker raised something else than
    [CalledProcessError], [Error]. *)
Lemma collect_result_appends (repo_key : string) (cmd : list string)
    (csv_records : list csv_record) (s : state) :
  ∃ (r : csv_record) (s' : state),
    collect_result w repo_key cmd csv_records s = (Ret (csv_records ++ [r]), s') ∧
    Repository r = repo_key ∧ Path r = cmd_path cmd ∧
    Status r ∈ delete_statuses ∧ Exclusion_Pattern r = "" ∧
    files s' = files s ∧ calls s' = cmd :: calls s.
Proof.
  unfold collect_result.
  destruct (run w (ncalls s) cmd) as [stdout|e] eqn:Hrun.
  - eexists _, _. unfold_M. rewrite (execute_delete_completed _ _ _ Hrun).
    cbn. repeat split; try reflexivity. set_solver.
  - destruct e as [e_str e_stderr| |cls e_str].
    + eexists _, _. unfold_M. rewrite (execute_delete_failed _ _ _ _ Hrun).
      cbn. repeat split; try reflexivity. set_solver.
    + eexists _, _. unfold_M. rewrite (execute_delete_raised _ _ _ Hrun) by done.
      cbn. repeat split; try reflexivity. set_solver.
    + eexists _, _. unfold_M. rewrite (execute_delete_raised _ _ _ Hrun) by done.
      cbn. repeat split; try reflexivity. set_solver.
Qed.

Lemma collect_results_appends (repo_key : string) (completed : list (list string)) :
  ∀ (csv_records : list csv_record) (s : state),
  ∃ (new : list csv_record) (s' : state),
    collect_results w repo_key completed csv_records s = (Ret (csv_records ++ new), s') ∧
    map Path new = map cmd_path completed ∧
    Forall (λ r, Repository r = repo_key ∧ Status r ∈ delete_statuses ∧
                 Exclusion_Pattern r = "") new ∧
    files s' = files s ∧ calls s' = rev completed ++ calls s.
Proof.
  induction completed as [|cmd rest IH]; intros csv_records s.
  - exists [], s. rewrite app_nil_r. by repeat split.
  - destruct (collect_result_appends repo_key cmd csv_records s)
      as (r & s1 & Hr & Hrepo & Hpath & Hstatus & Hpat & Hfiles & Hcalls).
    destruct (IH (csv_records ++ [r]) s1)
      as (new & s2 & Hnew & Hpaths & Hall & Hfiles2 & Hcalls2).
    exists (r :: new), s2. cbn [collect_results].
    rewrite (bind_ret _ _ _ _ _ Hr), Hnew, <- app_assoc. cbn.
    repeat split; try done.
    + by rewrite Hpath, Hpaths.
    + by constructor.
    + congruence.
    + by rewrite Hcalls2, Hcalls, <- app_assoc.
Qed.

(** A pool cannot be made with less than one worker: the [ValueError] of
    [ThreadPoolExecutor] leaves [main]. *)
Remark run_deletions_needs_a_worker (repo_key : string) (max_workers : Z)
    (delete_commands : list (list string)) (csv_records : list csv_record) (s : state) :
  (max_workers ≤ 0)%Z →
  run_deletions w repo_key max_workers delete_commands csv_records s =
    (Raise (Exception "ValueError" "max_workers must be greater than 0"), s).
Proof.
  intros H. unfold run_deletions. by destruct (Z.leb_spec max_workers 0) as [_|?]; [|lia].
Qed.

End DeleteFacts.

(** ** The dispatcher *)

Lemma filter_negb_permutation {A : Type} (f : A → bool) (l : list A) :
  List.filter f l ++ List.filter (λ x, negb (f x)) l ≡ₚ l.
Proof.
  induction l as [|x l IH]; [done|]. cbn. destruct (f x); cbn.
  - by constructor.
  - rewrite <- Permutation_middle. by constructor.
Qed.

Section DispatchFacts.

Variable fnmatch : string → string → bool.
Variable w : world.

Lemma item_path_record (item : json) (path : string) (s : state) :
  artifact_path item = Some path → item_path item s = (Ret path, s).
Proof.
  destruct item as [| | | |l|kv]; try done. cbn.
  destruct (dict_get "path" kv) as [[]|]; try done; by intros [= ->].
Qed.

(** On patterns that are strings the loop of [main] gets from
    [is_excluded] what the function computes on the list of these
    strings. *)
Lemma is_excluded_items_strings (path : string) (items : list json) (patterns : list string)
    (matched : gset string) (s : state) :
  foldr (λ item acc,
           match item, acc with
           | JStr p, Some l => Some (p :: l)
           | _, _ => None
           end) (Some []) items = Some patterns →
  is_excluded_items fnmatch path items matched s =
    (Ret (is_excluded fnmatch path patterns matched), s).
Proof.
  revert patterns. induction items as [|item items IH]; intros patterns.
  - by intros [= <-].
  - cbn [foldr]. destruct item as [| | |pat| |]; try done.
    destruct (foldr _ _ items) as [l|]; [|done]. intros [= <-].
    cbn [is_excluded_items is_excluded]. destruct (fnmatch path pat); [done|]. by apply IH.
Qed.

Lemma call_is_excluded_strings (path : string) (v : json) (patterns : list string) (s : state) :
  str_items v = Some patterns →
  call_is_excluded fnmatch path v s = (Ret (is_excluded fnmatch path patterns ∅), s).
Proof.
  unfold str_items, call_is_excluded. destruct (py_iter v) as [items|]; [|done].
  apply is_excluded_items_strings.
Qed.

(** The rows and commands the exclusion loop adds for a list of
    artifact records. *)
Lemma check_exclusions_records (repo_key : string) (v : json) (patterns : list string)
    (dry : bool) (items : list json) :
  str_items v = Some patterns →
  Forall artifact_record items →
  ∀ (csv_records : list csv_record) (delete_commands : list (list string)) (s : state),
  ∃ s' : state,
    check_exclusions fnmatch repo_key v dry items csv_records delete_commands s =
      (Ret (csv_records ++
              map (λ p, skipped_record repo_key p (is_excluded fnmatch p patterns ∅).2)
                  (List.filter (excluded fnmatch patterns) (paths_of items)),
            delete_commands ++
              map (λ p, build_delete_command p dry)
                  (List.filter (λ p, negb (excluded fnmatch patterns p)) (paths_of items))),
       s') ∧
    files s' = files s ∧ calls s' = calls s.
Proof.
  intros Hv.
  induction 1 as [|item rest [path Hpath] _ IH]; intros csv_records delete_commands s.
  - exists s. cbn. by rewrite !app_nil_r.
  - cbn [check_exclusions]. rewrite (bind_ret _ _ _ _ _ (item_path_record _ _ s Hpath)).
    rewrite (bind_ret _ _ _ _ _ (call_is_excluded_strings path v patterns s Hv)).
    unfold paths_of. cbn [omap list_omap]. rewrite Hpath. fold (paths_of rest).
    cbn [List.filter].
    assert (Hb : excluded fnmatch patterns path = (is_excluded fnmatch path patterns ∅).1) by done.
    rewrite Hb.
    destruct (is_excluded fnmatch path patterns ∅) as [b matched] eqn:Hex.
    destruct b; cbn [fst snd negb map].
    + match goal with |- context [check_exclusions _ _ _ _ _ ?c ?d] =>
        destruct (IH c d (mk_state (logs s ++ [(INFO, "[SKIP] Excluded by pattern: " +:+ path)])
                                   (calls s) (files s)))
          as (s' & Heq & Hfiles & Hcalls) end.
      exists s'. unfold_M. cbn. rewrite Heq, <- app_assoc, Hex. done.
    + match goal with |- context [check_exclusions _ _ _ _ _ ?c ?d] =>
        destruct (IH c d s) as (s' & Heq & Hfiles & Hcalls) end.
      exists s'. rewrite Heq, <- app_assoc. done.
Qed.

Lemma skipped_rows_outcome (repo_key : string) (patterns : list string) (paths : list string) :
  Forall (outcome_of fnmatch patterns repo_key)
    (map (λ p, skipped_record repo_key p (is_excluded fnmatch p patterns ∅).2)
         (List.filter (excluded fnmatch patterns) paths)).
Proof.
  apply Forall_map, Forall_forall. intros p Hp.
  apply list_elem_of_In, filter_In in Hp as [_ Hp].
  split; [done|]. left. by split.
Qed.

Lemma paths_of_length (items : list json) :
  Forall artifact_record items → List.length (paths_of items) = List.length items.
Proof.
  induction 1 as [|item rest [p Hp] _ IH]; [done|].
  unfold paths_of. cbn. rewrite Hp. cbn. by f_equal.
Qed.

(** The dispatcher on a list of artifact records returns: it adds the
    rows of the skipped artifacts and then one row for each queued
    command that [as_completed] hands back, and these are the commands
    it runs. *)
Lemma dispatch_rows (args : arguments) (v : json) (patterns : list string) (repo_key : string)
    (items : list json) (csv_records : list csv_record) (s : state) :
  (0 < threads args)%Z → str_items v = Some patterns → Forall artifact_record items →
  ∃ (completed : list (list string)) (new : list csv_record) (s' : state),
    completed =
      as_completed w (ncalls s)
        (map (λ p, build_delete_command p (dry_run args))
             (List.filter (λ p, negb (excluded fnmatch patterns p)) (paths_of items))) ∧
    dispatch fnmatch w args v repo_key (JList items) csv_records s =
      (Ret (csv_records ++
              map (λ p, skipped_record repo_key p (is_excluded fnmatch p patterns ∅).2)
                  (List.filter (excluded fnmatch patterns) (paths_of items)) ++ new), s') ∧
    map Path new = map cmd_path completed ∧
    Forall (λ r, Repository r = repo_key ∧ Status r ∈ delete_statuses ∧
                 Exclusion_Pattern r = "") new ∧
    files s' = files s ∧
    calls s' = rev completed ++ calls s.
Proof.
  intros Hk Hv Hitems.
  unfold dispatch. cbn [py_len py_iter]. unfold_M. cbn beta iota.
  match goal with |- context [check_exclusions _ _ _ _ _ ?c ?d ?s0] =>
    destruct (check_exclusions_records repo_key v patterns (dry_run args) items Hv Hitems c d s0)
      as (s1 & Heq & Hfiles1 & Hcalls1) end.
  rewrite Heq. cbn [app]. unfold run_deletions.
  destruct (Z.leb_spec (threads args) 0) as [Hle|_]; [lia|].
  unfold_M. cbn beta iota.
  match goal with |- context [collect_results _ _ ?completed ?c ?s0] =>
    destruct (collect_results_appends w repo_key completed c s0)
      as (new & s2 & Hnew & Hpaths & Hall & Hfiles2 & Hcalls2) end.
  cbn in Hfiles1, Hcalls1.
  assert (Hn : ncalls s1 = ncalls s) by (unfold ncalls; by rewrite Hcalls1).
  rewrite Hn in *.
  eexists _, new, s2. split; [reflexivity|]. rewrite Hnew, <- app_assoc.
  repeat split; try done; congruence.
Qed.

(** With a fair [as_completed] the rows added are in one-to-one
    correspondence with the artifacts. *)
Lemma dispatch_records (args : arguments) (v : json) (patterns : list string)
    (repo_key : string) (items : list json) (csv_records : list csv_record) (s : state) :
  (0 < threads args)%Z → fair w → str_items v = Some patterns →
  Forall artifact_record items →
  ∃ (new : list csv_record) (s' : state),
    dispatch fnmatch w args v repo_key (JList items) csv_records s =
      (Ret (csv_records ++ new), s') ∧
    List.length new = List.length items ∧
    map Path new ≡ₚ paths_of items ∧
    Forall (outcome_of fnmatch patterns repo_key) new ∧
    files s' = files s.
Proof.
  intros Hk Hfair Hv Hitems.
  destruct (dispatch_rows args v patterns repo_key items csv_records s Hk Hv Hitems)
    as (completed & new & s' & -> & Heq & Hpaths & Hall & Hfiles & _).
  set (skipped := map _ (List.filter (excluded _ _) _)) in *.
  exists (skipped ++ new), s'.
  assert (Hperm : map Path new ≡ₚ List.filter (λ p, negb (excluded fnmatch patterns p)) (paths_of items)).
  { rewrite Hpaths, (Hfair _ _). rewrite map_map.
    erewrite map_ext; [by rewrite map_id|]. intros p. apply build_delete_command_path. }
  assert (Hskipped : map Path skipped = List.filter (excluded fnmatch patterns) (paths_of items)).
  { unfold skipped. rewrite map_map. cbn. by rewrite map_id. }
  repeat split; try done.
  - rewrite <- (paths_of_length items Hitems),
      <- (Permutation_length (filter_negb_permutation (excluded fnmatch patterns) (paths_of items))).
    rewrite !length_app, <- (Permutation_length Hperm), <- Hskipped, !length_map. done.
  - rewrite map_app, Hskipped, Hperm. apply filter_negb_permutation.
  - apply Forall_app. split; [apply skipped_rows_outcome|].
    assert (Hnot : Forall (λ p, excluded fnmatch patterns p = false) (map Path new)).
    { rewrite Hperm. apply Forall_forall. intros p Hp.
      apply list_elem_of_In, filter_In in Hp as [_ Hp]. by apply negb_true_iff. }
    rewrite Forall_map in Hnot.
    rewrite Forall_forall in Hall, Hnot. apply Forall_forall. intros r Hr.
    destruct (Hall r Hr) as (Hrepo & Hst & Hpat). split; [done|]. right.
    repeat split; try done. by apply Hnot.
Qed.

End DispatchFacts.

Section OutcomeClaims.

Variable fnmatch : string → string → bool.
Variable w : world.

(** C2.  The dispatcher of one repository, with exclusion patterns that
    are strings, a pool of at least one worker and whatever the order in
    which the futures complete, returns
    and adds to the report as many rows as there are artifact records;
    the rows can be put in the order of the artifacts so that row and
    artifact have the same path, and every row is either a skip (of an
    excluded path) or a delete attempt (on a path that is not excluded),
    never both. *)
Theorem every_artifact_yields_one_outcome (args : arguments) (exclusion_patterns : json)
    (patterns : list string) (repo_key : string) (items : list json)
    (csv_records : list csv_record) (s : state) :
  (0 < threads args)%Z → fair w → str_items exclusion_patterns = Some patterns →
  Forall artifact_record items →
  ∃ (new : list csv_record) (s' : state),
    dispatch fnmatch w args exclusion_patterns repo_key (JList items) csv_records s =
      (Ret (csv_records ++ new), s') ∧
    List.length new = List.length items ∧
    (∃ outs : list csv_record, outs ≡ₚ new ∧ map Path outs = paths_of items) ∧
    Forall (outcome_of fnmatch patterns repo_key) new ∧
    "skipped" ∉ delete_statuses.
Proof.
  intros Hk Hfair Hv Hitems.
  destruct (dispatch_records fnmatch w args exclusion_patterns patterns repo_key items
              csv_records s Hk Hfair Hv Hitems)
    as (new & s' & Heq & Hlen & Hperm & Hall & _).
  exists new, s'. repeat split; try done.
  - symmetry in Hperm. apply Permutation_map_inv in Hperm as (outs & Houts & Hp).
    exists outs. split; [by symmetry|done].
  - by apply (bool_decide_unpack _).
Qed.

(** The row of a worker that raised something else than
    [CalledProcessError]. *)
Lemma collect_result_raised (repo_key : string) (cmd : list string)
    (csv_records : list csv_record) (s : state) (cls e_str : string) :
  run w (ncalls s) cmd = inr (Exception cls e_str) →
  (collect_result w repo_key cmd csv_records s).1 =
    Ret (csv_records ++ [mk_record repo_key (cmd_path cmd) "Error" "" e_str]).
Proof.
  intros Hrun. unfold collect_result. unfold_M.
  by rewrite (execute_delete_raised w _ _ _ Hrun).
Qed.

Lemma item_path_default (kv : list (string * json)) (s : state) :
  dict_get "path" kv = None →
  item_path (JObj kv) s = item_path (JObj (("path", JStr "") :: kv)) s.
Proof. intros H. cbn. by rewrite H. Qed.

Lemma check_exclusions_same_paths (repo_key : string) (patterns : json) (dry : bool)
    (items1 items2 : list json) :
  Forall2 (λ a b, ∀ s, item_path a s = item_path b s) items1 items2 →
  ∀ csv_records delete_commands s,
    check_exclusions fnmatch repo_key patterns dry items1 csv_records delete_commands s =
    check_exclusions fnmatch repo_key patterns dry items2 csv_records delete_commands s.
Proof.
  induction 1 as [|a b l1 l2 Hab _ IH]; intros csv_records delete_commands s; [done|].
  cbn [check_exclusions]. unfold mbind, M_bind. rewrite Hab.
  destruct (item_path b s) as [[path| |] s1]; try done.
  destruct (call_is_excluded fnmatch path patterns s1) as [[[[] matched]| |] s2];
    [unfold log; by apply IH | by apply IH | done | done].
Qed.

(** C10.  An artifact record without ["path"] is handled as the same
    record with the path [""]: the dispatcher does the same with both.
    Among other artifact records it does not stop the dispatcher, which
    returns with one row for each artifact; the row of the record has the
    empty path, and is a skip when a pattern matches the empty string and
    a delete attempt on the empty path otherwise (the exclusion patterns
    being strings). *)
Theorem record_without_path_is_processed_with_empty_path (args : arguments)
    (exclusion_patterns : json) (patterns : list string) (repo_key : string)
    (kv : list (string * json)) (before after : list json)
    (csv_records : list csv_record) (s : state) :
  dict_get "path" kv = None → (0 < threads args)%Z → fair w →
  str_items exclusion_patterns = Some patterns →
  Forall artifact_record before → Forall artifact_record after →
  dispatch fnmatch w args exclusion_patterns repo_key
    (JList (before ++ JObj kv :: after)) csv_records s =
  dispatch fnmatch w args exclusion_patterns repo_key
    (JList (before ++ JObj (("path", JStr "") :: kv) :: after)) csv_records s ∧
  ∃ (new : list csv_record) (s' : state),
    dispatch fnmatch w args exclusion_patterns repo_key
      (JList (before ++ JObj kv :: after)) csv_records s =
      (Ret (csv_records ++ new), s') ∧
    List.length new = List.length (before ++ JObj kv :: after) ∧
    map Path new ≡ₚ paths_of before ++ "" :: paths_of after ∧
    Forall (outcome_of fnmatch patterns repo_key) new.
Proof.
  intros Hkv Hk Hfair Hv Hbefore Hafter. split.
  - unfold dispatch. cbn [py_len py_iter]. rewrite !length_app. cbn [List.length].
    unfold_M. cbn beta iota.
    erewrite (check_exclusions_same_paths _ _ _ (before ++ JObj kv :: after)); [reflexivity|].
    apply Forall2_app; [by apply Forall_Forall2_diag, Forall_forall|].
    constructor; [intros s0; by apply item_path_default|].
    by apply Forall_Forall2_diag, Forall_forall.
  - assert (Hpath : artifact_path (JObj kv) = Some "") by (cbn; by rewrite Hkv).
    assert (Hrec : Forall artifact_record (before ++ JObj kv :: after)).
    { apply Forall_app. split; [done|]. constructor; [by exists ""|done]. }
    destruct (dispatch_records fnmatch w args exclusion_patterns patterns repo_key _
                csv_records s Hk Hfair Hv Hrec)
      as (new & s' & Heq & Hlen & Hperm & Hall & _).
    exists new, s'. repeat split; try done.
    rewrite Hperm. unfold paths_of. rewrite omap_app. cbn [omap list_omap]. by rewrite Hpath.
Qed.

End OutcomeClaims.

Lemma sample_fair : fair Sample.w.
Proof. intros n cmds. cbn. symmetry. apply Permutation_rev. Qed.

Lemma sample_artifact_records : Forall artifact_record Sample.artifacts.
Proof. repeat constructor; eexists; reflexivity. Qed.

Lemma every_artifact_yields_one_outcome_witness :
  (0 < threads Sample.args)%Z ∧ fair Sample.w ∧
  str_items Sample.patterns = Some ["*/ci-temp/*"] ∧
  Forall artifact_record Sample.artifacts ∧
  ∃ (new : list csv_record) (s' : state),
    dispatch Fnmatch.fnmatch Sample.w Sample.args Sample.patterns "builds-local"
      (JList Sample.artifacts) [] state0 = (Ret ([] ++ new), s') ∧
    List.length new = List.length Sample.artifacts ∧
    (∃ outs : list csv_record, outs ≡ₚ new ∧ map Path outs = paths_of Sample.artifacts) ∧
    Forall (outcome_of Fnmatch.fnmatch ["*/ci-temp/*"] "builds-local") new ∧
    "skipped" ∉ delete_statuses.
Proof.
  split; [reflexivity|]. split; [exact sample_fair|]. split; [reflexivity|].
  split; [exact sample_artifact_records|].
  apply every_artifact_yields_one_outcome;
    [reflexivity | exact sample_fair | reflexivity | exact sample_artifact_records].
Defined.

Lemma record_without_path_witness :
  dict_get "path" [("repo", JStr "builds-local")] = None ∧
  (0 < threads Sample.args)%Z ∧ fair Sample.w ∧
  str_items Sample.patterns = Some ["*/ci-temp/*"] ∧
  Forall artifact_record [Sample.artifact "b/rel/2.zip"] ∧
  Forall artifact_record [Sample.artifact "a/ci-temp/1.zip"] ∧
  ∃ (new : list csv_record) (s' : state),
    dispatch Fnmatch.fnmatch Sample.w Sample.args Sample.patterns "builds-local"
      (JList ([Sample.artifact "b/rel/2.zip"] ++ JObj [("repo", JStr "builds-local")] ::
              [Sample.artifact "a/ci-temp/1.zip"])) [] state0 =
      (Ret ([] ++ new), s') ∧
    List.length new = 3 ∧
    map Path new ≡ₚ ["b/rel/2.zip"] ++ "" :: ["a/ci-temp/1.zip"] ∧
    Forall (outcome_of Fnmatch.fnmatch ["*/ci-temp/*"] "builds-local") new.
Proof.
  assert (H1 : Forall artifact_record [Sample.artifact "b/rel/2.zip"])
    by (repeat constructor; eexists; reflexivity).
  assert (H2 : Forall artifact_record [Sample.artifact "a/ci-temp/1.zip"])
    by (repeat constructor; eexists; reflexivity).
  split; [reflexivity|]. split; [reflexivity|]. split; [exact sample_fair|].
  split; [reflexivity|]. split; [exact H1|]. split; [exact H2|].
  exact (proj2 (record_without_path_is_processed_with_empty_path Fnmatch.fnmatch Sample.w
                  Sample.args Sample.patterns ["*/ci-temp/*"] "builds-local"
                  [("repo", JStr "builds-local")]
                  [Sample.artifact "b/rel/2.zip"] [Sample.artifact "a/ci-temp/1.zip"] [] state0
                  eq_refl eq_refl sample_fair eq_refl H1 H2)).
Defined.

(** C3, on the sample run.  The worker of [d/big/4.zip] raises an
    exception that is not [CalledProcessError]; the dispatcher catches it
    and writes a row whose status is [Error], with a capital letter,
    which is not one of [skipped], [deleted], [error]. *)
Theorem unexpected_exception_is_reported_as_Error :
  (dispatch Fnmatch.fnmatch Sample.w Sample.args Sample.patterns "builds-local"
     (JList Sample.artifacts) [] state0).1 =
    Ret [mk_record "builds-local" "a/ci-temp/1.zip" "skipped" "*/ci-temp/*" "";
         mk_record "builds-local" "d/big/4.zip" "Error" ""
                   "[Errno 11] Resource temporarily unavailable";
         mk_record "builds-local" "c/old/3.zip" "error" "" "403 Forbidden";
         mk_record "builds-local" "b/rel/2.zip" "deleted" "" ""] ∧
  "Error" ∉ spec_statuses.
Proof.
  split; [vm_compute; reflexivity|]. by apply (bool_decide_unpack _).
Qed.

(** ** Searching and parsing *)

Section SearchFacts.

Variable fnmatch : string → string → bool.
Variable json_loads : string → option json.
Variable w : world.

Lemma get_old_artifacts_failed (spec_path spec_timeframe repo : string) (s : state)
    (e_str e_stderr : string) :
  path_exists w spec_path = true →
  run w (ncalls s) (search_command spec_path spec_timeframe repo) =
    inr (CalledProcessError e_str e_stderr) →
  get_old_artifacts w spec_path spec_timeframe repo s =
    (Ret None,
     logged (logged (called s (search_command spec_path spec_timeframe repo))
                    ERROR "Search using spec file failed:")
            ERROR (str_strip e_stderr)).
Proof.
  intros Hex Hrun. unfold get_old_artifacts, subprocess_run, search_command in *.
  rewrite Hex. unfold_M. cbn [negb]. by rewrite Hrun.
Qed.

Lemma get_old_artifacts_completed (spec_path spec_timeframe repo : string) (s : state)
    (stdout : string) :
  path_exists w spec_path = true →
  run w (ncalls s) (search_command spec_path spec_timeframe repo) = inl stdout →
  get_old_artifacts w spec_path spec_timeframe repo s =
    (Ret (Some stdout), called s (search_command spec_path spec_timeframe repo)).
Proof.
  intros Hex Hrun. unfold get_old_artifacts, subprocess_run, search_command in *.
  rewrite Hex. unfold_M. cbn [negb]. by rewrite Hrun.
Qed.

(** [parse_artifacts] by cases on what [json.loads] gives. *)
Lemma parse_artifacts_cases (search_output : string) (s : state) :
  parse_artifacts json_loads search_output s =
    match json_loads search_output with
    | Some (JList l) => (Ret (JList l), s)
    | Some (JObj kv) =>
        match dict_get "results" kv with
        | Some results => (Ret results, s)
        | None => (Ret (JList []), logged s WARNING "Unexpected data format in search output.")
        end
    | Some _ => (Ret (JList []), logged s WARNING "Unexpected data format in search output.")
    | None => (Ret (JList []), logged s ERROR "Failed to parse search response.")
    end.
Proof.
  unfold parse_artifacts, json_loads_M. unfold_M.
  destruct (json_loads search_output) as [[| | | | |kv]|]; try reflexivity.
  by destruct (dict_get "results" kv).
Qed.

(** C5.  When the search command of a repository fails, the query gives
    [None], the turn of that repository leaves the report rows as they
    were, and the loop goes on with the repositories that follow. *)
Theorem failed_query_contributes_no_outcome (args : arguments) (patterns : json)
    (repo : repository) (rest : list repository) (csv_records : list csv_record)
    (s : state) (e_str e_stderr : string) :
  path_exists w (aql_spec args) = true →
  run w (ncalls s) (search_command (aql_spec args) (older_than args) (key repo)) =
    inr (CalledProcessError e_str e_stderr) →
  let s0 := logged s INFO ("Processing repository: " +:+ key repo +:+ " (" +:+ class repo +:+ ")") in
  let s1 := logged (logged (called s0 (search_command (aql_spec args) (older_than args) (key repo)))
                           ERROR "Search using spec file failed:")
                   ERROR (str_strip e_stderr) in
  get_old_artifacts w (aql_spec args) (older_than args) (key repo) s0 = (Ret None, s1) ∧
  process_repository fnmatch json_loads w args patterns repo csv_records s =
    (Ret csv_records, s1) ∧
  process_repositories fnmatch json_loads w args patterns (repo :: rest) csv_records s =
    process_repositories fnmatch json_loads w args patterns rest csv_records s1.
Proof.
  intros Hex Hrun s0 s1.
  assert (Hget : get_old_artifacts w (aql_spec args) (older_than args) (key repo) s0 = (Ret None, s1))
    by exact (get_old_artifacts_failed _ _ _ s0 e_str e_stderr Hex Hrun).
  assert (Hrepo : process_repository fnmatch json_loads w args patterns repo csv_records s =
                    (Ret csv_records, s1)).
  { unfold process_repository. unfold mbind at 1, M_bind at 1. unfold log at 1.
    fold s0. by rewrite (bind_ret _ _ _ _ _ Hget). }
  repeat split; try done.
  cbn [process_repositories]. by rewrite (bind_ret _ _ _ _ _ Hrepo).
Qed.

(** C6.  What parsing gives for each shape of the decoded output, and
    that it always returns. *)
Theorem parse_artifacts_is_tolerant (search_output : string) (s : state) :
  (∀ l, json_loads search_output = Some (JList l) →
        parse_artifacts json_loads search_output s = (Ret (JList l), s)) ∧
  (∀ kv results,
        json_loads search_output = Some (JObj kv) → dict_get "results" kv = Some results →
        parse_artifacts json_loads search_output s = (Ret results, s)) ∧
  (∀ data, json_loads search_output = Some data → unexpected_shape data →
        parse_artifacts json_loads search_output s =
          (Ret (JList []), logged s WARNING "Unexpected data format in search output.")) ∧
  (json_loads search_output = None →
        parse_artifacts json_loads search_output s =
          (Ret (JList []), logged s ERROR "Failed to parse search response.")) ∧
  (∃ artifacts s', parse_artifacts json_loads search_output s = (Ret artifacts, s') ∧
                   files s' = files s ∧ ncalls s' = ncalls s).
Proof.
  rewrite parse_artifacts_cases. repeat split.
  - by intros l ->.
  - by intros kv results -> ->.
  - intros data -> Hshape. destruct data as [| | | | |kv]; try done. cbn in Hshape. by rewrite Hshape.
  - by intros ->.
  - destruct (json_loads search_output) as [[| | | | |kv]|]; try (by eexists _, _).
    destruct (dict_get "results" kv); by eexists _, _.
Qed.

End SearchFacts.

Lemma failed_query_witness :
  path_exists Sample.w (aql_spec Sample.args) = true ∧
  run Sample.w (ncalls state0)
      (search_command (aql_spec Sample.args) (older_than Sample.args) "broken-local") =
    inr (CalledProcessError "Command returned non-zero exit status 1." " repository not reachable ") ∧
  process_repositories Fnmatch.fnmatch Sample.json_loads Sample.w Sample.args Sample.patterns
    [mk_repo "broken-local" "local"; mk_repo "builds-local" "local"] [] state0 =
  process_repositories Fnmatch.fnmatch Sample.json_loads Sample.w Sample.args Sample.patterns
    [mk_repo "builds-local" "local"] []
    (logged (logged (called (logged state0 INFO "Processing repository: broken-local (local)")
                            (search_command "old-artifacts.aql" "90d" "broken-local"))
                    ERROR "Search using spec file failed:")
            ERROR "repository not reachable").
Proof.
  split; [reflexivity|]. split; [reflexivity|].
  apply (failed_query_contributes_no_outcome Fnmatch.fnmatch Sample.json_loads Sample.w
           Sample.args Sample.patterns (mk_repo "broken-local" "local")
           [mk_repo "builds-local" "local"] [] state0
           "Command returned non-zero exit status 1." " repository not reachable ");
    reflexivity.
Defined.

Lemma parse_artifacts_witness :
  Sample.json_loads Sample.search_text = Some (JObj [("results", JList Sample.artifacts)]) ∧
  dict_get "results" [("results", JList Sample.artifacts)] = Some (JList Sample.artifacts) ∧
  parse_artifacts Sample.json_loads Sample.search_text state0 =
    (Ret (JList Sample.artifacts), state0).
Proof.
  split; [reflexivity|]. split; [reflexivity|].
  apply (proj1 (proj2 (parse_artifacts_is_tolerant Sample.json_loads Sample.search_text state0))
           [("results", JList Sample.artifacts)] (JList Sample.artifacts));
    reflexivity.
Defined.

(** ** Dry run *)

Lemma dry_run_command_has_flag (path : string) :
  list_contains "--dry-run" (build_delete_command path true) = true.
Proof.
  unfold list_contains, build_delete_command. cbn [existsb app].
  destruct (String.eqb "--dry-run" path); reflexivity.
Qed.

Lemma real_command_has_flag (path : string) :
  list_contains "--dry-run" (build_delete_command path false) = String.eqb "--dry-run" path.
Proof.
  unfold list_contains, build_delete_command. cbn [existsb].
  destruct (String.eqb "--dry-run" path); reflexivity.
Qed.

(** The dry-run command is the real command followed by the one word
    [--dry-run].  When the [jf] process ends in the same way for both,
    [execute_delete] returns the same pair (success, error message), or
    passes on the same exception.  A command that succeeded is logged as
    [DRYRUN-COMPLETE] in dry-run mode and, for a path that is not itself
    the word [--dry-run], as [DELETED] otherwise; a failed one is logged
    as [ERROR] in both modes. *)
Lemma dry_run_changes_only_the_label (w_dry w_real : world) (s_dry s_real : state)
    (path : string) :
  run w_dry (ncalls s_dry) (build_delete_command path true) =
  run w_real (ncalls s_real) (build_delete_command path false) →
  build_delete_command path true = build_delete_command path false ++ ["--dry-run"] ∧
  (execute_delete w_dry (build_delete_command path true) s_dry).1 =
  (execute_delete w_real (build_delete_command path false) s_real).1 ∧
  (∀ stdout, run w_dry (ncalls s_dry) (build_delete_command path true) = inl stdout →
     (execute_delete w_dry (build_delete_command path true) s_dry).1 = Ret (true, "") ∧
     logs (execute_delete w_dry (build_delete_command path true) s_dry).2 =
       logs s_dry ++ [(INFO, "[DRYRUN-COMPLETE] " +:+ str_join " " (build_delete_command path true))] ∧
     (path ≠ "--dry-run" →
      logs (execute_delete w_real (build_delete_command path false) s_real).2 =
        logs s_real ++ [(INFO, "[DELETED] " +:+ str_join " " (build_delete_command path false))])) ∧
  (∀ e_str e_stderr,
     run w_dry (ncalls s_dry) (build_delete_command path true) =
       inr (CalledProcessError e_str e_stderr) →
     ∃ error_msg,
       (execute_delete w_dry (build_delete_command path true) s_dry).1 = Ret (false, error_msg) ∧
       logs (execute_delete w_dry (build_delete_command path true) s_dry).2 =
         logs s_dry ++ [(ERROR, "[ERROR] Delete failed: " +:+
                                str_join " " (build_delete_command path true) +:+ " - " +:+ error_msg)] ∧
       logs (execute_delete w_real (build_delete_command path false) s_real).2 =
         logs s_real ++ [(ERROR, "[ERROR] Delete failed: " +:+
                                 str_join " " (build_delete_command path false) +:+ " - " +:+ error_msg)]).
Proof.
  intros Hsame. split; [reflexivity|]. split; [|split].
  - destruct (run w_dry (ncalls s_dry) (build_delete_command path true)) as [stdout|e] eqn:Hdry;
      symmetry in Hsame.
    + by rewrite (execute_delete_completed _ _ _ _ Hdry), (execute_delete_completed _ _ _ _ Hsame).
    + destruct e as [e_str e_stderr| |cls e_str].
      * by rewrite (execute_delete_failed _ _ _ _ _ Hdry), (execute_delete_failed _ _ _ _ _ Hsame).
      * by rewrite (execute_delete_raised _ _ _ _ Hdry), (execute_delete_raised _ _ _ _ Hsame).
      * by rewrite (execute_delete_raised _ _ _ _ Hdry), (execute_delete_raised _ _ _ _ Hsame).
  - intros stdout Hdry. rewrite Hdry in Hsame. symmetry in Hsame.
    rewrite (execute_delete_completed _ _ _ _ Hdry), (execute_delete_completed _ _ _ _ Hsame).
    rewrite dry_run_command_has_flag, real_command_has_flag.
    repeat split; try done. intros Hpath.
    destruct (String.eqb_spec "--dry-run" path) as [Heq|_]; [by destruct Hpath|done].
  - intros e_str e_stderr Hdry. rewrite Hdry in Hsame. symmetry in Hsame.
    rewrite (execute_delete_failed _ _ _ _ _ Hdry), (execute_delete_failed _ _ _ _ _ Hsame).
    by eexists.
Qed.

Lemma dry_run_changes_only_the_label_example :
  run Sample.w (ncalls state0) (build_delete_command "b/rel/2.zip" true) =
  run Sample.w (ncalls state0) (build_delete_command "b/rel/2.zip" false) ∧
  build_delete_command "b/rel/2.zip" true = build_delete_command "b/rel/2.zip" false ++ ["--dry-run"] ∧
  (execute_delete Sample.w (build_delete_command "b/rel/2.zip" true) state0).1 =
  (execute_delete Sample.w (build_delete_command "b/rel/2.zip" false) state0).1.
Proof.
  split; [reflexivity|].
  destruct (dry_run_changes_only_the_label Sample.w Sample.w state0 state0 "b/rel/2.zip" eq_refl)
    as (Hcmd & Hsame & _).
  exact (conj Hcmd Hsame).
Qed.

(** C7, at the path [--dry-run].  [execute_delete] chooses the label by
    looking for the word [--dry-run] among the words of the command
    (line 159), and the path is one of these words.  The command built
    without dry run for an artifact whose path is that very word carries
    no flag, is a real deletion, and when it succeeds it is logged with
    the label [DRYRUN-COMPLETE] of a dry run, not with [DELETED]: at this
    path the two modes are logged with the same label. *)
Theorem real_deletion_of_the_path_dry_run_is_logged_as_a_dry_run (w : world) (s : state)
    (stdout : string) :
  run w (ncalls s) (build_delete_command "--dry-run" false) = inl stdout →
  build_delete_command "--dry-run" false = ["jf"; "rt"; "del"; "--dry-run"; "--quiet"] ∧
  execute_delete w (build_delete_command "--dry-run" false) s =
    (Ret (true, ""),
     logged (called s ["jf"; "rt"; "del"; "--dry-run"; "--quiet"]) INFO
            "[DRYRUN-COMPLETE] jf rt del --dry-run --quiet") ∧
  logs (execute_delete w (build_delete_command "--dry-run" false) s).2 ≠
    logs s ++ [(INFO, "[DELETED] " +:+ str_join " " (build_delete_command "--dry-run" false))].
Proof.
  intros Hrun. rewrite (execute_delete_completed _ _ _ _ Hrun). repeat split.
  cbn. intros H. apply app_inv_head in H. discriminate H.
Qed.

Lemma real_deletion_of_the_path_dry_run_witness :
  run Sample.w (ncalls state0) (build_delete_command "--dry-run" false) = inl "" ∧
  logs (execute_delete Sample.w (build_delete_command "--dry-run" false) state0).2 =
    [(INFO, "[DRYRUN-COMPLETE] jf rt del --dry-run --quiet")].
Proof.
  split; [reflexivity|].
  destruct (real_deletion_of_the_path_dry_run_is_logged_as_a_dry_run Sample.w state0 ""
              eq_refl) as (_ & Heq & _).
  by rewrite Heq.
Defined.

(** ** Loading the exclusions *)

Lemma check_exclusions_no_patterns (fnmatch : string → string → bool) (repo_key : string)
    (dry : bool) (items : list json) :
  Forall artifact_record items →
  ∀ (csv_records : list csv_record) (delete_commands : list (list string)) (s : state),
    check_exclusions fnmatch repo_key (JList []) dry items csv_records delete_commands s =
      (Ret (csv_records,
            delete_commands ++ map (λ p, build_delete_command p dry) (paths_of items)), s).
Proof.
  induction 1 as [|item rest [p Hp] _ IH]; intros csv_records delete_commands s.
  - cbn. by rewrite app_nil_r.
  - cbn [check_exclusions]. rewrite (bind_ret _ _ _ _ _ (item_path_record _ _ s Hp)).
    unfold call_is_excluded. cbn [py_iter is_excluded_items]. unfold_M.
    rewrite IH. unfold paths_of. cbn [omap list_omap]. rewrite Hp.
    cbn [map]. by rewrite <- app_assoc.
Qed.

Section ExclusionsFile.

Variable json_loads : string → option json.
Variable w : world.

(** [load_exclusion_patterns] by cases on the file. *)
Lemma load_exclusion_patterns_cases (json_path : string) (s : state) :
  load_exclusion_patterns json_loads w json_path s =
    if path_exists w json_path then
      match json_loads (read_text w json_path) with
      | None => (Raise JSONDecodeError, s)
      | Some (JObj kv) =>
          let patterns := default (JList []) (dict_get "exclude" kv) in
          match py_len patterns with
          | Some n =>
              (Ret patterns,
               logged s INFO ("Loaded " +:+ pretty n +:+ " exclusion patterns from " +:+ json_path))
          | None => (Raise (Exception "TypeError" ""), s)
          end
      | Some _ => (Raise (Exception "AttributeError" ""), s)
      end
    else (SysExit 1, logged s ERROR ("Exclusion file not found: " +:+ json_path)).
Proof.
  unfold load_exclusion_patterns, json_loads_M.
  destruct (path_exists w json_path); [|done]. cbn [negb].
  destruct (json_loads (read_text w json_path)) as [[| | | | |kv]|]; try done.
  unfold_M. cbn zeta. by destruct (py_len _).
Qed.

Lemma load_exclusion_patterns_missing_file (json_path : string) (s : state) :
  path_exists w json_path = false →
  load_exclusion_patterns json_loads w json_path s =
    (SysExit 1, logged s ERROR ("Exclusion file not found: " +:+ json_path)).
Proof. intros H. by rewrite load_exclusion_patterns_cases, H. Qed.

Lemma load_exclusion_patterns_unparsable (json_path : string) (s : state) :
  path_exists w json_path = true →
  json_loads (read_text w json_path) = None →
  load_exclusion_patterns json_loads w json_path s = (Raise JSONDecodeError, s).
Proof. intros H Hjson. by rewrite load_exclusion_patterns_cases, H, Hjson. Qed.

(** A file that decodes to something else than a dict has no [get]. *)
Lemma load_exclusion_patterns_not_a_dict (json_path : string) (data : json) (s : state) :
  path_exists w json_path = true →
  json_loads (read_text w json_path) = Some data →
  (∀ kv, data ≠ JObj kv) →
  load_exclusion_patterns json_loads w json_path s = (Raise (Exception "AttributeError" ""), s).
Proof.
  intros H Hjson Hdata. rewrite load_exclusion_patterns_cases, H, Hjson.
  destruct data as [| | | | |kv]; try done. by destruct (Hdata kv).
Qed.

(** An ["exclude"] that has no length, such as [null] or a number, stops
    the loading at [len(patterns)]. *)
Lemma load_exclusion_patterns_no_len (json_path : string) (kv : list (string * json))
    (s : state) :
  path_exists w json_path = true →
  json_loads (read_text w json_path) = Some (JObj kv) →
  py_len (default (JList []) (dict_get "exclude" kv)) = None →
  load_exclusion_patterns json_loads w json_path s = (Raise (Exception "TypeError" ""), s).
Proof.
  intros H Hjson Hlen. rewrite load_exclusion_patterns_cases, H, Hjson. cbn zeta.
  by rewrite Hlen.
Qed.

(** C9, as amended.  An exclusions file that exists and decodes to a
    dict without ["exclude"] gives the empty list of patterns, and the
    run goes on: with the empty list no path is excluded, the exclusion
    loop skips no artifact and queues a delete command for each one.
    The loading of a file returns exactly when the file exists, decodes,
    decodes to a dict, and the value of ["exclude"], when there is one,
    has a length.  Each other case ends the run: a file that does not
    exist with [sys.exit(1)], a file that is not JSON with
    [JSONDecodeError], a document that is not a dict with
    [AttributeError], an ["exclude"] without length with [TypeError],
    and nobody catches these three. *)
Theorem missing_exclude_key_gives_no_patterns (fnmatch : string → string → bool)
    (json_path : string) (kv : list (string * json)) (s : state)
    (repo_key : string) (dry : bool) (items : list json)
    (csv_records : list csv_record) (delete_commands : list (list string)) (s2 : state) :
  path_exists w json_path = true →
  json_loads (read_text w json_path) = Some (JObj kv) →
  dict_get "exclude" kv = None →
  Forall artifact_record items →
  load_exclusion_patterns json_loads w json_path s =
    (Ret (JList []), logged s INFO ("Loaded 0 exclusion patterns from " +:+ json_path)) ∧
  (∀ path, call_is_excluded fnmatch path (JList []) s2 = (Ret (false, ∅), s2)) ∧
  check_exclusions fnmatch repo_key (JList []) dry items csv_records delete_commands s2 =
    (Ret (csv_records,
          delete_commands ++ map (λ p, build_delete_command p dry) (paths_of items)), s2) ∧
  (∀ other_path,
     (∃ patterns s', load_exclusion_patterns json_loads w other_path s = (Ret patterns, s')) ↔
     path_exists w other_path = true ∧
     ∃ kv', json_loads (read_text w other_path) = Some (JObj kv') ∧
            is_Some (py_len (default (JList []) (dict_get "exclude" kv')))) ∧
  (∀ other_path,
     path_exists w other_path = false →
     (load_exclusion_patterns json_loads w other_path s).1 = SysExit 1) ∧
  (∀ other_path,
     path_exists w other_path = true → json_loads (read_text w other_path) = None →
     (load_exclusion_patterns json_loads w other_path s).1 = Raise JSONDecodeError) ∧
  (∀ other_path data,
     path_exists w other_path = true → json_loads (read_text w other_path) = Some data →
     (∀ kv', data ≠ JObj kv') →
     (load_exclusion_patterns json_loads w other_path s).1 = Raise (Exception "AttributeError" "")) ∧
  (∀ other_path kv',
     path_exists w other_path = true → json_loads (read_text w other_path) = Some (JObj kv') →
     py_len (default (JList []) (dict_get "exclude" kv')) = None →
     (load_exclusion_patterns json_loads w other_path s).1 = Raise (Exception "TypeError" "")).
Proof.
  intros Hex Hjson Hkv Hitems.
  split; [|split; [|split; [|split; [|split; [|split; [|split]]]]]].
  - rewrite load_exclusion_patterns_cases, Hex, Hjson. cbn zeta. by rewrite Hkv.
  - done.
  - by apply check_exclusions_no_patterns.
  - intros other_path. rewrite load_exclusion_patterns_cases. split.
    + intros (patterns & s' & Hload).
      destruct (path_exists w other_path); [|done]. split; [done|].
      destruct (json_loads (read_text w other_path)) as [[| | | | |kv']|]; try done.
      cbn zeta in Hload. eexists. split; [reflexivity|].
      by destruct (py_len (default (JList []) (dict_get "exclude" kv'))).
    + intros (-> & kv' & -> & n & Hn). cbn zeta. rewrite Hn. by eexists _, _.
  - intros other_path H. by rewrite load_exclusion_patterns_missing_file.
  - intros other_path H Hnone. by rewrite load_exclusion_patterns_unparsable.
  - intros other_path data H Hdata Hnot. by rewrite (load_exclusion_patterns_not_a_dict _ data).
  - intros other_path kv' H Hdata Hlen. by rewrite (load_exclusion_patterns_no_len _ kv').
Qed.

End ExclusionsFile.

Lemma missing_exclude_key_witness :
  path_exists Sample.w "exclusions.json" = true ∧
  (λ _ : string, Some (JObj [("comment", JStr "nothing is kept")]))
    (read_text Sample.w "exclusions.json") = Some (JObj [("comment", JStr "nothing is kept")]) ∧
  dict_get "exclude" [("comment", JStr "nothing is kept")] = None ∧
  Forall artifact_record Sample.artifacts ∧
  load_exclusion_patterns (λ _, Some (JObj [("comment", JStr "nothing is kept")])) Sample.w
    "exclusions.json" state0 =
    (Ret (JList []), logged state0 INFO "Loaded 0 exclusion patterns from exclusions.json").
Proof.
  split; [reflexivity|]. split; [reflexivity|]. split; [reflexivity|].
  split; [exact sample_artifact_records|].
  apply (missing_exclude_key_gives_no_patterns
           (λ _, Some (JObj [("comment", JStr "nothing is kept")])) Sample.w Fnmatch.fnmatch
           "exclusions.json" [("comment", JStr "nothing is kept")] state0
           "builds-local" true Sample.artifacts [] [] state0);
    [reflexivity | reflexivity | reflexivity | exact sample_artifact_records].
Defined.

(** C9, as stated, fails on a file that holds a JSON list, here the
    document [[]]: the file exists, is JSON and has no ["exclude"] key,
    and the loading ends with [AttributeError], neither with the empty
    list of patterns nor with one of the two failures the claim names.
    It fails as well on [{"exclude": null}], where [len] raises
    [TypeError]. *)
Lemma exclusions_file_holding_a_list_is_fatal :
  path_exists Sample.w "exclusions.json" = true ∧
  Cases.json_loads_list (read_text Sample.w "exclusions.json") = Some (JList []) ∧
  load_exclusion_patterns Cases.json_loads_list Sample.w "exclusions.json" state0 =
    (Raise (Exception "AttributeError" ""), state0) ∧
  Cases.json_loads_null (read_text Sample.w "exclusions.json") =
    Some (JObj [("exclude", JNull)]) ∧
  load_exclusion_patterns Cases.json_loads_null Sample.w "exclusions.json" state0 =
    (Raise (Exception "TypeError" ""), state0).
Proof. repeat split. Qed.

(** ** The whole run *)

Section RunFacts.

Variable fnmatch : string → string → bool.
Variable json_loads : string → option json.
Variable w : world.

Lemma print_rows_returns (widths : list nat) (table : list (list string)) (s : state) :
  ∃ s' : state,
    foldr (λ row rest, log INFO (table_row widths row);; rest) (mret tt) table s = (Ret tt, s') ∧
    files s' = files s.
Proof.
  revert s. induction table as [|row table IH]; intros s; [by exists s|].
  cbn [foldr]. unfold mbind at 1, M_bind at 1, log at 1.
  destruct (IH (logged s INFO (table_row widths row))) as (s' & Heq & Hfiles).
  exists s'. by split.
Qed.

Lemma print_table_returns (headers : list string) (table : list (list string)) (s : state) :
  ∃ s' : state, print_table headers table s = (Ret tt, s') ∧ files s' = files s.
Proof.
  unfold print_table. unfold mbind, M_bind, log. cbn beta iota.
  match goal with |- context [foldr ?f ?z table ?s0] =>
    destruct (print_rows_returns (col_widths headers table) table s0) as (s' & Heq & Hfiles) end.
  unfold mbind, M_bind, log in Heq. rewrite Heq. eexists. split; [reflexivity|]. done.
Qed.

(** After parsing: nothing to do, or the dispatcher. *)
Lemma artifacts_handled (args : arguments) (v : json) (patterns : list string)
    (repo_key : string) (artifacts : json) (csv_records : list csv_record) (s : state) :
  (0 < threads args)%Z → str_items v = Some patterns → artifact_list artifacts →
  ∃ (new : list csv_record) (s' : state),
    (if negb (py_truthy artifacts) then
       log INFO ("No matching artifacts found in " +:+ repo_key +:+ ".");;
       mret csv_records
     else dispatch fnmatch w args v repo_key artifacts csv_records) s =
      (Ret (csv_records ++ new), s') ∧
    files s' = files s.
Proof.
  intros Hk Hv Hlist.
  assert (Hnone : ∀ a : json, py_truthy a = false →
            ∃ (new : list csv_record) (s' : state),
              (if negb (py_truthy a) then
                 log INFO ("No matching artifacts found in " +:+ repo_key +:+ ".");;
                 mret csv_records
               else dispatch fnmatch w args v repo_key a csv_records) s =
                (Ret (csv_records ++ new), s') ∧
              files s' = files s).
  { intros a ->. exists [], (logged s INFO ("No matching artifacts found in " +:+ repo_key +:+ ".")).
    rewrite app_nil_r. by split. }
  destruct artifacts as [| | | |items|]; try (by apply Hnone).
  destruct items as [|item items]; [by apply Hnone|].
  cbn [py_truthy negb].
  destruct (dispatch_rows fnmatch w args v patterns repo_key _ csv_records s Hk Hv Hlist)
    as (completed & new & s' & _ & Heq & _ & _ & Hfiles & _).
  eexists _, s'. split; [exact Heq|done].
Qed.

Lemma parsed_artifacts_ok (out : string) (s : state) :
  search_output_ok json_loads out →
  ∃ (v : json) (s' : state),
    parse_artifacts json_loads out s = (Ret v, s') ∧ artifact_list v ∧ files s' = files s.
Proof.
  unfold search_output_ok. rewrite parse_artifacts_cases. intros Hok.
  assert (Hempty : artifact_list (JList [])) by constructor.
  destruct (json_loads out) as [[| | | |items|kv]|]; try (by eexists _, _).
  destruct (dict_get "results" kv) as [results|]; by eexists _, _.
Qed.

Lemma process_repository_returns (args : arguments) (v : json) (patterns : list string)
    (repo : repository) (csv_records : list csv_record) (s : state) :
  str_items v = Some patterns →
  path_exists w (aql_spec args) = true → (0 < threads args)%Z → search_behaves json_loads w →
  ∃ (new : list csv_record) (s' : state),
    process_repository fnmatch json_loads w args v repo csv_records s =
      (Ret (csv_records ++ new), s') ∧
    files s' = files s.
Proof.
  intros Hv Hspec Hk Hsearch. unfold process_repository.
  unfold mbind at 1, M_bind at 1, log at 1.
  set (s0 := mk_state _ (calls s) (files s)).
  specialize (Hsearch (ncalls s0) (aql_spec args) (older_than args) (key repo)).
  destruct (run w (ncalls s0) (search_command (aql_spec args) (older_than args) (key repo)))
    as [out|e] eqn:Hrun.
  - rewrite (bind_ret _ _ _ _ _ (get_old_artifacts_completed w _ _ _ s0 out Hspec Hrun)).
    destruct (String.eqb out ""); [eexists [], _; rewrite app_nil_r; by split|].
    destruct (parsed_artifacts_ok out (called s0 (search_command (aql_spec args) (older_than args)
                                                    (key repo))) Hsearch)
      as (a & s1 & Hparse & Ha & Hfiles1).
    rewrite (bind_ret _ _ _ _ _ Hparse).
    destruct (artifacts_handled args v patterns (key repo) a csv_records s1 Hk Hv Ha)
      as (new & s' & Heq & Hfiles).
    exists new, s'. split; [exact Heq|]. cbn in Hfiles1. congruence.
  - destruct e as [e_str e_stderr| |]; try done.
    rewrite (bind_ret _ _ _ _ _ (get_old_artifacts_failed w _ _ _ s0 e_str e_stderr Hspec Hrun)).
    eexists [], _. rewrite app_nil_r. by split.
Qed.

Lemma process_repositories_returns (args : arguments) (v : json) (patterns : list string)
    (repos : list repository) :
  str_items v = Some patterns →
  path_exists w (aql_spec args) = true → (0 < threads args)%Z → search_behaves json_loads w →
  ∀ (csv_records : list csv_record) (s : state),
  ∃ (new : list csv_record) (s' : state),
    process_repositories fnmatch json_loads w args v repos csv_records s =
      (Ret (csv_records ++ new), s') ∧
    files s' = files s.
Proof.
  intros Hv Hspec Hk Hsearch.
  induction repos as [|repo rest IH]; intros csv_records s.
  - exists [], s. rewrite app_nil_r. by split.
  - destruct (process_repository_returns args v patterns repo csv_records s Hv Hspec Hk Hsearch)
      as (new1 & s1 & Heq1 & Hfiles1).
    destruct (IH (csv_records ++ new1) s1) as (new2 & s2 & Heq2 & Hfiles2).
    exists (new1 ++ new2), s2. cbn [process_repositories].
    rewrite (bind_ret _ _ _ _ _ Heq1), Heq2, app_assoc. split; [done|congruence].
Qed.

Lemma write_rows_all (csv_records : list csv_record) :
  (∀ row, writerow_error w row = None) → write_rows w csv_records = (csv_records, None).
Proof.
  intros Hrows. induction csv_records as [|row rest IH]; [done|].
  cbn [write_rows]. by rewrite Hrows, IH.
Qed.

Lemma write_csv_written (csv_filename : string) (csv_records : list csv_record) (s : state) :
  open_error w csv_filename = None → (∀ row, writerow_error w row = None) →
  write_csv w csv_filename csv_records s =
    (Ret tt, created s csv_filename (report_file (mk_csv ";" csv_headers csv_records))).
Proof. intros Hopen Hrows. unfold write_csv. by rewrite Hopen, write_rows_all. Qed.

Lemma setup_logger_cases (s : state) :
  setup_logger w s =
    match open_error w (log_filename (now w)) with
    | Some (cls, e_str) => (Raise (Exception cls e_str), s)
    | None => (Ret (now w), created s (log_filename (now w)) log_file)
    end.
Proof.
  unfold setup_logger, create_file. unfold_M.
  by destruct (open_error w (log_filename (now w))) as [[cls e_str]|].
Qed.

Lemma setup_logger_created (s : state) :
  open_error w (log_filename (now w)) = None →
  setup_logger w s = (Ret (now w), created s (log_filename (now w)) log_file).
Proof. intros Hopen. by rewrite setup_logger_cases, Hopen. Qed.

(** C8, as amended.  Take a run whose command line parses and whose log
    file can be made, that passes the start-up with exclusion patterns
    that are strings, finds its query specification and has a pool of at
    least one worker, whose search commands behave and whose report can
    be written.  It returns from [main] (exit status 0) whatever the
    delete commands do.  With at least one repository, [main] goes once
    through the repositories and then writes one report file, which
    holds the rows of all of them; with none it writes no report. *)
Theorem report_is_written_unless_no_repository (args : arguments) (s s1 : state)
    (exclusion_patterns : json) (patterns : list string) (repos : list repository) :
  open_error w (log_filename (now w)) = None →
  setup json_loads w args (created s (log_filename (now w)) log_file) =
    (Ret (exclusion_patterns, repos), s1) →
  str_items exclusion_patterns = Some patterns →
  path_exists w (aql_spec args) = true → (0 < threads args)%Z → search_behaves json_loads w →
  open_error w (csv_filename (now w)) = None → (∀ row, writerow_error w row = None) →
  exit_status (main fnmatch json_loads w (Parsed args) s).1 = 0%Z ∧
  files s1 = files s ++ [(log_filename (now w), log_file)] ∧
  match repos with
  | [] =>
      main fnmatch json_loads w (Parsed args) s =
        (Ret tt, logged s1 INFO "No LOCAL or FEDERATED repositories found.")
  | _ :: _ =>
      ∃ (csv_records : list csv_record) (s2 s3 : state),
        print_table ["Repository"; "Class"] (map (λ r, [key r; class r]) repos)
          (logged s1 INFO "Repositories discovered:") = (Ret tt, s2) ∧
        process_repositories fnmatch json_loads w args exclusion_patterns repos [] s2 =
          (Ret csv_records, s3) ∧
        files s3 = files s1 ∧
        main fnmatch json_loads w (Parsed args) s =
          (Ret tt,
           logged (created s3 (csv_filename (now w))
                     (report_file (mk_csv ";" csv_headers csv_records)))
                  INFO ("CSV report generated: " +:+ csv_filename (now w)))
  end.
Proof.
  intros Hlog Hsetup Hv Hspec Hk Hsearch Hopen Hrows.
  assert (Hfiles1 : files s1 = files s ++ [(log_filename (now w), log_file)]).
  { pose proof (setup_keeps_files json_loads w args
                  (created s (log_filename (now w)) log_file)) as H.
    by rewrite Hsetup in H. }
  destruct repos as [|repo rest].
  - assert (Hmain : main fnmatch json_loads w (Parsed args) s =
                      (Ret tt, logged s1 INFO "No LOCAL or FEDERATED repositories found.")).
    { unfold main. rewrite (bind_ret _ _ _ _ _ (setup_logger_created s Hlog)).
      cbn [parse_args]. unfold mbind at 1, M_bind at 1, mret at 1, M_ret at 1.
      by rewrite (bind_ret _ _ _ _ _ Hsetup). }
    by rewrite Hmain.
  - destruct (print_table_returns ["Repository"; "Class"]
                (map (λ r, [key r; class r]) (repo :: rest))
                (logged s1 INFO "Repositories discovered:")) as (s2 & Hprint & Hfiles2).
    destruct (process_repositories_returns args exclusion_patterns patterns (repo :: rest)
                Hv Hspec Hk Hsearch [] s2) as (csv_records & s3 & Hloop & Hfiles3).
    rewrite app_nil_l in Hloop.
    assert (Hmain : main fnmatch json_loads w (Parsed args) s =
              (Ret tt,
               logged (created s3 (csv_filename (now w))
                         (report_file (mk_csv ";" csv_headers csv_records)))
                      INFO ("CSV report generated: " +:+ csv_filename (now w)))).
    { unfold main. rewrite (bind_ret _ _ _ _ _ (setup_logger_created s Hlog)).
      cbn [parse_args]. unfold mbind at 1, M_bind at 1, mret at 1, M_ret at 1.
      rewrite (bind_ret _ _ _ _ _ Hsetup).
      unfold mbind at 1, M_bind at 1, log at 1.
      unfold logged in Hprint. rewrite (bind_ret _ _ _ _ _ Hprint).
      rewrite (bind_ret _ _ _ _ _ Hloop).
      by rewrite (bind_ret _ _ _ _ _ (write_csv_written _ csv_records s3 Hopen Hrows)). }
    rewrite Hmain. split; [done|]. split; [done|].
    exists csv_records, s2, s3. repeat split; try done. cbn in Hfiles2. congruence.
Qed.

End RunFacts.

(** C8, as stated, fails when the list of repositories is empty: the
    start-up passes, [main] returns, and the log file is the only file
    written, there is no report. *)
Lemma no_report_without_repositories :
  ∃ (patterns : json) (s1 s' : state),
    setup Sample.json_loads_no_repos Sample.w_no_repos Sample.args
      (created state0 (log_filename (now Sample.w_no_repos)) log_file) =
      (Ret (patterns, []), s1) ∧
    main Fnmatch.fnmatch Sample.json_loads_no_repos Sample.w_no_repos (Parsed Sample.args) state0 =
      (Ret tt, s') ∧
    files s' = [("clean_old_artifacts_20240101_120000.log", log_file)].
Proof. eexists _, _, _. repeat split; vm_compute; reflexivity. Qed.

Lemma sample_search_behaves : search_behaves Sample.json_loads Sample.w.
Proof.
  intros n spec_path spec_timeframe repo. unfold search_command. cbn [run Sample.w Sample.jf].
  destruct (String.eqb _ _); [|done].
  unfold search_output_ok. cbn. exact sample_artifact_records.
Qed.

Lemma report_is_written_witness :
  open_error Sample.w (log_filename (now Sample.w)) = None ∧
  (setup Sample.json_loads Sample.w Sample.args
     (created state0 (log_filename (now Sample.w)) log_file)).1 =
    Ret (Sample.patterns, [mk_repo "broken-local" "local"; mk_repo "builds-local" "local"]) ∧
  str_items Sample.patterns = Some ["*/ci-temp/*"] ∧
  path_exists Sample.w (aql_spec Sample.args) = true ∧ (0 < threads Sample.args)%Z ∧
  search_behaves Sample.json_loads Sample.w ∧
  open_error Sample.w (csv_filename (now Sample.w)) = None ∧
  (∀ row, writerow_error Sample.w row = None) ∧
  exit_status (main Fnmatch.fnmatch Sample.json_loads Sample.w (Parsed Sample.args) state0).1 = 0%Z ∧
  ∃ (csv_records : list csv_record) (s3 : state),
    main Fnmatch.fnmatch Sample.json_loads Sample.w (Parsed Sample.args) state0 =
      (Ret tt,
       logged (created s3 (csv_filename (now Sample.w))
                 (report_file (mk_csv ";" csv_headers csv_records)))
              INFO ("CSV report generated: " +:+ csv_filename (now Sample.w))).
Proof.
  split; [reflexivity|]. split; [vm_compute; reflexivity|]. split; [reflexivity|].
  split; [reflexivity|]. split; [reflexivity|]. split; [exact sample_search_behaves|].
  split; [reflexivity|]. split; [reflexivity|].
  destruct (report_is_written_unless_no_repository Fnmatch.fnmatch Sample.json_loads Sample.w
              Sample.args state0
              (setup Sample.json_loads Sample.w Sample.args
                 (created state0 (log_filename (now Sample.w)) log_file)).2
              Sample.patterns ["*/ci-temp/*"]
              [mk_repo "broken-local" "local"; mk_repo "builds-local" "local"])
    as (Hstatus & _ & csv_records & s2 & s3 & _ & _ & _ & Hmain);
    [reflexivity | vm_compute; reflexivity | reflexivity | reflexivity | reflexivity
    | exact sample_search_behaves | reflexivity | reflexivity |].
  split; [exact Hstatus|]. by exists csv_records, s3.
Defined.

(** ** The end-to-end scenario of the specification

    Exclusions [*/ci-temp/*], a repository [builds-local] with the
    artifacts [a/ci-temp/1.zip] and [b/rel/2.zip], dry run: one skipped
    row with the pattern, one deleted row. *)
Example end_to_end_scenario :
  (dispatch Fnmatch.fnmatch Sample.w Sample.args Sample.patterns "builds-local"
     (JList [Sample.artifact "a/ci-temp/1.zip"; Sample.artifact "b/rel/2.zip"]) [] state0).1 =
    Ret [mk_record "builds-local" "a/ci-temp/1.zip" "skipped" "*/ci-temp/*" "";
         mk_record "builds-local" "b/rel/2.zip" "deleted" "" ""].
Proof. vm_compute. reflexivity. Qed.

(** The sample run as a whole: the repository whose search failed has no
    row in the report, the other one has a row for each of its four
    artifacts. *)
Example sample_run_report :
  ∃ s' : state,
    main Fnmatch.fnmatch Sample.json_loads Sample.w (Parsed Sample.args) state0 = (Ret tt, s') ∧
    map (λ f, (f.1, match f.2 with
                    | log_file => []
                    | report_file c => map (λ r, (Repository r, Path r, Status r)) (rows c)
                    end)) (files s') =
      [("clean_old_artifacts_20240101_120000.log", []);
       ("clean-up-20240101_120000.csv",
        [("builds-local", "a/ci-temp/1.zip", "skipped");
         ("builds-local", "d/big/4.zip", "Error");
         ("builds-local", "c/old/3.zip", "error");
         ("builds-local", "b/rel/2.zip", "deleted")])].
Proof. eexists. split; vm_compute; reflexivity. Qed.

(** * Further properties of the script *)

(** ** [is_excluded] *)

(** X1.  When [is_excluded] answers true, the set it fills holds one
    pattern: the first pattern of the list, in list order, that matches
    the path. *)
Theorem is_excluded_reports_the_first_match (fnmatch : string → string → bool)
    (P : string) (S : list string) (matched : gset string) :
  is_excluded fnmatch P S ∅ = (true, matched) →
  ∃ (before : list string) (pat : string) (after : list string),
    S = before ++ pat :: after ∧
    matched = {[ pat ]} ∧
    fnmatch P pat = true ∧
    Forall (λ earlier, fnmatch P earlier = false) before.
Proof.
  revert matched. induction S as [|q S IH]; intros matched; [done|].
  cbn [is_excluded]. destruct (fnmatch P q) eqn:Hq.
  - intros [= <-]. exists [], q, S. rewrite union_empty_r_L. by repeat split.
  - intros H. destruct (IH matched H) as (before & pat & after & -> & -> & Hpat & Hbefore).
    exists (q :: before), pat, after. repeat split; try done. by constructor.
Qed.

Lemma is_excluded_reports_the_first_match_witness :
  is_excluded Fnmatch.fnmatch "a/tmp/x.bak" ["*.zip"; "*/tmp/*"; "*.bak"] ∅ =
    (true, {[ "*/tmp/*" ]}) ∧
  ∃ (before : list string) (pat : string) (after : list string),
    ["*.zip"; "*/tmp/*"; "*.bak"] = before ++ pat :: after ∧
    ({[ "*/tmp/*" ]} : gset string) = {[ pat ]} ∧
    Fnmatch.fnmatch "a/tmp/x.bak" pat = true ∧
    Forall (λ earlier, Fnmatch.fnmatch "a/tmp/x.bak" earlier = false) before.
Proof.
  assert (H : is_excluded Fnmatch.fnmatch "a/tmp/x.bak" ["*.zip"; "*/tmp/*"; "*.bak"] ∅ =
                (true, {[ "*/tmp/*" ]})) by (vm_compute; reflexivity).
  split; [exact H|].
  exact (is_excluded_reports_the_first_match Fnmatch.fnmatch "a/tmp/x.bak"
           ["*.zip"; "*/tmp/*"; "*.bak"] {[ "*/tmp/*" ]} H).
Defined.

(** X2.  Checking a path against two lists of patterns put end to end is
    checking it against the first list and, only if that one does not
    exclude it, against the second; and [is_excluded] only ever adds to
    the set it is given. *)
Theorem is_excluded_of_appended_lists (fnmatch : string → string → bool)
    (P : string) (S1 S2 : list string) (M0 : gset string) :
  is_excluded fnmatch P (S1 ++ S2) M0 =
    (if (is_excluded fnmatch P S1 M0).1
     then is_excluded fnmatch P S1 M0
     else is_excluded fnmatch P S2 M0) ∧
  M0 ⊆ (is_excluded fnmatch P (S1 ++ S2) M0).2.
Proof.
  split.
  - induction S1 as [|q S1 IH]; [done|]. cbn [app is_excluded].
    by destruct (fnmatch P q).
  - rewrite is_excluded_find. destruct (List.find (fnmatch P) (S1 ++ S2)); cbn [snd]; set_solver.
Qed.

(** ** What [main] writes, how it exits *)

Section RunFrames.

Variable fnmatch : string → string → bool.
Variable json_loads : string → option json.
Variable w : world.









End RunFrames.

(** No [CalledProcessError] leaves a [try] whose handler takes it. *)
Lemma handles_ret {A : Type} (a : A) : handles_failed_commands (mret a).
Proof. by intros s e_str e_stderr. Qed.

Lemma handles_log (lvl : level) (msg : string) : handles_failed_commands (log lvl msg).
Proof. by intros s e_str e_stderr. Qed.

Lemma handles_exit {A : Type} (code : Z) : handles_failed_commands (@sys_exit A code).
Proof. by intros s e_str e_stderr. Qed.

Lemma handles_raise_other {A : Type} (cls e_str : string) :
  handles_failed_commands (@raise A (Exception cls e_str)).
Proof. by intros s a b. Qed.

Lemma handles_raise_json {A : Type} : handles_failed_commands (@raise A JSONDecodeError).
Proof. by intros s a b. Qed.

Lemma handles_bind {A B : Type} (m : M A) (f : A → M B) :
  handles_failed_commands m → (∀ a, handles_failed_commands (f a)) →
  handles_failed_commands (m ≫= f).
Proof.
  intros Hm Hf s e_str e_stderr. unfold mbind, M_bind. specialize (Hm s).
  destruct (m s) as [[a| |e] s1]; cbn in *; [apply Hf|done|].
  intros [= ->]. by apply (Hm e_str e_stderr).
Qed.

Lemma handles_try_catching {A : Type} (body : M A) (handler : exception → option (M A)) :
  (∀ e h, handler e = Some h → handles_failed_commands h) →
  (∀ e_str e_stderr, handler (CalledProcessError e_str e_stderr) ≠ None) →
  handles_failed_commands (try_except body handler).
Proof.
  intros Hh Hcatch s e_str e_stderr. unfold try_except.
  destruct (body s) as [[a| |e] s1]; cbn; try done.
  destruct (handler e) as [h|] eqn:He; [by apply (Hh e h He)|].
  cbn. intros [= ->]. by apply (Hcatch e_str e_stderr).
Qed.

Lemma handles_try_passing {A : Type} (body : M A) (handler : exception → option (M A)) :
  handles_failed_commands body →
  (∀ e h, handler e = Some h → handles_failed_commands h) →
  handles_failed_commands (try_except body handler).
Proof.
  intros Hbody Hh s e_str e_stderr. unfold try_except. specialize (Hbody s).
  destruct (body s) as [[a| |e] s1]; cbn in *; try done.
  destruct (handler e) as [h|] eqn:He; [by apply (Hh e h He)|apply Hbody].
Qed.

Ltac handles_step :=
  match goal with
  | |- handles_failed_commands (mret _) => apply handles_ret
  | |- handles_failed_commands (log _ _) => apply handles_log
  | |- handles_failed_commands (sys_exit _) => apply handles_exit
  | |- handles_failed_commands (raise (Exception _ _)) => apply handles_raise_other
  | |- handles_failed_commands (raise JSONDecodeError) => apply handles_raise_json
  | |- handles_failed_commands (_ ≫= _) => apply handles_bind; [|intros ?]
  | |- handles_failed_commands (try_except _ _) =>
      first
        [ apply handles_try_catching;
          [ let e := fresh "e" in let h := fresh "h" in let He := fresh "He" in
            intros e h He; destruct e; inversion He; subst; clear He
          | intros ? ?; discriminate ]
        | apply handles_try_passing;
          [ | let e := fresh "e" in let h := fresh "h" in let He := fresh "He" in
              intros e h He; destruct e; inversion He; subst; clear He ] ]
  | |- handles_failed_commands (if ?b then _ else _) => destruct b
  | |- handles_failed_commands (match ?x with _ => _ end) => destruct x
  end.

(** [sys.exit] is only ever called with 1. *)
Lemma exits_ret {A : Type} (a : A) : exits_with_one (mret a).
Proof. by intros s code. Qed.

Lemma exits_log (lvl : level) (msg : string) : exits_with_one (log lvl msg).
Proof. by intros s code. Qed.

Lemma exits_exit_one {A : Type} : exits_with_one (@sys_exit A 1).
Proof. intros s code. by intros [= <-]. Qed.

Lemma exits_raise {A : Type} (e : exception) : exits_with_one (@raise A e).
Proof. by intros s code. Qed.

Lemma exits_subprocess_run (w : world) (cmd : list string) :
  exits_with_one (subprocess_run w cmd).
Proof. intros s code. unfold subprocess_run. by destruct (run w (ncalls s) cmd). Qed.

Lemma exits_bind {A B : Type} (m : M A) (f : A → M B) :
  exits_with_one m → (∀ a, exits_with_one (f a)) → exits_with_one (m ≫= f).
Proof.
  intros Hm Hf s code. unfold mbind, M_bind. specialize (Hm s).
  destruct (m s) as [[a| |e] s1]; cbn in *; [apply Hf| |done].
  intros [= ->]. by apply (Hm code).
Qed.

Lemma exits_try {A : Type} (body : M A) (handler : exception → option (M A)) :
  exits_with_one body → (∀ e h, handler e = Some h → exits_with_one h) →
  exits_with_one (try_except body handler).
Proof.
  intros Hbody Hh s code. unfold try_except. specialize (Hbody s).
  destruct (body s) as [[a| |e] s1]; cbn in *; [done|apply Hbody|].
  destruct (handler e) as [h|] eqn:He; [by apply (Hh e h He)|done].
Qed.

Ltac exits_step :=
  match goal with
  | |- exits_with_one (mret _) => apply exits_ret
  | |- exits_with_one (log _ _) => apply exits_log
  | |- exits_with_one (sys_exit 1) => apply exits_exit_one
  | |- exits_with_one (raise _) => apply exits_raise
  | |- exits_with_one (subprocess_run _ _) => apply exits_subprocess_run
  | |- exits_with_one (_ ≫= _) => apply exits_bind; [|intros ?]
  | |- exits_with_one (try_except _ _) =>
      apply exits_try; [|let e := fresh "e" in let h := fresh "h" in let He := fresh "He" in
                         intros e h He; destruct e; inversion He; subst; clear He]
  | |- exits_with_one (if ?b then _ else _) => destruct b
  | |- exits_with_one (match ?x with _ => _ end) => destruct x
  end.

Section RunOutcomes.

Variable fnmatch : string → string → bool.
Variable json_loads : string → option json.
Variable w : world.

Lemma create_file_handles (path : string) (content : file) :
  handles_failed_commands (create_file w path content).
Proof.
  intros s a b. unfold create_file. by destruct (open_error w path) as [[cls e_str]|].
Qed.

Lemma create_file_exits (path : string) (content : file) :
  exits_with_one (create_file w path content).
Proof.
  intros s code. unfold create_file. by destruct (open_error w path) as [[cls e_str]|].
Qed.

Lemma write_csv_handles (csv_filename : string) (csv_records : list csv_record) :
  handles_failed_commands (write_csv w csv_filename csv_records).
Proof.
  intros s a b. unfold write_csv. destruct (open_error w csv_filename) as [[cls e_str]|]; [done|].
  by destruct (write_rows w csv_records) as [written [[cls e_str]|]].
Qed.

Lemma write_csv_exits (csv_filename : string) (csv_records : list csv_record) :
  exits_with_one (write_csv w csv_filename csv_records).
Proof.
  intros s code. unfold write_csv. destruct (open_error w csv_filename) as [[cls e_str]|]; [done|].
  by destruct (write_rows w csv_records) as [written [[cls e_str]|]].
Qed.

Lemma call_is_excluded_handles (path : string) (patterns : json) :
  handles_failed_commands (call_is_excluded fnmatch path patterns).
Proof.
  unfold call_is_excluded. destruct (py_iter patterns) as [items|]; [|apply handles_raise_other].
  generalize (∅ : gset string). induction items as [|item items IH]; intros matched;
    cbn [is_excluded_items]; repeat first [apply IH | handles_step].
Qed.

Lemma call_is_excluded_exits (path : string) (patterns : json) :
  exits_with_one (call_is_excluded fnmatch path patterns).
Proof.
  unfold call_is_excluded. destruct (py_iter patterns) as [items|]; [|apply exits_raise].
  generalize (∅ : gset string). induction items as [|item items IH]; intros matched;
    cbn [is_excluded_items]; repeat first [apply IH | exits_step].
Qed.

Lemma setup_handles : ∀ args, handles_failed_commands (setup json_loads w args).
Proof.
  intros args.
  unfold setup, jfrog_cli_configure, load_exclusion_patterns, get_repositories, json_loads_M.
  repeat handles_step.
Qed.

Lemma collect_results_handles (repo_key : string) (completed : list (list string)) :
  ∀ csv_records, handles_failed_commands (collect_results w repo_key completed csv_records).
Proof.
  induction completed as [|cmd rest IH]; intros csv_records; cbn [collect_results].
  - apply handles_ret.
  - apply handles_bind; [|intros; apply IH]. unfold collect_result. repeat handles_step.
Qed.

Lemma check_exclusions_handles (repo_key : string) (patterns : json) (dry : bool)
    (items : list json) :
  ∀ csv_records delete_commands,
    handles_failed_commands
      (check_exclusions fnmatch repo_key patterns dry items csv_records delete_commands).
Proof.
  induction items as [|item rest IH]; intros csv_records delete_commands;
    cbn [check_exclusions]; unfold item_path;
    repeat first [apply IH | apply call_is_excluded_handles | handles_step].
Qed.

Lemma process_repositories_handles (args : arguments) (patterns : json)
    (repos : list repository) :
  ∀ csv_records,
    handles_failed_commands
      (process_repositories fnmatch json_loads w args patterns repos csv_records).
Proof.
  induction repos as [|repo rest IH]; intros csv_records; cbn [process_repositories].
  - apply handles_ret.
  - apply handles_bind; [|intros; apply IH].
    unfold process_repository, get_old_artifacts, parse_artifacts, json_loads_M, dispatch,
      run_deletions.
    repeat first [apply check_exclusions_handles | apply collect_results_handles
                 | handles_step | by intros ? ? ?].
Qed.

Lemma print_table_handles (headers : list string) (table : list (list string)) :
  handles_failed_commands (print_table headers table).
Proof.
  intros s a b. destruct (print_table_returns headers table s) as (s' & Heq & _).
  by rewrite Heq.
Qed.

Lemma print_table_exits (headers : list string) (table : list (list string)) :
  exits_with_one (print_table headers table).
Proof.
  intros s code. destruct (print_table_returns headers table s) as (s' & Heq & _).
  by rewrite Heq.
Qed.

Lemma repos_of_exits (entries : list json) : exits_with_one (repos_of entries).
Proof.
  induction entries as [|repo rest IH]; cbn [repos_of]; unfold subscript_str;
    repeat exits_step; done.
Qed.

Lemma setup_exits : ∀ args, exits_with_one (setup json_loads w args).
Proof.
  intros args.
  unfold setup, jfrog_cli_configure, load_exclusion_patterns, get_repositories, json_loads_M,
    repos_of_class.
  repeat first [apply repos_of_exits | exits_step].
Qed.

Lemma collect_results_exits (repo_key : string) (completed : list (list string)) :
  ∀ csv_records, exits_with_one (collect_results w repo_key completed csv_records).
Proof.
  induction completed as [|cmd rest IH]; intros csv_records; cbn [collect_results].
  - apply exits_ret.
  - apply exits_bind; [|intros; apply IH].
    unfold collect_result, execute_delete. repeat exits_step.
Qed.

Lemma check_exclusions_exits (repo_key : string) (patterns : json) (dry : bool)
    (items : list json) :
  ∀ csv_records delete_commands,
    exits_with_one
      (check_exclusions fnmatch repo_key patterns dry items csv_records delete_commands).
Proof.
  induction items as [|item rest IH]; intros csv_records delete_commands;
    cbn [check_exclusions]; unfold item_path;
    repeat first [apply IH | apply call_is_excluded_exits | exits_step].
Qed.

Lemma process_repositories_exits (args : arguments) (patterns : json)
    (repos : list repository) :
  ∀ csv_records,
    exits_with_one (process_repositories fnmatch json_loads w args patterns repos csv_records).
Proof.
  induction repos as [|repo rest IH]; intros csv_records; cbn [process_repositories].
  - apply exits_ret.
  - apply exits_bind; [|intros; apply IH].
    unfold process_repository, get_old_artifacts, parse_artifacts, json_loads_M, dispatch,
      run_deletions.
    repeat first [apply check_exclusions_exits | apply collect_results_exits
                 | exits_step | by intros ? ?].
Qed.

(** What [main] does once the command line is parsed calls [sys.exit]
    with 1 only. *)
Lemma main_parsed_exits (args : arguments) :
  exits_with_one (main fnmatch json_loads w (Parsed args)).
Proof.
  unfold main, setup_logger. cbn [parse_args].
  apply exits_bind; [|intros timestamp].
  { apply exits_bind; [apply create_file_exits|intros _; apply exits_ret]. }
  apply exits_bind; [apply exits_ret|intros args0].
  apply exits_bind; [apply setup_exits|intros [patterns repos]].
  destruct repos as [|repo rest]; [apply exits_log|].
  apply exits_bind; [apply exits_log|intros _].
  apply exits_bind; [apply print_table_exits|intros _].
  apply exits_bind; [apply process_repositories_exits|intros csv_records].
  apply exits_bind; [apply write_csv_exits|intros _]. apply exits_log.
Qed.

(** X4.  No failure of a [jf] command ends [main] with a traceback: every
    [subprocess.run] of the script stands in a [try] that takes
    [CalledProcessError], so this exception never leaves [main],
    whatever the command line is and whatever the commands do. *)
Theorem main_handles_every_failed_command (cl : command_line) (s : state)
    (e_str e_stderr : string) :
  (main fnmatch json_loads w cl s).1 ≠ Raise (CalledProcessError e_str e_stderr).
Proof.
  revert s e_str e_stderr. change (handles_failed_commands (main fnmatch json_loads w cl)).
  unfold main, setup_logger.
  apply handles_bind; [|intros timestamp].
  { apply handles_bind; [apply create_file_handles|intros _; apply handles_ret]. }
  apply handles_bind; [destruct cl; cbn [parse_args]; repeat handles_step|intros args].
  apply handles_bind; [apply setup_handles|intros [patterns repos]].
  destruct repos as [|repo rest]; [apply handles_log|].
  apply handles_bind; [apply handles_log|intros _].
  apply handles_bind; [apply print_table_handles|intros _].
  apply handles_bind; [apply process_repositories_handles|intros csv_records].
  apply handles_bind; [apply write_csv_handles|intros _]. apply handles_log.
Qed.

(** X5.  The exit status of a run is 0, 1 or 2.  The script itself calls
    [sys.exit] with the code 1 only: the status 2 is the usage error of
    [argparse], and a [sys.exit(0)] is the help of [argparse].  Once the
    command line is parsed the status is 0 or 1, and it is 0 exactly
    when [main] came to its end. *)
Theorem main_exit_status_is_zero_one_or_two (cl : command_line) (s : state) :
  (∀ code, (main fnmatch json_loads w cl s).1 = SysExit code →
           code = 1%Z ∨ (cl = Help ∧ code = 0%Z) ∨ (cl = Usage_error ∧ code = 2%Z)) ∧
  (exit_status (main fnmatch json_loads w cl s).1 = 0%Z ∨
   exit_status (main fnmatch json_loads w cl s).1 = 1%Z ∨
   exit_status (main fnmatch json_loads w cl s).1 = 2%Z) ∧
  (exit_status (main fnmatch json_loads w cl s).1 = 2%Z → cl = Usage_error) ∧
  (∀ args, cl = Parsed args →
           (exit_status (main fnmatch json_loads w cl s).1 = 0%Z ∨
            exit_status (main fnmatch json_loads w cl s).1 = 1%Z) ∧
           (exit_status (main fnmatch json_loads w cl s).1 = 0%Z ↔
            (main fnmatch json_loads w cl s).1 = Ret tt)).
Proof.
  destruct cl as [args| |].
  - pose proof (main_parsed_exits args s) as Hexit.
    destruct (main fnmatch json_loads w (Parsed args) s) as [[[]|code|e] s']; cbn in *.
    + split; [done|]. split; [by left|]. split; [done|]. intros _ _. split; [by left|done].
    + pose proof (Hexit code eq_refl) as ->.
      split; [intros c [= <-]; by left|]. split; [by right; left|]. split; [done|].
      intros _ _. split; [by right|done].
    + split; [done|]. split; [by right; left|]. split; [done|].
      intros _ _. split; [by right|done].
  - destruct (main fnmatch json_loads w Help s) as [r s'] eqn:Hmain. cbn [fst].
    revert Hmain. unfold main. unfold mbind at 1, M_bind at 1. rewrite setup_logger_cases.
    destruct (open_error w (log_filename (now w))) as [[cls e_str]|].
    + intros [= <- <-]. cbn. split; [done|]. split; [by right; left|]. done.
    + cbn [parse_args]. unfold mbind, M_bind, sys_exit. intros [= <- <-]. cbn.
      split; [intros code [= <-]; right; left; done|]. split; [by left|]. done.
  - destruct (main fnmatch json_loads w Usage_error s) as [r s'] eqn:Hmain. cbn [fst].
    revert Hmain. unfold main. unfold mbind at 1, M_bind at 1. rewrite setup_logger_cases.
    destruct (open_error w (log_filename (now w))) as [[cls e_str]|].
    + intros [= <- <-]. cbn. split; [done|]. split; [by right; left|]. done.
    + cbn [parse_args]. unfold mbind, M_bind, sys_exit. intros [= <- <-]. cbn.
      split; [intros code [= <-]; right; right; done|]. split; [by right; right|]. done.
Qed.

End RunOutcomes.

(** ** Configuring [jf] *)

Section ConfigureFacts.

Variable w : world.

(** X6.  When the output of [jf config show] holds the server id
    anywhere, the configuration is left as it is: [jf config show] is the
    only command run, neither [add] nor [use] follows. *)
Theorem configured_server_is_not_added_again (server_id url token stdout : string) (s : state) :
  run w (ncalls s) ["jf"; "config"; "show"] = inl stdout →
  str_contains server_id stdout = true →
  jfrog_cli_configure w server_id url token s =
    (Ret tt,
     logged (called (logged s INFO
                       ("Configuring JFrog CLI with server ID '" +:+ server_id +:+ "'..."))
                    ["jf"; "config"; "show"])
            INFO ("Server '" +:+ server_id +:+ "' already configured, skipping add.")).
Proof.
  intros Hshow Hin. unfold jfrog_cli_configure, subprocess_run. unfold ncalls in *.
  unfold_M. cbn. by rewrite Hshow, Hin.
Qed.

(** X7.  When the server id is not in the output of [jf config show], or
    that command fails, the server is added and then made the default:
    [add] is the second command and [use] the third; the configuration
    succeeds when both succeed, a failure of [add] ends the run with
    [sys.exit(1)] before [use] is tried, and a failure of [use] ends it
    with [sys.exit(1)] as well. *)
Theorem server_is_added_then_used (server_id url token : string) (s : state) :
  match run w (ncalls s) ["jf"; "config"; "show"] with
  | inl stdout => str_contains server_id stdout = false
  | inr (CalledProcessError _ _) => True
  | inr _ => False
  end →
  let add := run w (S (ncalls s))
               ["jf"; "config"; "add"; server_id; "--url"; url;
                "--access-token"; token; "--interactive=false"] in
  let use := run w (S (S (ncalls s))) ["jf"; "config"; "use"; server_id] in
  let r := jfrog_cli_configure w server_id url token s in
  match add with
  | inl _ =>
      ncalls r.2 = S (S (S (ncalls s))) ∧
      match use with
      | inl _ => r.1 = Ret tt
      | inr (CalledProcessError _ _) => r.1 = SysExit 1
      | inr e => r.1 = Raise e
      end
  | inr (CalledProcessError _ _) => r.1 = SysExit 1 ∧ ncalls r.2 = S (S (ncalls s))
  | inr e => r.1 = Raise e ∧ ncalls r.2 = S (S (ncalls s))
  end.
Proof.
  intros Hshow. cbn zeta. unfold jfrog_cli_configure, subprocess_run. unfold ncalls in *.
  unfold_M. cbn.
  destruct (run w (List.length (calls s)) ["jf"; "config"; "show"]) as [stdout|[| |]]; try done.
  - rewrite Hshow. cbn.
    destruct (run w (S (List.length (calls s))) _) as [?|[| |]]; cbn; try done.
    destruct (run w (S (S (List.length (calls s)))) _) as [?|[| |]]; cbn; done.
  - cbn.
    destruct (run w (S (List.length (calls s))) _) as [?|[| |]]; cbn; try done.
    destruct (run w (S (S (List.length (calls s)))) _) as [?|[| |]]; cbn; done.
Qed.

End ConfigureFacts.

Lemma configured_server_witness :
  run Cases.w_configured (ncalls state0) ["jf"; "config"; "show"] =
    inl "default: cli-config-01234567" ∧
  str_contains "cli-config-01234567" "default: cli-config-01234567" = true ∧
  (jfrog_cli_configure Cases.w_configured
     "cli-config-01234567" "https://artifacts.example.org" "secret" state0).1 = Ret tt.
Proof.
  split; [reflexivity|]. split; [reflexivity|].
  by rewrite (configured_server_is_not_added_again Cases.w_configured "cli-config-01234567"
                "https://artifacts.example.org" "secret" "default: cli-config-01234567"
                state0 eq_refl eq_refl).
Defined.

Lemma server_is_added_witness :
  str_contains "cli-config-01234567" "No servers configured." = false ∧
  ncalls (jfrog_cli_configure Sample.w "cli-config-01234567" "https://artifacts.example.org"
            "secret" state0).2 = 3 ∧
  (jfrog_cli_configure Sample.w "cli-config-01234567" "https://artifacts.example.org"
     "secret" state0).1 = Ret tt.
Proof.
  split; [reflexivity|].
  exact (server_is_added_then_used Sample.w "cli-config-01234567"
           "https://artifacts.example.org" "secret" state0 eq_refl).
Defined.

(** ** Listing the repositories *)

Lemma Fnmatch_star_matches_everything (name : string) : Fnmatch.fnmatch name "*" = true.
Proof.
  unfold Fnmatch.fnmatch, Fnmatch.normcase, Fnmatch.fnmatchcase. cbn.
  induction (list_ascii_of_string name) as [|c l IH]; [done|]. cbn. exact IH.
Qed.

Section RepositoryList.

Variable json_loads : string → option json.
Variable w : world.

Lemma repos_of_entries (entries : list json) (repos : list repository) (s : state) :
  Forall2 repo_entry entries repos → repos_of entries s = (Ret repos, s).
Proof.
  induction 1 as [|entry repo entries repos (kv & -> & Hkey & Hclass) _ IH]; [done|].
  cbn [repos_of]. unfold subscript_str. rewrite Hkey, Hclass. unfold_M. rewrite IH.
  by destruct repo.
Qed.

(** X8.  [get_repositories] returns the entries listed under ["LOCAL"]
    followed by those listed under ["FEDERATED"], each with its own
    ["key"] and ["rclass"]; a class that is not in the answer counts as
    empty, and what the answer lists under other classes is left out. *)
Theorem get_repositories_lists_local_then_federated (s : state) (stdout : string)
    (kv : list (string * json)) (locals federated : list json)
    (local_repos federated_repos : list repository) :
  run w (ncalls s) ["jf"; "rt"; "curl"; "-XGET"; "/api/repositories/configurations"] =
    inl stdout →
  json_loads stdout = Some (JObj kv) →
  default (JList []) (dict_get "LOCAL" kv) = JList locals →
  default (JList []) (dict_get "FEDERATED" kv) = JList federated →
  Forall2 repo_entry locals local_repos →
  Forall2 repo_entry federated federated_repos →
  get_repositories json_loads w s =
    (Ret (local_repos ++ federated_repos),
     called (logged s INFO "Fetching repository configurations...")
            ["jf"; "rt"; "curl"; "-XGET"; "/api/repositories/configurations"]).
Proof.
  intros Hrun Hjson Hlocal Hfed Hls Hfs.
  unfold get_repositories, subprocess_run, json_loads_M, repos_of_class. unfold ncalls in *.
  unfold_M. cbn.
  rewrite Hrun, Hjson, Hlocal, Hfed. cbn [py_iter].
  rewrite (repos_of_entries _ _ _ Hls), (repos_of_entries _ _ _ Hfs). done.
Qed.

(** X9.  An entry of the answer that has no ["key"] makes
    [get_repositories] raise [KeyError]: neither of its two handlers
    takes it, so the run ends with a traceback and not with the logged
    [sys.exit(1)] of the other failures. *)
Theorem repository_entry_without_key_raises (s : state) (stdout : string)
    (kv entry : list (string * json)) (before after : list json)
    (repos : list repository) :
  run w (ncalls s) ["jf"; "rt"; "curl"; "-XGET"; "/api/repositories/configurations"] =
    inl stdout →
  json_loads stdout = Some (JObj kv) →
  dict_get "LOCAL" kv = Some (JList (before ++ JObj entry :: after)) →
  Forall2 repo_entry before repos →
  dict_get "key" entry = None →
  (get_repositories json_loads w s).1 = Raise (Exception "KeyError" "'key'").
Proof.
  intros Hrun Hjson Hlocal Hbefore Hkey.
  unfold get_repositories, subprocess_run, json_loads_M, repos_of_class. unfold ncalls in *.
  unfold_M. cbn.
  rewrite Hrun, Hjson, Hlocal. cbn [default from_option py_iter].
  assert (Hraise : ∀ s0, repos_of (before ++ JObj entry :: after) s0 =
                         (Raise (Exception "KeyError" "'key'"), s0)).
  { clear -Hbefore Hkey.
    induction Hbefore as [|e r es rs (kv' & -> & Hk & Hc) _ IH]; intros s0.
    - cbn. unfold_M. by rewrite Hkey.
    - cbn [app repos_of]. unfold subscript_str. rewrite Hk, Hc. unfold_M. by rewrite IH. }
  by rewrite Hraise.
Qed.

(** X10.  When the listing command fails, or prints what is not JSON,
    [get_repositories] logs one error and ends the run with
    [sys.exit(1)], after that one command. *)
Theorem get_repositories_failure_is_fatal (s : state) :
  match run w (ncalls s) ["jf"; "rt"; "curl"; "-XGET"; "/api/repositories/configurations"] with
  | inl stdout => json_loads stdout = None
  | inr (CalledProcessError _ _) => True
  | inr _ => False
  end →
  ∃ msg : string,
    get_repositories json_loads w s =
      (SysExit 1,
       logged (called (logged s INFO "Fetching repository configurations...")
                      ["jf"; "rt"; "curl"; "-XGET"; "/api/repositories/configurations"])
              ERROR msg).
Proof.
  intros Hrun. unfold get_repositories, subprocess_run, json_loads_M. unfold ncalls in *.
  unfold_M. cbn.
  destruct (run w (List.length (calls s)) _) as [stdout|[e_str e_stderr| |]]; try done.
  - rewrite Hrun. by eexists.
  - by eexists.
Qed.

End RepositoryList.

Lemma sample_repo_entries :
  Forall2 repo_entry
    [JObj [("key", JStr "broken-local"); ("rclass", JStr "local")];
     JObj [("key", JStr "builds-local"); ("rclass", JStr "local")]]
    [mk_repo "broken-local" "local"; mk_repo "builds-local" "local"].
Proof. repeat constructor; eexists; repeat split; reflexivity. Qed.

Lemma get_repositories_witness :
  run Sample.w (ncalls state0) ["jf"; "rt"; "curl"; "-XGET"; "/api/repositories/configurations"] =
    inl Sample.repositories_text ∧
  (get_repositories Sample.json_loads Sample.w state0).1 =
    Ret ([mk_repo "broken-local" "local"; mk_repo "builds-local" "local"] ++ []).
Proof.
  split; [reflexivity|].
  by rewrite (get_repositories_lists_local_then_federated Sample.json_loads Sample.w state0
                Sample.repositories_text _ _ [] _ []
                eq_refl eq_refl eq_refl eq_refl sample_repo_entries (List.Forall2_nil repo_entry)).
Defined.

Lemma repository_entry_without_key_witness :
  dict_get "key" [("rclass", JStr "local")] = None ∧
  (get_repositories
     (λ _, Some (JObj [("LOCAL", JList ([] ++ JObj [("rclass", JStr "local")] :: []))]))
     Sample.w state0).1 = Raise (Exception "KeyError" "'key'").
Proof.
  split; [reflexivity|].
  exact (repository_entry_without_key_raises
           (λ _, Some (JObj [("LOCAL", JList ([] ++ JObj [("rclass", JStr "local")] :: []))]))
           Sample.w state0 Sample.repositories_text
           [("LOCAL", JList ([] ++ JObj [("rclass", JStr "local")] :: []))]
           [("rclass", JStr "local")] [] [] []
           eq_refl eq_refl eq_refl (List.Forall2_nil repo_entry) eq_refl).
Defined.

Lemma get_repositories_failure_witness :
  ∃ msg : string,
    get_repositories (λ _, None) Sample.w state0 =
      (SysExit 1,
       logged (called (logged state0 INFO "Fetching repository configurations...")
                      ["jf"; "rt"; "curl"; "-XGET"; "/api/repositories/configurations"])
              ERROR msg).
Proof. exact (get_repositories_failure_is_fatal (λ _, None) Sample.w state0 eq_refl). Defined.

(** ** The exclusions file *)

Lemma str_items_of_strings (patterns : list string) :
  str_items (JList (map JStr patterns)) = Some patterns.
Proof.
  unfold str_items. cbn [py_iter].
  induction patterns as [|pat patterns IH]; [done|]. cbn. by rewrite IH.
Qed.

Lemma str_items_of_text (text : string) :
  str_items (JStr text) = Some (map (λ c, String c "") (list_ascii_of_string text)).
Proof.
  unfold str_items. cbn [py_iter].
  induction (list_ascii_of_string text) as [|c l IH]; [done|]. cbn. by rewrite IH.
Qed.

Lemma length_list_ascii_of_string (text : string) :
  List.length (list_ascii_of_string text) = String.length text.
Proof. induction text as [|c text IH]; [done|]. cbn. by rewrite IH. Qed.

Section ExclusionsFacts.

Variable json_loads : string → option json.
Variable w : world.

(** X11.  The patterns loaded from a well-formed exclusions file are the
    strings of its ["exclude"] list, in the order of the file and with
    their repetitions: the list is returned as it is, these strings are
    what the loop of [is_excluded] visits in it, and their number is
    logged. *)
Theorem load_exclusion_patterns_keeps_the_list (json_path : string)
    (kv : list (string * json)) (patterns : list string) (s : state) :
  path_exists w json_path = true →
  json_loads (read_text w json_path) = Some (JObj kv) →
  dict_get "exclude" kv = Some (JList (map JStr patterns)) →
  load_exclusion_patterns json_loads w json_path s =
    (Ret (JList (map JStr patterns)),
     logged s INFO ("Loaded " +:+ pretty (List.length patterns) +:+
                    " exclusion patterns from " +:+ json_path)) ∧
  str_items (JList (map JStr patterns)) = Some patterns.
Proof.
  intros Hex Hjson Hkv. split; [|apply str_items_of_strings].
  unfold load_exclusion_patterns, json_loads_M.
  rewrite Hex, Hjson. cbn [negb]. unfold_M. rewrite Hkv. unfold default, id.
  cbn [from_option py_len]. by rewrite length_map.
Qed.

(** X12.  [load_exclusion_patterns] does not check that ["exclude"] is a
    list.  When it is a string, the file loads, and each character of the
    string becomes a pattern of its own when [is_excluded] loops over
    it: a string with a star in it excludes every path. *)
Theorem exclude_given_as_a_string_excludes_everything (json_path : string)
    (kv : list (string * json)) (text : string) (s : state) :
  path_exists w json_path = true →
  json_loads (read_text w json_path) = Some (JObj kv) →
  dict_get "exclude" kv = Some (JStr text) →
  In "*"%char (list_ascii_of_string text) →
  load_exclusion_patterns json_loads w json_path s =
    (Ret (JStr text),
     logged s INFO ("Loaded " +:+ pretty (String.length text) +:+
                    " exclusion patterns from " +:+ json_path)) ∧
  ∃ patterns : list string,
    str_items (JStr text) = Some patterns ∧
    List.length patterns = String.length text ∧
    (∀ path : string, (is_excluded Fnmatch.fnmatch path patterns ∅).1 = true) ∧
    (∀ (path : string) (s' : state),
       ∃ matched : gset string,
         call_is_excluded Fnmatch.fnmatch path (JStr text) s' = (Ret (true, matched), s')).
Proof.
  intros Hex Hjson Hkv Hstar. split.
  { unfold load_exclusion_patterns, json_loads_M.
    rewrite Hex, Hjson. cbn [negb]. unfold_M. by rewrite Hkv. }
  exists (map (λ c, String c "") (list_ascii_of_string text)).
  assert (Hall : ∀ path : string,
            (is_excluded Fnmatch.fnmatch path
               (map (λ c, String c "") (list_ascii_of_string text)) ∅).1 = true).
  { intros path. rewrite is_excluded_existsb. apply existsb_exists. exists "*". split.
    - apply in_map_iff. by exists "*"%char.
    - apply Fnmatch_star_matches_everything. }
  split; [apply str_items_of_text|]. split; [|split; [exact Hall|]].
  - by rewrite length_map, length_list_ascii_of_string.
  - intros path s'.
    rewrite (call_is_excluded_strings Fnmatch.fnmatch path _ _ s' (str_items_of_text text)).
    specialize (Hall path).
    destruct (is_excluded Fnmatch.fnmatch path _ ∅) as [b matched]. cbn in Hall. subst b.
    by exists matched.
Qed.

End ExclusionsFacts.

Lemma load_exclusion_patterns_witness :
  path_exists Sample.w "exclusions.json" = true ∧
  Sample.json_loads (read_text Sample.w "exclusions.json") =
    Some (JObj [("exclude", JList (map JStr ["*/ci-temp/*"]))]) ∧
  load_exclusion_patterns Sample.json_loads Sample.w "exclusions.json" state0 =
    (Ret (JList [JStr "*/ci-temp/*"]),
     logged state0 INFO "Loaded 1 exclusion patterns from exclusions.json").
Proof.
  split; [reflexivity|]. split; [reflexivity|].
  exact (proj1 (load_exclusion_patterns_keeps_the_list Sample.json_loads Sample.w
                  "exclusions.json" [("exclude", JList (map JStr ["*/ci-temp/*"]))]
                  ["*/ci-temp/*"] state0 eq_refl eq_refl eq_refl)).
Defined.

Lemma exclude_given_as_a_string_witness :
  dict_get "exclude" [("exclude", JStr "*.bak")] = Some (JStr "*.bak") ∧
  In "*"%char (list_ascii_of_string "*.bak") ∧
  load_exclusion_patterns (λ _, Some (JObj [("exclude", JStr "*.bak")])) Sample.w
    "exclusions.json" state0 =
    (Ret (JStr "*.bak"), logged state0 INFO "Loaded 5 exclusion patterns from exclusions.json") ∧
  ∃ patterns : list string,
    str_items (JStr "*.bak") = Some patterns ∧
    List.length patterns = 5 ∧
    (∀ path : string, (is_excluded Fnmatch.fnmatch path patterns ∅).1 = true) ∧
    (∀ (path : string) (s' : state),
       ∃ matched : gset string,
         call_is_excluded Fnmatch.fnmatch path (JStr "*.bak") s' = (Ret (true, matched), s')).
Proof.
  split; [reflexivity|]. split; [by left|].
  exact (exclude_given_as_a_string_excludes_everything
           (λ _, Some (JObj [("exclude", JStr "*.bak")])) Sample.w "exclusions.json"
           [("exclude", JStr "*.bak")] "*.bak" state0 eq_refl eq_refl eq_refl
           (or_introl eq_refl)).
Defined.

(** ** The rows of the report *)

Lemma lstrip_spaces (l : list ascii) : Forall (λ c, is_space c = true) l → lstrip l = [].
Proof. induction 1 as [|c l Hc _ IH]; [done|]. cbn. by rewrite Hc. Qed.

Lemma str_strip_spaces (text : string) :
  Forall (λ c, is_space c = true) (list_ascii_of_string text) → str_strip text = "".
Proof. intros H. unfold str_strip. by rewrite (lstrip_spaces _ H). Qed.

Section RowFacts.

Variable fnmatch : string → string → bool.
Variable w : world.

(** X13.  The handling of one future runs one [jf] command and adds one
    row, whose status tells how that command ended: [deleted] with an
    empty error text when it ended with status 0, [error] with the
    stripped standard error (or [Unknown error] when there is none) when
    it ended with another status, [Error] with the text of the exception
    when it could not be run. *)
Theorem row_status_tells_how_the_command_ended (repo_key : string) (cmd : list string)
    (csv_records : list csv_record) (s : state) :
  ∃ (r : csv_record) (s' : state),
    collect_result w repo_key cmd csv_records s = (Ret (csv_records ++ [r]), s') ∧
    calls s' = cmd :: calls s ∧
    match run w (ncalls s) cmd with
    | inl _ => Status r = "deleted" ∧ Error r = ""
    | inr (CalledProcessError _ e_stderr) =>
        Status r = "error" ∧
        Error r = (if String.eqb e_stderr "" then "Unknown error" else str_strip e_stderr)
    | inr e => Status r = "Error" ∧ Error r = exc_str e
    end.
Proof.
  unfold collect_result.
  destruct (run w (ncalls s) cmd) as [stdout|e] eqn:Hrun.
  - eexists _, _. unfold_M. rewrite (execute_delete_completed _ _ _ _ Hrun). by cbn.
  - destruct e as [e_str e_stderr| |cls e_str].
    + eexists _, _. unfold_M. rewrite (execute_delete_failed _ _ _ _ _ Hrun). by cbn.
    + eexists _, _. unfold_M. rewrite (execute_delete_raised _ _ _ _ Hrun) by done. by cbn.
    + eexists _, _. unfold_M. rewrite (execute_delete_raised _ _ _ _ Hrun) by done. by cbn.
Qed.

(** X14.  A delete command that fails with a standard error made of
    blanks only gives an [error] row whose error text is empty: the text
    [Unknown error] stands only for a standard error that is empty. *)
Theorem blank_stderr_gives_an_empty_error_text (cmd : list string) (s : state)
    (e_str e_stderr : string) :
  run w (ncalls s) cmd = inr (CalledProcessError e_str e_stderr) →
  e_stderr ≠ "" →
  Forall (λ c, is_space c = true) (list_ascii_of_string e_stderr) →
  (execute_delete w cmd s).1 = Ret (false, "").
Proof.
  intros Hrun Hne Hblank. rewrite (execute_delete_failed _ _ _ _ _ Hrun). cbn [fst].
  destruct (String.eqb_spec e_stderr ""); [done|]. by rewrite str_strip_spaces.
Qed.

Lemma skipped_record_pattern (repo_key path : string) (patterns : list string) :
  excluded fnmatch patterns path = true →
  Exclusion_Pattern (skipped_record repo_key path (is_excluded fnmatch path patterns ∅).2)
    ∈ patterns ∧
  fnmatch path
    (Exclusion_Pattern (skipped_record repo_key path (is_excluded fnmatch path patterns ∅).2))
    = true.
Proof.
  unfold excluded. rewrite is_excluded_find.
  destruct (List.find (fnmatch path) patterns) as [pat|] eqn:Hfind; [|done]. intros _.
  apply find_some in Hfind as [Hin Hmatch]. cbn [snd skipped_record Exclusion_Pattern].
  rewrite union_empty_r_L, elements_singleton. cbn.
  split; [by apply list_elem_of_In|done].
Qed.

(** X15.  In every row that the dispatcher writes for a skipped artifact,
    the column [Exclusion Pattern] holds one pattern of the exclusion
    list (a list of strings), and this pattern matches the path of the
    row; the error text of such a row is empty. *)
Theorem skipped_row_names_a_matching_pattern (args : arguments) (exclusion_patterns : json)
    (patterns : list string) (repo_key : string) (items : list json)
    (csv_records : list csv_record) (s : state) :
  (0 < threads args)%Z → str_items exclusion_patterns = Some patterns →
  Forall artifact_record items →
  ∃ (new : list csv_record) (s' : state),
    dispatch fnmatch w args exclusion_patterns repo_key (JList items) csv_records s =
      (Ret (csv_records ++ new), s') ∧
    Forall (λ r, Status r = "skipped" →
                 Exclusion_Pattern r ∈ patterns ∧
                 fnmatch (Path r) (Exclusion_Pattern r) = true ∧
                 Error r = "") new.
Proof.
  intros Hk Hv Hitems.
  destruct (dispatch_rows fnmatch w args exclusion_patterns patterns repo_key items
              csv_records s Hk Hv Hitems)
    as (completed & new & s' & _ & Heq & _ & Hall & _).
  eexists _, s'. split; [exact Heq|]. apply Forall_app. split.
  - apply Forall_map, Forall_forall. intros p Hp _.
    apply list_elem_of_In, filter_In in Hp as [_ Hp].
    destruct (skipped_record_pattern repo_key p patterns Hp) as [Hin Hmatch].
    by repeat split.
  - eapply Forall_impl; [exact Hall|]. intros r (_ & Hst & _) Hskip. rewrite Hskip in Hst.
    exfalso. revert Hst. by apply (bool_decide_unpack _).
Qed.

End RowFacts.

Lemma blank_stderr_witness :
  " " ≠ "" ∧
  Forall (λ c, is_space c = true) (list_ascii_of_string " ") ∧
  (execute_delete
     (mk_world "" "" (λ _, true) (λ _, "") (λ _ _, inr (CalledProcessError "status 1" " "))
               (λ _ cmds, cmds) (λ _, None) (λ _, None))
     (build_delete_command "b/rel/2.zip" false) state0).1 = Ret (false, "").
Proof.
  assert (H1 : " " ≠ "") by done.
  assert (H2 : Forall (λ c, is_space c = true) (list_ascii_of_string " "))
    by (by repeat constructor).
  split; [exact H1|]. split; [exact H2|].
  exact (blank_stderr_gives_an_empty_error_text
           (mk_world "" "" (λ _, true) (λ _, "") (λ _ _, inr (CalledProcessError "status 1" " "))
                     (λ _ cmds, cmds) (λ _, None) (λ _, None))
           (build_delete_command "b/rel/2.zip" false) state0 "status 1" " " eq_refl H1 H2).
Defined.

Lemma skipped_row_witness :
  (0 < threads Sample.args)%Z ∧ str_items Sample.patterns = Some ["*/ci-temp/*"] ∧
  Forall artifact_record Sample.artifacts ∧
  ∃ (new : list csv_record) (s' : state),
    dispatch Fnmatch.fnmatch Sample.w Sample.args Sample.patterns "builds-local"
      (JList Sample.artifacts) [] state0 = (Ret ([] ++ new), s') ∧
    Forall (λ r, Status r = "skipped" →
                 Exclusion_Pattern r ∈ ["*/ci-temp/*"] ∧
                 Fnmatch.fnmatch (Path r) (Exclusion_Pattern r) = true ∧
                 Error r = "") new.
Proof.
  split; [reflexivity|]. split; [reflexivity|]. split; [exact sample_artifact_records|].
  exact (skipped_row_names_a_matching_pattern Fnmatch.fnmatch Sample.w Sample.args
           Sample.patterns ["*/ci-temp/*"] "builds-local" Sample.artifacts [] state0 eq_refl
           eq_refl sample_artifact_records).
Defined.

(** ** Which commands the dispatcher runs *)

Section QueuedCommands.

Variable fnmatch : string → string → bool.
Variable w : world.

Lemma item_path_returned (item : json) (path : string) (s s' : state) :
  item_path item s = (Ret path, s') → artifact_path item = Some path ∧ s' = s.
Proof.
  destruct item as [| | | |l|kv]; try done. cbn.
  destruct (dict_get "path" kv) as [[]|]; try done; by intros [= -> ->].
Qed.

Lemma item_path_calls (item : json) (s : state) : calls (item_path item s).2 = calls s.
Proof.
  destruct item as [| | | |l|kv]; try done. cbn.
  by destruct (dict_get "path" kv) as [[]|].
Qed.

Lemma call_is_excluded_calls (path : string) (patterns : json) (s : state) :
  calls (call_is_excluded fnmatch path patterns s).2 = calls s.
Proof.
  unfold call_is_excluded. destruct (py_iter patterns) as [items|]; [|done].
  generalize (∅ : gset string). induction items as [|item items IH]; intros matched; [done|].
  cbn [is_excluded_items]. destruct item as [| | |pattern| |]; try done.
  destruct (fnmatch path pattern); [done|apply IH].
Qed.

(** The exclusion loop runs no command, and it queues a command only for
    an artifact on which [is_excluded] answered false. *)
Lemma check_exclusions_queue (repo_key : string) (patterns : json) (dry : bool)
    (Q : list string → Prop) (items : list json) :
  (∀ item path s0 matched s1,
     In item items → artifact_path item = Some path →
     call_is_excluded fnmatch path patterns s0 = (Ret (false, matched), s1) →
     Q (build_delete_command path dry)) →
  ∀ (csv_records : list csv_record) (delete_commands : list (list string)) (s : state),
    Forall Q delete_commands →
    calls (check_exclusions fnmatch repo_key patterns dry items csv_records delete_commands s).2 =
      calls s ∧
    ∀ csv_records' delete_commands',
      (check_exclusions fnmatch repo_key patterns dry items csv_records delete_commands s).1 =
        Ret (csv_records', delete_commands') →
      Forall Q delete_commands'.
Proof.
  induction items as [|item rest IH]; intros HQ csv_records delete_commands s Hqueue.
  - cbn. split; [done|]. by intros ? ? [= <- <-].
  - cbn [check_exclusions].
    pose proof (item_path_calls item s) as Hcalls1.
    destruct (item_path item s) as [[path| |] s1] eqn:Hitem; cbn [snd] in Hcalls1;
      [|rewrite (bind_exit _ _ _ _ _ Hitem); by split
       |rewrite (bind_raise _ _ _ _ _ Hitem); by split].
    rewrite (bind_ret _ _ _ _ _ Hitem).
    apply item_path_returned in Hitem as [Hpath ->].
    pose proof (call_is_excluded_calls path patterns s) as Hcalls2.
    destruct (call_is_excluded fnmatch path patterns s) as [[[excl matched]| |] s2] eqn:Hex;
      cbn [snd] in Hcalls2;
      [|rewrite (bind_exit _ _ _ _ _ Hex); by split
       |rewrite (bind_raise _ _ _ _ _ Hex); by split].
    rewrite (bind_ret _ _ _ _ _ Hex). cbn beta iota.
    assert (Hrest : ∀ item' path' s0 matched' s1',
              In item' rest → artifact_path item' = Some path' →
              call_is_excluded fnmatch path' patterns s0 = (Ret (false, matched'), s1') →
              Q (build_delete_command path' dry)).
    { intros item' path' s0 matched' s1' Hin. apply HQ. by right. }
    destruct excl.
    + unfold mbind, M_bind, log.
      match goal with |- context [check_exclusions _ _ _ _ _ ?c ?d ?s0] =>
        destruct (IH Hrest c d s0 Hqueue) as [Hc Hq] end.
      split; [by rewrite Hc|exact Hq].
    + match goal with |- context [check_exclusions _ _ _ _ _ ?c ?d ?s0] =>
        destruct (IH Hrest c d s0) as [Hc Hq] end.
      { apply Forall_app. split; [done|]. constructor; [|done].
        by apply (HQ item path s matched s2); [left| |]. }
      split; [by rewrite Hc|exact Hq].
Qed.

(** The commands the dispatcher runs are queued commands. *)
Lemma dispatch_runs (args : arguments) (patterns : json) (repo_key : string)
    (Q : list string → Prop) (items : list json) (csv_records : list csv_record) (s : state) :
  fair w →
  (∀ item path s0 matched s1,
     In item items → artifact_path item = Some path →
     call_is_excluded fnmatch path patterns s0 = (Ret (false, matched), s1) →
     Q (build_delete_command path (dry_run args))) →
  ∃ cmds : list (list string),
    calls (dispatch fnmatch w args patterns repo_key (JList items) csv_records s).2 =
      cmds ++ calls s ∧
    Forall Q cmds.
Proof.
  intros Hfair HQ. unfold dispatch. cbn [py_len py_iter]. unfold_M. cbn beta iota.
  match goal with |- context [check_exclusions _ _ _ _ _ ?c ?d ?s0] =>
    destruct (check_exclusions_queue repo_key patterns (dry_run args) Q items HQ c d s0)
      as [Hcalls Hqueue]; [done|];
    destruct (check_exclusions fnmatch repo_key patterns (dry_run args) items c d s0)
      as [[[csv' cmds']| |] s1] end;
    cbn [fst snd] in Hcalls, Hqueue; [|by exists []|by exists []].
  specialize (Hqueue csv' cmds' eq_refl). cbn in Hcalls. unfold run_deletions.
  destruct (threads args <=? 0)%Z; [by exists []|].
  unfold_M. cbn beta iota.
  match goal with |- context [collect_results _ _ ?completed ?c ?s0] =>
    destruct (collect_results_appends w repo_key completed c s0)
      as (new & s2 & Hnew & _ & _ & _ & Hcalls2) end.
  rewrite Hnew. cbn [snd]. rewrite Hcalls2, Hcalls. eexists. split; [reflexivity|].
  apply Forall_rev. by rewrite (Hfair _ _).
Qed.

(** X16.  No command is run for an excluded artifact.  On a list of
    artifact records and with exclusion patterns that are strings, every
    command the dispatcher has run, however its run ends, is the delete
    command of the path of one of the artifacts, and no pattern matches
    that path; with a pool of at least one worker the commands run are,
    up to their order, the delete commands of the paths that no pattern
    matches. *)
Theorem excluded_artifacts_are_never_deleted (args : arguments) (exclusion_patterns : json)
    (patterns : list string) (repo_key : string) (items : list json)
    (csv_records : list csv_record) (s : state) :
  fair w → str_items exclusion_patterns = Some patterns → Forall artifact_record items →
  ∃ cmds : list (list string),
    calls (dispatch fnmatch w args exclusion_patterns repo_key (JList items) csv_records s).2 =
      cmds ++ calls s ∧
    Forall (λ cmd, ∃ path : string,
                     cmd = build_delete_command path (dry_run args) ∧
                     In path (paths_of items) ∧
                     excluded fnmatch patterns path = false ∧
                     Forall (λ pattern, fnmatch path pattern = false) patterns) cmds ∧
    ((0 < threads args)%Z →
     cmds ≡ₚ map (λ p, build_delete_command p (dry_run args))
               (List.filter (λ p, negb (excluded fnmatch patterns p)) (paths_of items))).
Proof.
  intros Hfair Hv Hitems.
  destruct (dispatch_runs args exclusion_patterns repo_key
              (λ cmd, ∃ path : string,
                 cmd = build_delete_command path (dry_run args) ∧
                 In path (paths_of items) ∧
                 excluded fnmatch patterns path = false ∧
                 Forall (λ pattern, fnmatch path pattern = false) patterns)
              items csv_records s Hfair) as (cmds & Hcalls & Hcmds).
  { intros item path s0 matched s1 Hin Hpath Hex.
    rewrite (call_is_excluded_strings fnmatch path _ _ s0 Hv) in Hex.
    assert (Hnot : excluded fnmatch patterns path = false).
    { unfold excluded. by injection Hex as -> _. }
    exists path. repeat split; try done.
    - unfold paths_of. apply list_elem_of_In, list_elem_of_omap. exists item.
      split; [by apply list_elem_of_In|done].
    - unfold excluded in Hnot. rewrite is_excluded_existsb in Hnot.
      apply Forall_forall. intros pattern Hpat.
      destruct (fnmatch path pattern) eqn:Hm; [|done].
      assert (Hsome : existsb (fnmatch path) patterns = true).
      { apply existsb_exists. exists pattern. split; [by apply list_elem_of_In|done]. }
      congruence. }
  exists cmds. split; [exact Hcalls|]. split; [exact Hcmds|]. intros Hk.
  destruct (dispatch_rows fnmatch w args exclusion_patterns patterns repo_key items
              csv_records s Hk Hv Hitems)
    as (completed & new & s' & -> & Heq & _ & _ & _ & Hcalls').
  rewrite Heq in Hcalls. cbn [snd] in Hcalls. rewrite Hcalls' in Hcalls.
  apply app_inv_tail in Hcalls. rewrite <- Hcalls, <- Permutation_rev. apply Hfair.
Qed.

(** X17.  A dry run deletes nothing: on a list of artifact records,
    whatever the exclusion patterns are and however the run of the
    dispatcher ends, every command it has run in dry-run mode is a
    [jf rt del] command that ends with the word [--dry-run]. *)
Theorem dry_run_runs_only_dry_run_commands (args : arguments) (exclusion_patterns : json)
    (repo_key : string) (items : list json) (csv_records : list csv_record) (s : state) :
  dry_run args = true → fair w → Forall artifact_record items →
  ∃ cmds : list (list string),
    calls (dispatch fnmatch w args exclusion_patterns repo_key (JList items) csv_records s).2 =
      cmds ++ calls s ∧
    Forall (λ cmd, ∃ path : string,
                     cmd = ["jf"; "rt"; "del"; path; "--quiet"; "--dry-run"]) cmds.
Proof.
  intros Hdry Hfair _. apply dispatch_runs; [done|].
  intros item path s0 matched s1 _ _ _. exists path. by rewrite Hdry.
Qed.

(** X18.  The dispatcher runs one [jf] command for each artifact that is
    not excluded and none besides: when every artifact is excluded it
    runs none. *)
Theorem one_command_for_each_artifact_not_excluded (args : arguments)
    (exclusion_patterns : json) (patterns : list string) (repo_key : string)
    (items : list json) (csv_records : list csv_record) (s : state) :
  (0 < threads args)%Z → fair w → str_items exclusion_patterns = Some patterns →
  Forall artifact_record items →
  ncalls (dispatch fnmatch w args exclusion_patterns repo_key (JList items) csv_records s).2 =
    ncalls s +
    List.length (List.filter (λ p, negb (excluded fnmatch patterns p)) (paths_of items)).
Proof.
  intros Hk Hfair Hv Hitems.
  destruct (dispatch_rows fnmatch w args exclusion_patterns patterns repo_key items
              csv_records s Hk Hv Hitems)
    as (completed & new & s' & -> & Heq & _ & _ & _ & Hcalls).
  rewrite Heq. cbn [snd]. unfold ncalls at 1 2. rewrite Hcalls, length_app, length_rev.
  rewrite (Permutation_length (Hfair _ _)), length_map. lia.
Qed.

End QueuedCommands.

Lemma excluded_artifacts_witness :
  fair Sample.w ∧ str_items Sample.patterns = Some ["*/ci-temp/*"] ∧
  Forall artifact_record Sample.artifacts ∧
  ∃ cmds : list (list string),
    calls (dispatch Fnmatch.fnmatch Sample.w Sample.args Sample.patterns "builds-local"
             (JList Sample.artifacts) [] state0).2 = cmds ++ calls state0 ∧
    Forall (λ cmd, ∃ path : string,
                     cmd = build_delete_command path (dry_run Sample.args) ∧
                     In path (paths_of Sample.artifacts) ∧
                     excluded Fnmatch.fnmatch ["*/ci-temp/*"] path = false ∧
                     Forall (λ pattern, Fnmatch.fnmatch path pattern = false) ["*/ci-temp/*"])
           cmds ∧
    ((0 < threads Sample.args)%Z →
     cmds ≡ₚ map (λ p, build_delete_command p (dry_run Sample.args))
               (List.filter (λ p, negb (excluded Fnmatch.fnmatch ["*/ci-temp/*"] p))
                            (paths_of Sample.artifacts))).
Proof.
  split; [exact sample_fair|]. split; [reflexivity|]. split; [exact sample_artifact_records|].
  exact (excluded_artifacts_are_never_deleted Fnmatch.fnmatch Sample.w Sample.args
           Sample.patterns ["*/ci-temp/*"] "builds-local" Sample.artifacts [] state0
           sample_fair eq_refl sample_artifact_records).
Defined.

Lemma dry_run_only_witness :
  dry_run Sample.args = true ∧ fair Sample.w ∧ Forall artifact_record Sample.artifacts ∧
  ∃ cmds : list (list string),
    calls (dispatch Fnmatch.fnmatch Sample.w Sample.args Sample.patterns "builds-local"
             (JList Sample.artifacts) [] state0).2 = cmds ++ calls state0 ∧
    Forall (λ cmd, ∃ path : string,
                     cmd = ["jf"; "rt"; "del"; path; "--quiet"; "--dry-run"]) cmds.
Proof.
  split; [reflexivity|]. split; [exact sample_fair|]. split; [exact sample_artifact_records|].
  exact (dry_run_runs_only_dry_run_commands Fnmatch.fnmatch Sample.w Sample.args
           Sample.patterns "builds-local" Sample.artifacts [] state0 eq_refl sample_fair
           sample_artifact_records).
Defined.

(** The commands of the sample run of the dispatcher, the latest first. *)
Example sample_dispatch_calls :
  calls (dispatch Fnmatch.fnmatch Sample.w Sample.args Sample.patterns "builds-local"
           (JList Sample.artifacts) [] state0).2 =
    [["jf"; "rt"; "del"; "b/rel/2.zip"; "--quiet"; "--dry-run"];
     ["jf"; "rt"; "del"; "c/old/3.zip"; "--quiet"; "--dry-run"];
     ["jf"; "rt"; "del"; "d/big/4.zip"; "--quiet"; "--dry-run"]].
Proof. vm_compute. reflexivity. Qed.

Lemma one_command_witness :
  (0 < threads Sample.args)%Z ∧ fair Sample.w ∧
  str_items Sample.patterns = Some ["*/ci-temp/*"] ∧
  Forall artifact_record Sample.artifacts ∧
  ncalls (dispatch Fnmatch.fnmatch Sample.w Sample.args Sample.patterns "builds-local"
            (JList Sample.artifacts) [] state0).2 = 3.
Proof.
  split; [reflexivity|]. split; [exact sample_fair|]. split; [reflexivity|].
  split; [exact sample_artifact_records|].
  exact (one_command_for_each_artifact_not_excluded Fnmatch.fnmatch Sample.w Sample.args
           Sample.patterns ["*/ci-temp/*"] "builds-local" Sample.artifacts [] state0 eq_refl
           sample_fair eq_refl sample_artifact_records).
Defined.

(** ** The rows of a whole run *)

Section RunRows.

Variable fnmatch : string → string → bool.
Variable json_loads : string → option json.
Variable w : world.

Lemma artifacts_handled_rows (args : arguments) (v : json) (patterns : list string)
    (repo_key : string) (artifacts : json) (csv_records : list csv_record) (s : state) :
  (0 < threads args)%Z → str_items v = Some patterns → artifact_list artifacts →
  ∃ (new : list csv_record) (s' : state),
    (if negb (py_truthy artifacts) then
       log INFO ("No matching artifacts found in " +:+ repo_key +:+ ".");;
       mret csv_records
     else dispatch fnmatch w args v repo_key artifacts csv_records) s =
      (Ret (csv_records ++ new), s') ∧
    Forall (λ r, Repository r = repo_key) new.
Proof.
  intros Hk Hv Hlist.
  assert (Hnone : ∀ a : json, py_truthy a = false →
            ∃ (new : list csv_record) (s' : state),
              (if negb (py_truthy a) then
                 log INFO ("No matching artifacts found in " +:+ repo_key +:+ ".");;
                 mret csv_records
               else dispatch fnmatch w args v repo_key a csv_records) s =
                (Ret (csv_records ++ new), s') ∧
              Forall (λ r, Repository r = repo_key) new).
  { intros a ->. exists [], (logged s INFO ("No matching artifacts found in " +:+ repo_key +:+ ".")).
    rewrite app_nil_r. by split. }
  destruct artifacts as [| | | |items|]; try (by apply Hnone).
  destruct items as [|item items]; [by apply Hnone|].
  cbn [py_truthy negb].
  destruct (dispatch_rows fnmatch w args v patterns repo_key _ csv_records s Hk Hv Hlist)
    as (completed & new & s' & _ & Heq & _ & Hall & _).
  eexists _, s'. split; [exact Heq|]. apply Forall_app. split.
  - by apply Forall_map, Forall_forall.
  - eapply Forall_impl; [exact Hall|]. by intros r (Hrepo & _).
Qed.

Lemma process_repository_rows (args : arguments) (v : json) (patterns : list string)
    (repo : repository) (csv_records : list csv_record) (s : state) :
  str_items v = Some patterns →
  path_exists w (aql_spec args) = true → (0 < threads args)%Z → search_behaves json_loads w →
  ∃ (new : list csv_record) (s' : state),
    process_repository fnmatch json_loads w args v repo csv_records s =
      (Ret (csv_records ++ new), s') ∧
    Forall (λ r, Repository r = key repo) new.
Proof.
  intros Hv Hspec Hk Hsearch. unfold process_repository.
  unfold mbind at 1, M_bind at 1, log at 1.
  set (s0 := mk_state _ (calls s) (files s)).
  specialize (Hsearch (ncalls s0) (aql_spec args) (older_than args) (key repo)).
  destruct (run w (ncalls s0) (search_command (aql_spec args) (older_than args) (key repo)))
    as [out|e] eqn:Hrun.
  - rewrite (bind_ret _ _ _ _ _ (get_old_artifacts_completed w _ _ _ s0 out Hspec Hrun)).
    destruct (String.eqb out ""); [eexists [], _; rewrite app_nil_r; by split|].
    destruct (parsed_artifacts_ok json_loads out
                (called s0 (search_command (aql_spec args) (older_than args) (key repo))) Hsearch)
      as (a & s1 & Hparse & Ha & _).
    rewrite (bind_ret _ _ _ _ _ Hparse).
    by apply (artifacts_handled_rows args v patterns).
  - destruct e as [e_str e_stderr| |]; try done.
    rewrite (bind_ret _ _ _ _ _ (get_old_artifacts_failed w _ _ _ s0 e_str e_stderr Hspec Hrun)).
    eexists [], _. rewrite app_nil_r. by split.
Qed.

(** X19.  The rows of the report stand grouped by repository, the groups
    in the order in which the repositories were listed: the loop over the
    repositories (with patterns that are strings, the query
    specification in place, a pool of at least one worker and searches
    that behave) leaves the rows it has as they are and adds, for each
    repository in turn, rows that all carry the key of that repository. *)
Theorem report_rows_are_grouped_by_repository (args : arguments)
    (exclusion_patterns : json) (patterns : list string)
    (repos : list repository) (csv_records : list csv_record) (s : state) :
  str_items exclusion_patterns = Some patterns →
  path_exists w (aql_spec args) = true → (0 < threads args)%Z → search_behaves json_loads w →
  ∃ (groups : list (list csv_record)) (s' : state),
    process_repositories fnmatch json_loads w args exclusion_patterns repos csv_records s =
      (Ret (csv_records ++ List.concat groups), s') ∧
    Forall2 (λ repo group, Forall (λ r, Repository r = key repo) group) repos groups.
Proof.
  intros Hv Hspec Hk Hsearch. revert csv_records s.
  induction repos as [|repo rest IH]; intros csv_records s.
  - exists [], s. cbn. rewrite app_nil_r. by split.
  - destruct (process_repository_rows args exclusion_patterns patterns repo csv_records s
                Hv Hspec Hk Hsearch)
      as (new & s1 & Heq1 & Hnew).
    destruct (IH (csv_records ++ new) s1) as (groups & s2 & Heq2 & Hgroups).
    exists (new :: groups), s2. cbn [process_repositories List.concat].
    rewrite (bind_ret _ _ _ _ _ Heq1), Heq2, app_assoc. split; [done|by constructor].
Qed.

Lemma print_rows_calls (widths : list nat) (table : list (list string)) (s : state) :
  calls (foldr (λ row rest, log INFO (table_row widths row);; rest) (mret tt) table s).2 =
    calls s.
Proof.
  revert s. induction table as [|row table IH]; intros s; [done|].
  cbn [foldr]. unfold mbind at 1, M_bind at 1, log at 1. by rewrite IH.
Qed.

Lemma print_table_calls (headers : list string) (table : list (list string)) (s : state) :
  calls (print_table headers table s).2 = calls s.
Proof.
  unfold print_table. unfold mbind, M_bind, log. cbn beta iota.
  match goal with |- context [foldr ?f ?z table ?s0] =>
    pose proof (print_rows_calls (col_widths headers table) table s0) as Hcalls;
    destruct (print_rows_returns (col_widths headers table) table s0) as (s' & Heq & _) end.
  unfold mbind, M_bind, log in Heq, Hcalls. rewrite Heq in Hcalls |- *. by cbn in *.
Qed.

(** X20.  The query specification is looked for only when the first
    repository is processed.  When the start-up passes, repositories are
    listed and the file is not there, [main] ends with [sys.exit(1)]
    without running any search and without writing a report: the log
    file is the only file of the run. *)
Theorem missing_query_specification_stops_the_run (args : arguments) (s s1 : state)
    (patterns : json) (repo : repository) (rest : list repository) :
  open_error w (log_filename (now w)) = None →
  setup json_loads w args (created s (log_filename (now w)) log_file) =
    (Ret (patterns, repo :: rest), s1) →
  path_exists w (aql_spec args) = false →
  ∃ s' : state,
    main fnmatch json_loads w (Parsed args) s = (SysExit 1, s') ∧
    calls s' = calls s1 ∧
    files s' = files s ++ [(log_filename (now w), log_file)] ∧
    last (logs s') = Some (ERROR, "AQL spec file not found: " +:+ aql_spec args).
Proof.
  intros Hlog Hsetup Hspec.
  assert (Hfiles1 : files s1 = files s ++ [(log_filename (now w), log_file)]).
  { pose proof (setup_keeps_files json_loads w args
                  (created s (log_filename (now w)) log_file)) as H.
    by rewrite Hsetup in H. }
  unfold main. rewrite (bind_ret _ _ _ _ _ (setup_logger_created w s Hlog)).
  cbn [parse_args]. unfold mbind at 1, M_bind at 1, mret at 1, M_ret at 1.
  rewrite (bind_ret _ _ _ _ _ Hsetup).
  unfold mbind at 1, M_bind at 1, log at 1.
  pose proof (print_table_calls ["Repository"; "Class"]
                (map (λ r, [key r; class r]) (repo :: rest))
                (logged s1 INFO "Repositories discovered:")) as Hcalls.
  destruct (print_table_returns ["Repository"; "Class"]
              (map (λ r, [key r; class r]) (repo :: rest))
              (logged s1 INFO "Repositories discovered:")) as (s2 & Hprint & Hfiles2).
  rewrite Hprint in Hcalls. cbn in Hcalls, Hfiles2.
  unfold logged in Hprint. rewrite (bind_ret _ _ _ _ _ Hprint).
  cbn [process_repositories]. unfold process_repository, get_old_artifacts. rewrite Hspec.
  unfold_M. cbn. eexists. split; [reflexivity|]. cbn.
  split; [done|]. split; [congruence|]. by rewrite last_snoc.
Qed.

Lemma process_repository_finds_nothing (args : arguments) (patterns : json)
    (repo : repository) (csv_records : list csv_record) (s : state) :
  path_exists w (aql_spec args) = true →
  (∀ n spec_path spec_timeframe repo_key,
     match run w n (search_command spec_path spec_timeframe repo_key) with
     | inl out => finds_nothing json_loads out
     | inr (CalledProcessError _ _) => True
     | inr _ => False
     end) →
  ∃ s' : state,
    process_repository fnmatch json_loads w args patterns repo csv_records s =
      (Ret csv_records, s') ∧
    files s' = files s.
Proof.
  intros Hspec Hsearch. unfold process_repository.
  unfold mbind at 1, M_bind at 1, log at 1.
  set (s0 := mk_state _ (calls s) (files s)).
  specialize (Hsearch (ncalls s0) (aql_spec args) (older_than args) (key repo)).
  destruct (run w (ncalls s0) (search_command (aql_spec args) (older_than args) (key repo)))
    as [out|e] eqn:Hrun.
  - rewrite (bind_ret _ _ _ _ _ (get_old_artifacts_completed w _ _ _ s0 out Hspec Hrun)).
    destruct (String.eqb_spec out "") as [->|Hne]; [by eexists|].
    destruct Hsearch as [->|Hnothing]; [done|].
    unfold mbind at 1, M_bind at 1. rewrite parse_artifacts_cases.
    destruct (json_loads out) as [[| | | |l|kv]|]; try (by eexists).
    + rewrite Hnothing. by eexists.
    + destruct (dict_get "results" kv) as [results|]; [|by eexists].
      cbn beta iota. rewrite Hnothing. by eexists.
  - destruct e as [e_str e_stderr| |]; try done.
    rewrite (bind_ret _ _ _ _ _ (get_old_artifacts_failed w _ _ _ s0 e_str e_stderr Hspec Hrun)).
    by eexists.
Qed.

(** X21.  A thread pool is made only for a repository in which artifacts
    were found.  In a run whose searches find nothing (they fail, print
    nothing, or print an empty result), [main] comes to its end whatever
    the number of threads asked for, zero or less included, and whatever
    the exclusion patterns are, and writes, after the log file, a report
    that has the header and no row (provided the two files can be
    made). *)
Theorem run_that_finds_nothing_writes_an_empty_report (args : arguments) (s s1 : state)
    (patterns : json) (repo : repository) (rest : list repository) :
  open_error w (log_filename (now w)) = None →
  setup json_loads w args (created s (log_filename (now w)) log_file) =
    (Ret (patterns, repo :: rest), s1) →
  path_exists w (aql_spec args) = true →
  (∀ n spec_path spec_timeframe repo_key,
     match run w n (search_command spec_path spec_timeframe repo_key) with
     | inl out => finds_nothing json_loads out
     | inr (CalledProcessError _ _) => True
     | inr _ => False
     end) →
  open_error w (csv_filename (now w)) = None →
  ∃ s' : state,
    main fnmatch json_loads w (Parsed args) s = (Ret tt, s') ∧
    files s' = files s ++ [(log_filename (now w), log_file);
                           (csv_filename (now w), report_file (mk_csv ";" csv_headers []))].
Proof.
  intros Hlog Hsetup Hspec Hsearch Hopen.
  assert (Hfiles1 : files s1 = files s ++ [(log_filename (now w), log_file)]).
  { pose proof (setup_keeps_files json_loads w args
                  (created s (log_filename (now w)) log_file)) as H.
    by rewrite Hsetup in H. }
  assert (Hloop : ∀ repos s0, ∃ s',
            process_repositories fnmatch json_loads w args patterns repos [] s0 = (Ret [], s') ∧
            files s' = files s0).
  { induction repos as [|r repos IH]; intros s0; [by exists s0|].
    destruct (process_repository_finds_nothing args patterns r [] s0 Hspec Hsearch)
      as (s2 & Heq & Hf).
    destruct (IH s2) as (s3 & Heq3 & Hf3). exists s3. cbn [process_repositories].
    rewrite (bind_ret _ _ _ _ _ Heq). split; [done|congruence]. }
  unfold main. rewrite (bind_ret _ _ _ _ _ (setup_logger_created w s Hlog)).
  cbn [parse_args]. unfold mbind at 1, M_bind at 1, mret at 1, M_ret at 1.
  rewrite (bind_ret _ _ _ _ _ Hsetup).
  unfold mbind at 1, M_bind at 1, log at 1.
  destruct (print_table_returns ["Repository"; "Class"]
              (map (λ r, [key r; class r]) (repo :: rest))
              (logged s1 INFO "Repositories discovered:")) as (s2 & Hprint & Hfiles2).
  unfold logged in Hprint. rewrite (bind_ret _ _ _ _ _ Hprint).
  destruct (Hloop (repo :: rest) s2) as (s3 & Heq3 & Hfiles3).
  rewrite (bind_ret _ _ _ _ _ Heq3).
  eexists. unfold write_csv. rewrite Hopen. unfold_M. cbn. split; [reflexivity|].
  cbn in Hfiles2 |- *. by rewrite Hfiles3, Hfiles2, Hfiles1, <- app_assoc.
Qed.

End RunRows.

Lemma report_rows_witness :
  str_items Sample.patterns = Some ["*/ci-temp/*"] ∧
  path_exists Sample.w (aql_spec Sample.args) = true ∧ (0 < threads Sample.args)%Z ∧
  search_behaves Sample.json_loads Sample.w ∧
  ∃ (groups : list (list csv_record)) (s' : state),
    process_repositories Fnmatch.fnmatch Sample.json_loads Sample.w Sample.args Sample.patterns
      [mk_repo "broken-local" "local"; mk_repo "builds-local" "local"] [] state0 =
      (Ret ([] ++ List.concat groups), s') ∧
    Forall2 (λ repo group, Forall (λ r, Repository r = key repo) group)
      [mk_repo "broken-local" "local"; mk_repo "builds-local" "local"] groups.
Proof.
  split; [reflexivity|].
  split; [reflexivity|]. split; [reflexivity|]. split; [exact sample_search_behaves|].
  exact (report_rows_are_grouped_by_repository Fnmatch.fnmatch Sample.json_loads Sample.w
           Sample.args Sample.patterns ["*/ci-temp/*"]
           [mk_repo "broken-local" "local"; mk_repo "builds-local" "local"] [] state0
           eq_refl eq_refl eq_refl sample_search_behaves).
Defined.

Lemma missing_query_specification_witness :
  open_error Cases.w_no_spec (log_filename (now Cases.w_no_spec)) = None ∧
  (setup Sample.json_loads Cases.w_no_spec Sample.args
     (created state0 (log_filename (now Cases.w_no_spec)) log_file)).1 =
    Ret (Sample.patterns, [mk_repo "broken-local" "local"; mk_repo "builds-local" "local"]) ∧
  path_exists Cases.w_no_spec (aql_spec Sample.args) = false ∧
  ∃ s' : state,
    main Fnmatch.fnmatch Sample.json_loads Cases.w_no_spec (Parsed Sample.args) state0 =
      (SysExit 1, s') ∧
    calls s' = calls (setup Sample.json_loads Cases.w_no_spec Sample.args
                        (created state0 (log_filename (now Cases.w_no_spec)) log_file)).2 ∧
    files s' = files state0 ++ [(log_filename (now Cases.w_no_spec), log_file)] ∧
    last (logs s') = Some (ERROR, "AQL spec file not found: " +:+ aql_spec Sample.args).
Proof.
  split; [reflexivity|]. split; [vm_compute; reflexivity|]. split; [reflexivity|].
  apply (missing_query_specification_stops_the_run Fnmatch.fnmatch Sample.json_loads
           Cases.w_no_spec Sample.args state0
           (setup Sample.json_loads Cases.w_no_spec Sample.args
              (created state0 (log_filename (now Cases.w_no_spec)) log_file)).2
           Sample.patterns (mk_repo "broken-local" "local") [mk_repo "builds-local" "local"]);
    [reflexivity | vm_compute; reflexivity | reflexivity].
Defined.

Lemma cases_searches_find_nothing :
  ∀ n spec_path spec_timeframe repo_key,
    match run Cases.w_empty n (search_command spec_path spec_timeframe repo_key) with
    | inl out => finds_nothing Cases.json_loads_empty out
    | inr (CalledProcessError _ _) => True
    | inr _ => False
    end.
Proof. intros n spec_path spec_timeframe repo_key. cbn. by right. Qed.

Lemma run_that_finds_nothing_witness :
  open_error Cases.w_empty (log_filename (now Cases.w_empty)) = None ∧
  (setup Cases.json_loads_empty Cases.w_empty Cases.args_no_pool
     (created state0 (log_filename (now Cases.w_empty)) log_file)).1 =
    Ret (Sample.patterns, [mk_repo "broken-local" "local"; mk_repo "builds-local" "local"]) ∧
  path_exists Cases.w_empty (aql_spec Cases.args_no_pool) = true ∧
  threads Cases.args_no_pool = 0%Z ∧
  open_error Cases.w_empty (csv_filename (now Cases.w_empty)) = None ∧
  ∃ s' : state,
    main Fnmatch.fnmatch Cases.json_loads_empty Cases.w_empty (Parsed Cases.args_no_pool) state0 =
      (Ret tt, s') ∧
    files s' =
      files state0 ++ [(log_filename (now Cases.w_empty), log_file);
                       (csv_filename (now Cases.w_empty),
                        report_file (mk_csv ";" csv_headers []))].
Proof.
  split; [reflexivity|]. split; [vm_compute; reflexivity|]. split; [reflexivity|].
  split; [reflexivity|]. split; [reflexivity|].
  apply (run_that_finds_nothing_writes_an_empty_report Fnmatch.fnmatch Cases.json_loads_empty
           Cases.w_empty Cases.args_no_pool state0
           (setup Cases.json_loads_empty Cases.w_empty Cases.args_no_pool
              (created state0 (log_filename (now Cases.w_empty)) log_file)).2
           Sample.patterns (mk_repo "broken-local" "local") [mk_repo "builds-local" "local"]);
    [reflexivity | vm_compute; reflexivity | reflexivity | exact cases_searches_find_nothing
    | reflexivity].
Defined.

(** ** The table of repositories *)

Lemma string_length_app (s1 s2 : string) :
  String.length (s1 +:+ s2) = String.length s1 + String.length s2.
Proof. induction s1 as [|c s1 IH]; [done|]. simpl. by f_equal. Qed.

Lemma length_str_repeat (c : ascii) (n : nat) : String.length (str_repeat c n) = n.
Proof. induction n as [|n IH]; [done|]. cbn. by rewrite IH. Qed.

Lemma length_str_ljust (cell : string) (width : nat) :
  (String.length cell ≤ width)%nat → String.length (str_ljust cell width) = width.
Proof. intros H. unfold str_ljust. rewrite string_length_app, length_str_repeat. lia. Qed.

Lemma length_str_join (sep : string) (words : list string) :
  words ≠ [] →
  String.length (str_join sep words) =
    sum_list (map String.length words) + String.length sep * (List.length words - 1).
Proof.
  unfold str_join. induction words as [|x words IH]; [done|]. intros _.
  destruct words as [|y words]; [cbn; lia|].
  change (String.concat sep (x :: y :: words))
    with (x +:+ sep +:+ String.concat sep (y :: words)).
  rewrite !string_length_app, IH by done. cbn [map sum_list sum_list_with List.length].
  unfold id. replace (S (S (List.length words)) - 1) with (S (S (List.length words) - 1)) by lia.
  rewrite Nat.mul_succ_r. lia.
Qed.

Lemma imap_nth_zip_with {A B C : Type} (g : A → B → C) (d : B) (l : list A) (k : list B) :
  List.length l = List.length k →
  imap (λ i x, g x (nth i k d)) l = zip_with g l k.
Proof.
  revert k. induction l as [|x l IH]; intros [|y k] Hlen; try done.
  rewrite imap_cons. cbn. f_equal. apply IH. by injection Hlen.
Qed.

Lemma cells_fit_col_widths (headers : list string) (table : list (list string))
    (row : list string) :
  row = headers ∨ In row table →
  List.length row = List.length headers →
  Forall2 (λ cell width, (String.length cell ≤ width)%nat) row (col_widths headers table).
Proof.
  intros Hrow Hlen. apply Forall2_same_length_lookup_2.
  - unfold col_widths. by rewrite length_imap.
  - intros i cell width Hcell Hwidth. unfold col_widths in Hwidth.
    apply list_lookup_imap_Some in Hwidth as (header & Hheader & ->).
    apply (max_list_elem_of_le (String.length cell)). apply list_elem_of_In.
    apply in_map. destruct Hrow as [->|Hin].
    + left. congruence.
    + right. apply in_map_iff. exists row. split; [|done]. by apply nth_lookup_Some.
Qed.

Lemma lengths_of_padded_cells (row : list string) (widths : list nat) :
  Forall2 (λ cell width, (String.length cell ≤ width)%nat) row widths →
  map String.length (zip_with str_ljust row widths) = widths.
Proof.
  induction 1 as [|cell width row widths Hfit _ IH]; [done|].
  cbn. by rewrite IH, length_str_ljust.
Qed.

Lemma sum_list_cons (x : nat) (l : list nat) : sum_list (x :: l) = x + sum_list l.
Proof. reflexivity. Qed.

Lemma length_table_line (widths : list nat) :
  widths ≠ [] →
  String.length (table_line widths) = sum_list widths + 3 * List.length widths + 1.
Proof.
  intros Hne. unfold table_line. rewrite !string_length_app, length_str_join.
  - rewrite map_map, length_map.
    assert (Hsum : sum_list (map (λ w, String.length (str_repeat "-"%char (w + 2))) widths) =
                   sum_list widths + 2 * List.length widths).
    { clear Hne. induction widths as [|w widths IH]; [done|].
      rewrite map_cons, !sum_list_cons, IH, length_str_repeat. cbn [List.length]. lia. }
    rewrite Hsum. destruct widths; [done|]. cbn. lia.
  - by destruct widths.
Qed.

Lemma length_table_row (widths : list nat) (row : list string) :
  row ≠ [] →
  Forall2 (λ cell width, (String.length cell ≤ width)%nat) row widths →
  String.length (table_row widths row) = sum_list widths + 3 * List.length widths + 1.
Proof.
  intros Hne Hfit. unfold table_row.
  rewrite (imap_nth_zip_with str_ljust 0 row widths) by (by eapply Forall2_length).
  assert (Hlen : List.length (zip_with str_ljust row widths) = List.length widths)
    by (by eapply length_zip_with_same_r).
  rewrite !string_length_app, length_str_join, (lengths_of_padded_cells _ _ Hfit), Hlen.
  - destruct Hfit; [done|]. cbn. lia.
  - destruct Hfit; [done|]. done.
Qed.

Lemma print_rows_logs (widths : list nat) (table : list (list string)) (s : state) :
  logs (foldr (λ row rest, log INFO (table_row widths row);; rest) (mret tt) table s).2 =
    logs s ++ map (λ row, (INFO, table_row widths row)) table.
Proof.
  revert s. induction table as [|row table IH]; intros s; [cbn; by rewrite app_nil_r|].
  cbn [foldr]. unfold mbind at 1, M_bind at 1, log at 1. rewrite IH. cbn.
  by rewrite <- app_assoc.
Qed.

(** X22.  [print_table] logs a rectangle: for a table with at least one
    column whose rows have as many cells as there are headers, it logs
    four records more than there are rows (the header, three rules), all
    at level INFO and all of the same length. *)
Theorem print_table_logs_a_rectangle (headers : list string) (table : list (list string))
    (s : state) :
  headers ≠ [] →
  Forall (λ row, List.length row = List.length headers) table →
  ∃ lines : list string,
    logs (print_table headers table s).2 = logs s ++ map (λ line, (INFO, line)) lines ∧
    List.length lines = List.length table + 4 ∧
    Forall (λ line, String.length line =
                    sum_list (col_widths headers table) + 3 * List.length headers + 1) lines.
Proof.
  intros Hne Hrows.
  set (widths := col_widths headers table).
  assert (Hwidths : List.length widths = List.length headers)
    by (unfold widths, col_widths; by rewrite length_imap).
  assert (Hwne : widths ≠ []) by (destruct headers, widths; done).
  assert (Hline : String.length (table_line widths) =
                  sum_list widths + 3 * List.length headers + 1)
    by (by rewrite length_table_line, Hwidths).
  assert (Hrow : ∀ row, row = headers ∨ In row table →
                        List.length row = List.length headers →
                        String.length (table_row widths row) =
                          sum_list widths + 3 * List.length headers + 1).
  { intros row Hin Hlen. rewrite length_table_row, Hwidths; [done| |].
    - destruct row, headers; done.
    - by apply cells_fit_col_widths. }
  exists ([table_line widths; table_row widths headers; table_line widths] ++
          map (table_row widths) table ++ [table_line widths]).
  split; [|split].
  - unfold print_table. fold widths. unfold mbind, M_bind, log. cbn beta iota.
    match goal with |- context [foldr ?f ?z table ?s0] =>
      pose proof (print_rows_logs widths table s0) as Hlogs;
      destruct (print_rows_returns widths table s0) as (s' & Heq & _) end.
    unfold mbind, M_bind, log in Heq, Hlogs. rewrite Heq in Hlogs |- *. cbn in Hlogs |- *.
    rewrite Hlogs, !map_app, map_map, <- !app_assoc. done.
  - rewrite !length_app, length_map. cbn. lia.
  - repeat (apply Forall_cons; split); try done; [by apply Hrow; [left|]|].
    apply Forall_app. split; [|by repeat constructor].
    apply Forall_map, Forall_forall. intros row Hin. apply list_elem_of_In in Hin.
    rewrite Forall_forall in Hrows. apply Hrow; [by right|].
    apply Hrows. by apply list_elem_of_In.
Qed.

Lemma print_table_witness :
  ["Repository"; "Class"] ≠ [] ∧
  Forall (λ row, List.length row = List.length ["Repository"; "Class"])
    [["broken-local"; "local"]; ["builds-local"; "local"]] ∧
  ∃ lines : list string,
    logs (print_table ["Repository"; "Class"]
            [["broken-local"; "local"]; ["builds-local"; "local"]] state0).2 =
      logs state0 ++ map (λ line, (INFO, line)) lines ∧
    List.length lines = 6 ∧
    Forall (λ line, String.length line = 24) lines.
Proof.
  assert (H1 : ["Repository"; "Class"] ≠ []) by done.
  assert (H2 : Forall (λ row, List.length row = List.length ["Repository"; "Class"])
                 [["broken-local"; "local"]; ["builds-local"; "local"]])
    by (by repeat constructor).
  split; [exact H1|]. split; [exact H2|].
  exact (print_table_logs_a_rectangle ["Repository"; "Class"]
           [["broken-local"; "local"]; ["builds-local"; "local"]] state0 H1 H2).
Defined.

(** ** Writing the report, and runs that stop before the start-up *)

Section ReportFile.

Variable fnmatch : string → string → bool.
Variable json_loads : string → option json.
Variable w : world.

Lemma write_rows_until (before after : list csv_record) (row : csv_record)
    (e : string * string) :
  Forall (λ r, writerow_error w r = None) before →
  writerow_error w row = Some e →
  write_rows w (before ++ row :: after) = (before, Some e).
Proof.
  intros Hbefore Hrow. induction Hbefore as [|r before Hr _ IH].
  - cbn. by rewrite Hrow.
  - cbn [app write_rows]. by rewrite Hr, IH.
Qed.

(** X23.  The report is written row by row.  When a row cannot be
    written, the rows after it are lost: the file stays with the header
    and the rows before that one, the exception leaves [write_csv], and
    the record [CSV report generated] is not logged. *)
Theorem report_keeps_the_rows_before_the_one_that_fails (csv_filename : string)
    (before after : list csv_record) (row : csv_record) (cls e_str : string) (s : state) :
  open_error w csv_filename = None →
  Forall (λ r, writerow_error w r = None) before →
  writerow_error w row = Some (cls, e_str) →
  write_csv w csv_filename (before ++ row :: after) s =
    (Raise (Exception cls e_str),
     created s csv_filename (report_file (mk_csv ";" csv_headers before))) ∧
  (write_csv w csv_filename (before ++ row :: after);;
   log INFO ("CSV report generated: " +:+ csv_filename)) s =
    (Raise (Exception cls e_str),
     created s csv_filename (report_file (mk_csv ";" csv_headers before))).
Proof.
  intros Hopen Hbefore Hrow.
  assert (Hwrite : write_csv w csv_filename (before ++ row :: after) s =
                     (Raise (Exception cls e_str),
                      created s csv_filename (report_file (mk_csv ";" csv_headers before)))).
  { unfold write_csv. by rewrite Hopen, (write_rows_until _ _ _ _ Hbefore Hrow). }
  split; [exact Hwrite|]. by rewrite (bind_raise _ _ _ _ _ Hwrite).
Qed.

(** X24.  The log file is made before the command line is looked at.  A
    run that [argparse] ends, for a usage error or for the help, leaves
    an empty log file behind: it has logged nothing and run no command,
    and its exit status is 2, or 0 for the help. *)
Theorem run_ended_by_argparse_leaves_a_log_file (cl : command_line) (s : state) :
  (∀ args, cl ≠ Parsed args) →
  open_error w (log_filename (now w)) = None →
  main fnmatch json_loads w cl s =
    (SysExit (match cl with Usage_error => 2 | _ => 0 end),
     created s (log_filename (now w)) log_file).
Proof.
  intros Hcl Hlog. unfold main. rewrite (bind_ret _ _ _ _ _ (setup_logger_created w s Hlog)).
  destruct cl as [args| |]; [by destruct (Hcl args)|done|done].
Qed.

End ReportFile.

Lemma report_keeps_the_rows_witness :
  open_error Cases.w_unwritable "clean-up-20240101_120000.csv" = None ∧
  Forall (λ r, writerow_error Cases.w_unwritable r = None)
    [mk_record "builds-local" "a/ci-temp/1.zip" "skipped" "*/ci-temp/*" ""] ∧
  writerow_error Cases.w_unwritable (mk_record "builds-local" "c/old/3.zip" "error" "" "403 Forbidden") =
    Some ("UnicodeEncodeError", "surrogates not allowed") ∧
  write_csv Cases.w_unwritable "clean-up-20240101_120000.csv"
    ([mk_record "builds-local" "a/ci-temp/1.zip" "skipped" "*/ci-temp/*" ""] ++
     mk_record "builds-local" "c/old/3.zip" "error" "" "403 Forbidden" ::
     [mk_record "builds-local" "b/rel/2.zip" "deleted" "" ""]) state0 =
    (Raise (Exception "UnicodeEncodeError" "surrogates not allowed"),
     created state0 "clean-up-20240101_120000.csv"
       (report_file (mk_csv ";" csv_headers
                       [mk_record "builds-local" "a/ci-temp/1.zip" "skipped" "*/ci-temp/*" ""]))).
Proof.
  assert (H : Forall (λ r, writerow_error Cases.w_unwritable r = None)
                [mk_record "builds-local" "a/ci-temp/1.zip" "skipped" "*/ci-temp/*" ""])
    by (by repeat constructor).
  split; [reflexivity|]. split; [exact H|]. split; [reflexivity|].
  exact (proj1 (report_keeps_the_rows_before_the_one_that_fails Cases.w_unwritable
                  "clean-up-20240101_120000.csv"
                  [mk_record "builds-local" "a/ci-temp/1.zip" "skipped" "*/ci-temp/*" ""]
                  [mk_record "builds-local" "b/rel/2.zip" "deleted" "" ""]
                  (mk_record "builds-local" "c/old/3.zip" "error" "" "403 Forbidden")
                  "UnicodeEncodeError" "surrogates not allowed" state0 eq_refl H eq_refl)).
Defined.

(** The sample run on that disk: [main] ends with the exception, and the
    report holds the two rows that come before the row of
    [c/old/3.zip]. *)
Example sample_run_unwritable_row :
  ∃ s' : state,
    main Fnmatch.fnmatch Sample.json_loads Cases.w_unwritable (Parsed Sample.args) state0 =
      (Raise (Exception "UnicodeEncodeError" "surrogates not allowed"), s') ∧
    map (λ f, (f.1, match f.2 with
                    | log_file => []
                    | report_file c => map (λ r, (Path r, Status r)) (rows c)
                    end)) (files s') =
      [("clean_old_artifacts_20240101_120000.log", []);
       ("clean-up-20240101_120000.csv",
        [("a/ci-temp/1.zip", "skipped"); ("d/big/4.zip", "Error")])].
Proof. eexists. split; vm_compute; reflexivity. Qed.

Lemma run_ended_by_argparse_witness :
  (∀ args, Usage_error ≠ Parsed args) ∧
  open_error Sample.w (log_filename (now Sample.w)) = None ∧
  main Fnmatch.fnmatch Sample.json_loads Sample.w Usage_error state0 =
    (SysExit 2, created state0 "clean_old_artifacts_20240101_120000.log" log_file).
Proof.
  assert (H : ∀ args, Usage_error ≠ Parsed args) by done.
  split; [exact H|]. split; [reflexivity|].
  exact (run_ended_by_argparse_leaves_a_log_file Fnmatch.fnmatch Sample.json_loads Sample.w
           Usage_error state0 H eq_refl).
Defined.

(** ** Patterns that are not strings *)

Section UncheckedPatterns.

Variable fnmatch : string → string → bool.

Lemma is_excluded_items_until (path : string) (before : list string) (bad : json)
    (after : list json) (matched : gset string) (s : state) :
  (∀ pattern, bad ≠ JStr pattern) →
  is_excluded_items fnmatch path (map JStr before ++ bad :: after) matched s =
    if (is_excluded fnmatch path before matched).1
    then (Ret (is_excluded fnmatch path before matched), s)
    else (Raise (Exception "TypeError" ""), s).
Proof.
  intros Hbad. induction before as [|pattern before IH].
  - cbn. destruct bad as [| | |pattern| |]; try done. by destruct (Hbad pattern).
  - cbn [map app is_excluded_items is_excluded]. by destruct (fnmatch path pattern).
Qed.

(** X25.  Nothing checks that the exclusion patterns are strings before
    the artifacts are looked at.  An ["exclude"] list with an item that
    is not a string loads; [is_excluded] then answers as usual for a
    path that one of the patterns before that item matches, and raises
    [TypeError] for any other path, when its loop reaches the item. *)
Theorem pattern_that_is_not_a_string_raises_when_reached (path : string)
    (before : list string) (bad : json) (after : list json) (s : state) :
  (∀ pattern, bad ≠ JStr pattern) →
  call_is_excluded fnmatch path (JList (map JStr before ++ bad :: after)) s =
    if excluded fnmatch before path
    then (Ret (is_excluded fnmatch path before ∅), s)
    else (Raise (Exception "TypeError" ""), s).
Proof. intros Hbad. unfold call_is_excluded. cbn [py_iter]. by apply is_excluded_items_until. Qed.

End UncheckedPatterns.

Lemma pattern_that_is_not_a_string_witness :
  (∀ pattern, JNum 1 ≠ JStr pattern) ∧
  call_is_excluded Fnmatch.fnmatch "a/ci-temp/1.zip"
    (JList (map JStr ["*/ci-temp/*"] ++ JNum 1 :: [])) state0 =
    (Ret (true, {[ "*/ci-temp/*" ]}), state0) ∧
  call_is_excluded Fnmatch.fnmatch "b/rel/2.zip"
    (JList (map JStr ["*/ci-temp/*"] ++ JNum 1 :: [])) state0 =
    (Raise (Exception "TypeError" ""), state0).
Proof.
  assert (H : ∀ pattern, JNum 1 ≠ JStr pattern) by done.
  split; [exact H|]. split.
  - rewrite (pattern_that_is_not_a_string_raises_when_reached Fnmatch.fnmatch "a/ci-temp/1.zip"
               ["*/ci-temp/*"] (JNum 1) [] state0 H).
    vm_compute. reflexivity.
  - by rewrite (pattern_that_is_not_a_string_raises_when_reached Fnmatch.fnmatch "b/rel/2.zip"
                  ["*/ci-temp/*"] (JNum 1) [] state0 H).
Defined.

(** The sample run with the exclusions file [{"exclude": [1]}]: the
    start-up passes, and [main] ends with [TypeError] at the first
    artifact, before any delete command and without a report. *)
Example sample_run_with_a_number_as_pattern :
  ∃ (repos : list repository) (s1 s' : state),
    setup Cases.json_loads_number Sample.w Sample.args
      (created state0 (log_filename (now Sample.w)) log_file) =
      (Ret (JList [JNum 1], repos), s1) ∧
    main Fnmatch.fnmatch Cases.json_loads_number Sample.w (Parsed Sample.args) state0 =
      (Raise (Exception "TypeError" ""), s') ∧
    files s' = [("clean_old_artifacts_20240101_120000.log", log_file)] ∧
    Forall (λ cmd, nth 2 cmd "" ≠ "del") (calls s').
Proof.
  eexists _, _, _. split; [vm_compute; reflexivity|]. split; [vm_compute; reflexivity|].
  split; [reflexivity|]. vm_compute. by repeat constructor.
Qed.
